(** * Dispatch, rate-limiting and broadcast engine of the rental-channel bot

    A shallow embedding of [maiin.py] and [database.py].

    Conventions of the embedding:
    - the module-level dictionaries and the set of [maiin.py] are finite
      maps and a finite set keyed by the numeric user id;
    - [time.time()] is an argument of the function that reads it, and a
      point in time is an exact rational number of seconds;
    - a coroutine is the function from the stores it reads to its result
      and the stores it leaves behind. *)

From Stdlib Require Import ZArith QArith Lqa List Bool String Ascii.
From stdpp Require Import gmap strings sorting.
Import ListNotations.

Local Open Scope Z_scope.

(** ** Comparisons on time stamps *)

(** [a < b] on rationals as a boolean, the test the Python code branches on. *)
Definition Qltb (a b : Q) : bool := negb (Qle_bool b a).

(** ** Anti-spam constants ([maiin.py], lines 83-85) *)

Definition RATE_LIMIT_THRESHOLD : nat := 5.
Definition RATE_LIMIT_WINDOW : Q := 10.
Definition MESSAGE_COOLDOWN : Q := 2.

(** ** The rate limiter *)

Module RateLimit.

(** The three module-level stores of the anti-spam system. *)
Record store := Store {
  user_message_counts : gmap Z (list Q);
  last_message_times : gmap Z Q;
  blocked_users : gset Z
}.

Definition empty_store : store := Store ∅ ∅ ∅.

(** The list comprehension that drops the stamps older than the window. *)
Definition prune (current_time : Q) (l : list Q) : list Q :=
  List.filter (fun msg_time => Qltb (current_time - msg_time) RATE_LIMIT_WINDOW) l.

(** The list held for [user_id] once the "new user" branch has run. *)
Definition counts_of (s : store) (user_id : Z) : list Q :=
  default [] (user_message_counts s !! user_id).

(** The cooldown test: there is a last admitted event and it is too recent. *)
Definition in_cooldown (s : store) (user_id : Z) (current_time : Q) : bool :=
  match last_message_times s !! user_id with
  | Some t => Qltb (current_time - t) MESSAGE_COOLDOWN
  | None => false
  end.

(** [check_rate_limit], with [time.time()] passed as [current_time]. *)
Definition check_rate_limit (s : store) (user_id : Z) (current_time : Q)
  : bool * store :=
  if decide (user_id ∈ blocked_users s) then (false, s)
  else
    let pruned := prune current_time (counts_of s user_id) in
    let s1 := Store (<[user_id := pruned]> (user_message_counts s))
                    (last_message_times s) (blocked_users s) in
    if in_cooldown s1 user_id current_time then (false, s1)
    else if (RATE_LIMIT_THRESHOLD <=? length pruned)%nat then
      (false, Store (user_message_counts s1) (last_message_times s1)
                    ({[user_id]} ∪ blocked_users s1))
    else
      (true, Store (<[user_id := pruned ++ [current_time]]> (user_message_counts s1))
                   (<[user_id := current_time]> (last_message_times s1))
                   (blocked_users s1)).

(** The part of [admin_clear_cache] that touches the anti-spam stores:
    [blocked_users.clear()], [user_message_counts.clear()] and
    [last_message_times.clear()]. *)
Definition clear (s : store) : store := Store ∅ ∅ ∅.

(** A run of calls, each a user id with the clock reading of its call;
    the store threads through them as the globals do. *)
Fixpoint run (s : store) (evs : list (Z * Q)) : store :=
  match evs with
  | [] => s
  | (user_id, current_time) :: evs' =>
      run (snd (check_rate_limit s user_id current_time)) evs'
  end.

(** The answers of such a run, in order. *)
Fixpoint answers (s : store) (evs : list (Z * Q)) : list bool :=
  match evs with
  | [] => []
  | (user_id, current_time) :: evs' =>
      let r := check_rate_limit s user_id current_time in
      fst r :: answers (snd r) evs'
  end.

(** The store after four events of user 1, two seconds apart. *)
Definition four_events : store :=
  run empty_store [(1, 0%Q); (1, 2%Q); (1, 4%Q); (1, 6%Q)].

(** Stamps two seconds or more apart, oldest first. *)
Definition spaced (l : list Q) : Prop :=
  StronglySorted (fun a b => a + MESSAGE_COOLDOWN <= b)%Q l.

(** What holds of every store the calls build from the empty one: nobody
    is blocked, the stamps of a user are spaced, and none of them is later
    than the last admitted event of that user. *)
Definition reachable_shape (s : store) : Prop :=
  blocked_users s = ∅ /\
  forall u, spaced (counts_of s u) /\
    Forall (fun x => exists t, last_message_times s !! u = Some t /\ (x <= t)%Q)
           (counts_of s u).

End RateLimit.

(** ** The subscription cache *)

Module Subscription.

Definition SUBSCRIPTION_CACHE_TTL : Q := 300.

(** What [bot.get_chat_member] does: it raises, or it returns a member
    whose [status] is a string. *)
Inductive api_result :=
| ApiError
| Member (status : string).

(** [member.status in ['member', 'administrator', 'creator']] *)
Definition is_member_status (status : string) : bool :=
  (status =? "member")%string || (status =? "administrator")%string
  || (status =? "creator")%string.

(** The result of a call: the boolean returned, the cache left behind and
    the user ids [bot.get_chat_member] was called with during the call. *)
Record outcome := Outcome {
  returned : bool;
  cache_after : gmap Z (bool * Q);
  api_calls : list Z
}.

(** [check_subscription_cached]; [get_chat_member] stands for the request
    to the transport for the configured channel. *)
Definition check_subscription_cached (subscription_cache : gmap Z (bool * Q))
    (get_chat_member : Z -> api_result) (user_id : Z) (current_time : Q)
  : outcome :=
  let request (_ : unit) :=
    match get_chat_member user_id with
    | Member status =>
        let is_subscribed := is_member_status status in
        Outcome is_subscribed
                (<[user_id := (is_subscribed, current_time)]> subscription_cache)
                [user_id]
    | ApiError => Outcome false subscription_cache [user_id]
    end in
  match subscription_cache !! user_id with
  | Some (is_subscribed, timestamp) =>
      if Qltb (current_time - timestamp) SUBSCRIPTION_CACHE_TTL
      then Outcome is_subscribed subscription_cache []
      else request tt
  | None => request tt
  end.

End Subscription.

(** ** Text as the SQL and Python functions of the code see it *)

Module Text.

Local Open Scope char_scope.

(** SQL [lower] on one character: the letters A-Z move to a-z. *)
Definition lower_char (c : ascii) : ascii :=
  let n := nat_of_ascii c in
  if ((65 <=? n) && (n <=? 90))%nat then ascii_of_nat (n + 32) else c.

Fixpoint lower (s : string) : string :=
  match s with
  | EmptyString => EmptyString
  | String c s' => String (lower_char c) (lower s')
  end.

(** The characters [str.strip()] removes (in the ASCII range). *)
Definition is_space (c : ascii) : bool :=
  let n := nat_of_ascii c in
  ((9 <=? n) && (n <=? 13) || (28 <=? n) && (n <=? 32))%nat.

Fixpoint lstrip (s : string) : string :=
  match s with
  | EmptyString => EmptyString
  | String c s' => if is_space c then lstrip s' else s
  end.

Fixpoint rstrip (s : string) : string :=
  match s with
  | EmptyString => EmptyString
  | String c s' =>
      match rstrip s' with
      | EmptyString => if is_space c then EmptyString else String c EmptyString
      | r => String c r
      end
  end.

Definition strip (s : string) : string := rstrip (lstrip s).

(** SQL [s LIKE p] without an escape character: in the pattern, [%] stands
    for any run of characters and [_] for any one character; any other
    character stands for itself. The queries apply it to lowered text on
    both sides, so letter case plays no part in the comparison. *)
Fixpoint like (p : string) : string -> bool :=
  match p with
  | EmptyString => fun s => match s with EmptyString => true | _ => false end
  | String c p' =>
      if Ascii.eqb c "%" then
        fix any (s : string) : bool :=
          like p' s || match s with
                       | EmptyString => false
                       | String _ s' => any s'
                       end
      else if Ascii.eqb c "_" then
        fun s => match s with
                 | EmptyString => false
                 | String _ s' => like p' s'
                 end
      else
        fun s => match s with
                 | EmptyString => false
                 | String d s' => Ascii.eqb c d && like p' s'
                 end
  end.

(** [p] is an initial segment of [s]. *)
Fixpoint starts_with (p s : string) : bool :=
  match p, s with
  | EmptyString, _ => true
  | String c p', String d s' => Ascii.eqb c d && starts_with p' s'
  | String _ _, EmptyString => false
  end.

(** A pattern character that [LIKE] reads as a wildcard. *)
Definition is_wildcard (c : ascii) : bool := Ascii.eqb c "%" || Ascii.eqb c "_".

Fixpoint has_wildcard (s : string) : bool :=
  match s with
  | EmptyString => false
  | String c s' => is_wildcard c || has_wildcard s'
  end.

End Text.

(** ** The repository ([database.py]) *)

Module Repo.

(** A point in time as the storage engine records it. *)
Definition timestamp := string.

(** A row of [users]; the columns [username], [first_name], [lang],
    [last_city], [created_at], [last_seen_at] and [utm_source] are read and
    written by none of the operations below and are left out. *)
Record user_row := UserRow {
  row_id : Z;
  tg_id : Z;
  is_active : bool;
  is_blocked : bool;
  updated_at : timestamp
}.

(** A row of [unsubscriptions] (the serial key left out). *)
Record unsubscription_row := UnsubRow {
  unsub_user_id : Z;
  unsub_reason : string;
  unsub_created_at : timestamp
}.

(** A row of [cities]. [channel_url] is nullable. *)
Record city_row := CityRow {
  code : string;
  name_uk : string;
  channel_url : option string;
  city_is_active : bool
}.

(** A row of [city_aliases]. *)
Record alias_row := AliasRow {
  city_code : string;
  alias : string
}.

(** A row of [admin_actions]. *)
Record admin_action_row := AdminActionRow {
  admin_tg_id : Z;
  action : string;
  action_created_at : timestamp
}.

(** The tables, each in storage order. *)
Record db := Db {
  users : list user_row;
  unsubscriptions : list unsubscription_row;
  cities : list city_row;
  city_aliases : list alias_row;
  admin_actions : list admin_action_row
}.

(** The dictionary a city query returns: [code], [name_uk], [channel_url]. *)
Record city := City {
  c_code : string;
  c_name_uk : string;
  c_channel_url : option string
}.

(** [WHERE is_active = TRUE AND is_blocked = FALSE] *)
Definition deliverable (r : user_row) : bool := is_active r && negb (is_blocked r).

(** [set_user_blocked]. The [UPDATE] and, when [blocked] holds, the
    [INSERT ... SELECT id, reason FROM users WHERE tg_id = ...] run in one
    transaction (one [commit] in the SQLite branch), so the operation is
    one function on the database. [unsubscriptions] has no uniqueness
    constraint besides its key, so the insert never meets a conflict. *)
Definition set_user_blocked (d : db) (tg : Z) (blocked : bool)
    (reason : string) (now : timestamp) : db :=
  let users' :=
    map (fun r => if Z.eqb (tg_id r) tg
                  then UserRow (row_id r) (tg_id r) (negb blocked) blocked now
                  else r) (users d) in
  let inserted :=
    map (fun r => UnsubRow (row_id r) reason now)
        (List.filter (fun r => Z.eqb (tg_id r) tg) users') in
  Db users'
     (if blocked then unsubscriptions d ++ inserted else unsubscriptions d)
     (cities d) (city_aliases d) (admin_actions d).

(** One call of [set_user_blocked] and a run of such calls. *)
Record block_call := BlockCall {
  call_tg_id : Z;
  call_is_blocked : bool;
  call_reason : string;
  call_now : timestamp
}.

Definition apply_call (d : db) (c : block_call) : db :=
  set_user_blocked d (call_tg_id c) (call_is_blocked c) (call_reason c) (call_now c).

Definition apply_calls (d : db) (calls : list block_call) : db :=
  fold_left apply_call calls d.

(** Every row of [tg] carries the block flag. *)
Definition all_blocked (d : db) (tg : Z) : Prop :=
  forall r, In r (users d) -> tg_id r = tg -> is_blocked r = true.

(** [get_users_count] *)
Definition get_users_count (d : db) (active_only : bool) : nat :=
  if active_only then length (List.filter deliverable (users d))
  else length (users d).

(** [get_all_users]. Each dictionary is written
    [{'user_id': row id, 'user_id': row tg_id}]: the key is given twice and
    the second value stays, so a recipient is its [tg_id]. *)
Definition get_all_users (d : db) : list Z :=
  map tg_id (List.filter deliverable (users d)).

(** The rows of [city_aliases a JOIN cities c ON c.code = a.city_code],
    alias rows outermost. *)
Definition alias_join (d : db) : list (alias_row * city_row) :=
  flat_map (fun a =>
    map (fun c => (a, c))
        (List.filter (fun c => String.eqb (code c) (city_code a)) (cities d)))
    (city_aliases d).

Definition to_city (c : city_row) : city := City (code c) (name_uk c) (channel_url c).

(** [find_city_by_alias]: [lower(a.alias) = lower(input)] on an active
    city, [LIMIT 1]. *)
Definition find_city_by_alias (d : db) (user_input : string) : option city :=
  let key := Text.lower (Text.strip user_input) in
  head (map (fun ac => to_city (snd ac))
         (List.filter
            (fun ac => String.eqb (Text.lower (alias (fst ac))) key
                       && city_is_active (snd ac))
            (alias_join d))).

(** [ORDER BY length(a.alias) ASC]. The engine promises no order among
    rows of equal length; they are taken to keep their storage order, so
    a row goes in front of the later rows that are not shorter. *)
Fixpoint insert_by_length (x : alias_row * city_row)
    (l : list (alias_row * city_row)) : list (alias_row * city_row) :=
  match l with
  | [] => [x]
  | y :: l' =>
      if (String.length (alias (fst x)) <=? String.length (alias (fst y)))%nat
      then x :: l
      else y :: insert_by_length x l'
  end.

Definition order_by_length (l : list (alias_row * city_row))
  : list (alias_row * city_row) :=
  fold_right insert_by_length [] l.

(** [find_cities_by_prefix]: [lower(a.alias) LIKE lower(input) || '%'] on
    an active city, shortest alias first, [LIMIT limit]. *)
Definition find_cities_by_prefix (d : db) (prefix : string) (limit : nat)
  : list city :=
  let pattern := (Text.lower (Text.strip prefix) ++ "%")%string in
  map (fun ac => to_city (snd ac))
    (firstn limit
       (order_by_length
          (List.filter
             (fun ac => Text.like pattern (Text.lower (alias (fst ac)))
                        && city_is_active (snd ac))
             (alias_join d)))).

(** The first of the rows with the shortest alias, in the words of the
    resolver's contract: shortest alias wins, storage order breaks ties. *)
Fixpoint first_shortest (l : list (alias_row * city_row))
  : option (alias_row * city_row) :=
  match l with
  | [] => None
  | x :: l' =>
      match first_shortest l' with
      | None => Some x
      | Some y =>
          if (String.length (alias (fst x)) <=? String.length (alias (fst y)))%nat
          then Some x else Some y
      end
  end.

(** A database with the city Kyiv under the alias "Kyiv". *)
Definition kyiv_db : db :=
  Db [] [] [CityRow "kyiv" "Kyiv" (Some "https://t.me/kyiv") true]
     [AliasRow "kyiv" "Kyiv"] [].

(** Two cities: "Kyivska" is stored first and its alias begins with the
    alias "Kyiv" of the other. *)
Definition two_cities_db : db :=
  Db [] []
     [CityRow "kyivska" "Kyivska oblast" None true;
      CityRow "kyiv" "Kyiv" (Some "https://t.me/kyiv") true]
     [AliasRow "kyivska" "Kyivska"; AliasRow "kyiv" "Kyiv"] [].

(** [get_available_cities], up to the order of the rows ([ORDER BY
    name_uk] follows the collation of the engine). *)
Definition get_available_cities (d : db) : list city :=
  map to_city
    (List.filter
       (fun c => city_is_active c
                 && match channel_url c with
                    | Some u => negb (String.eqb u "")
                    | None => false
                    end)
       (cities d)).

End Repo.

(** ** The city resolver ([find_city]) *)

Definition find_city (d : Repo.db) (city_input : string) : option Repo.city :=
  match Repo.find_city_by_alias d city_input with
  | Some city => Some city
  | None => head (Repo.find_cities_by_prefix d city_input 1)
  end.

(** ** The handlers ([maiin.py]) *)

Module Bot.

(** [BotStates] *)
Inductive BotStates :=
| waiting_for_city
| waiting_for_broadcast_message
| waiting_for_rental_form
| admin_menu.

(** The FSM context of one user in the memory storage: a state, [None]
    when idle, and the data dictionary. *)
Record session := Session {
  state : option BotStates;
  data : gmap string string
}.

(** The fields of an incoming [Message] the handlers read. [photo] is the
    [file_id] of the last size when the message carries a photo. *)
Record message := Message {
  from_user : Z;
  text : option string;
  caption : option string;
  photo : option string
}.

(** The fields of an incoming [CallbackQuery] the handlers read. *)
Record callback_query := CallbackQuery {
  cb_from_user : Z;
  cb_chat_id : Z;
  cb_message_id : Z
}.

(** The dictionary [get_admin_stats] fills; the two entries over the last
    seven days are printed by the handlers only and are left out. *)
Record admin_stats := AdminStats {
  total_users : nat;
  active_users : nat;
  blocked_users_count : nat;
  total_unsubscriptions : nat
}.

(** The texts the admin handlers send, by template and interpolated data. *)
Inductive reply_text :=
| NotRecognized
| NoAccess
| AdminPanel (users_count available_cities : nat) (clock : string)
| StatsText (users_count available_cities blocked subs_cached msgs_cached : nat)
| ExtendedStats (stats : admin_stats) (available_cities subs_cached : nat)
                (clock : string)
| BroadcastPrompt (users_count : nat)
| UsersInfo (stats : admin_stats)
| CachesCleared
| NoUsersForBroadcast
| NoContent.

(** The texts [process_broadcast] writes into its status message. *)
Inductive status_text :=
| Starting (recipients : nat) (is_photo : bool)
| Progress (sent failed blocked recipients : nat)
| Finished (sent failed blocked : nat) (is_photo : bool) (success_percent : Q).

(** The calls to the transport, in the order they are issued. *)
Inductive action :=
| MessageAnswer (t : reply_text)
| CallbackAnswer (t : option reply_text) (show_alert : bool)
| EditText (chat_id message_id : Z) (t : reply_text)
| StatusAnswer (t : status_text)
| StatusEdit (t : status_text)
| SendMessage (chat_id : Z) (body : string)
| SendPhoto (chat_id : Z) (file_id : string) (caption : option string)
| Sleep.

(** How a delivery to one recipient ends: it returns, it raises
    [TelegramForbiddenError], or it raises another exception. *)
Inductive delivery := Delivered | Forbidden | Failed.

(** How [callback.message.edit_text] ends: it returns, it raises
    [TelegramBadRequest], or it raises another exception. *)
Inductive edit_result := EditDone | EditBadRequest | EditFailed.

Inductive exn := ZeroDivisionError.

(** A key of [message_cache]: ["{chat}_{message}"] or ["help_{user}"]. *)
Definition cache_key : Type := (Z * Z) + Z.

(** Everything the handlers share: the FSM storage, the module-level
    stores and the database. *)
Record world := World {
  fsm : gmap Z session;
  rate : RateLimit.store;
  subscription_cache : gmap Z (bool * Q);
  message_cache : gmap cache_key reply_text;
  database : Repo.db
}.

#[export] Instance admin_stats_eq_dec : EqDecision admin_stats.
Proof. solve_decision. Defined.

#[export] Instance reply_text_eq_dec : EqDecision reply_text.
Proof. solve_decision. Defined.

(** The counters of a broadcast run. *)
Record tally := Tally { sent : nat; failed : nat; blocked : nat }.

Definition processed (t : tally) : nat := (sent t + failed t + blocked t)%nat.

(** The fixed payload of a broadcast. *)
Inductive payload :=
| TextPayload (text_content : string)
| PhotoPayload (photo_file_id : string) (text_content : option string).

Definition send (p : payload) (chat_id : Z) : action :=
  match p with
  | TextPayload body => SendMessage chat_id body
  | PhotoPayload file_id cap => SendPhoto chat_id file_id cap
  end.

(** [sent/(sent+failed+blocked)*100]; Python raises when the divisor is 0. *)
Definition success_percent_of (t : tally) : option Q :=
  match processed t with
  | O => None
  | S _ => Some (inject_Z (Z.of_nat (sent t)) / inject_Z (Z.of_nat (processed t)) * 100)%Q
  end.

(** [state.set_state], [state.clear] and the default record of the storage. *)
Definition session_of (w : world) (user : Z) : session :=
  default (Session None ∅) (fsm w !! user).

Definition set_state (w : world) (user : Z) (st : BotStates) : world :=
  World (<[user := Session (Some st) (data (session_of w user))]> (fsm w))
        (rate w) (subscription_cache w) (message_cache w) (database w).

Definition clear_state (w : world) (user : Z) : world :=
  World (<[user := Session None ∅]> (fsm w))
        (rate w) (subscription_cache w) (message_cache w) (database w).

Definition with_database (w : world) (d : Repo.db) : world :=
  World (fsm w) (rate w) (subscription_cache w) (message_cache w) d.

(** [get_admin_stats], the four counts over whole tables. [database.py]
    as given breaks off inside this function; the dictionary it fills is
    taken to be what it returns. *)
Definition get_admin_stats (d : Repo.db) : admin_stats :=
  AdminStats (length (Repo.users d))
             (length (List.filter Repo.deliverable (Repo.users d)))
             (length (List.filter Repo.is_blocked (Repo.users d)))
             (length (Repo.unsubscriptions d)).

(** Modelled from the spec: [log_admin_action] is called by
    [admin_stats_callback] and is not in [database.py] as given; the
    repository interface lists it as one logical write, here one row
    appended to [admin_actions]. *)
Definition log_admin_action (d : Repo.db) (admin : Z) (act : string)
    (now : Repo.timestamp) : Repo.db :=
  Repo.Db (Repo.users d) (Repo.unsubscriptions d) (Repo.cities d)
          (Repo.city_aliases d)
          (Repo.admin_actions d ++ [Repo.AdminActionRow admin act now]).

(** [safe_edit_message]; [edited] is how the edit at the transport ends. *)
Definition safe_edit_message (w : world) (edited : edit_result)
    (cb : callback_query) (t : reply_text) : list action * world :=
  let message_key : cache_key := inl (cb_chat_id cb, cb_message_id cb) in
  if decide (message_cache w !! message_key = Some t)
  then ([CallbackAnswer None false], w)
  else
    let edit := EditText (cb_chat_id cb) (cb_message_id cb) t in
    match edited with
    | EditDone =>
        ([edit], World (fsm w) (rate w) (subscription_cache w)
                       (<[message_key := t]> (message_cache w)) (database w))
    | EditBadRequest => ([edit; CallbackAnswer None false], w)
    | EditFailed => ([edit; MessageAnswer t], w)
    end.

(** The [for user in users] loop of [process_broadcast]. [deliver i user]
    is how the [i]-th delivery, to [user], ends; [utcnow i] is the clock
    the repository reads during that iteration. *)
Fixpoint broadcast_loop (deliver : nat -> Z -> delivery)
    (utcnow : nat -> Repo.timestamp) (p : payload) (recipients : nat)
    (users : list Z) (t : tally) (d : Repo.db)
  : list action * tally * Repo.db :=
  match users with
  | [] => ([], t, d)
  | user :: users' =>
      let i := processed t in
      let '(t1, d1) :=
        match deliver i user with
        | Delivered => (Tally (S (sent t)) (failed t) (blocked t), d)
        | Forbidden =>
            (Tally (sent t) (failed t) (S (blocked t)),
             Repo.set_user_blocked d user true "blocked" (utcnow i))
        | Failed => (Tally (sent t) (S (failed t)) (blocked t), d)
        end in
      let progress :=
        if (processed t1 mod 10 =? 0)%nat
        then [StatusEdit (Progress (sent t1) (failed t1) (blocked t1) recipients)]
        else [] in
      let '(acts, t2, d2) :=
        broadcast_loop deliver utcnow p recipients users' t1 d1 in
      (send p user :: Sleep :: progress ++ acts, t2, d2)
  end.

(** The truth value Python gives an optional string. *)
Definition truthy (s : option string) : bool :=
  match s with
  | Some s => negb (String.eqb s "")
  | None => false
  end.

(** [is_photo = message.photo is not None] *)
Definition is_photo (m : message) : bool :=
  match photo m with Some _ => true | None => false end.

(** [text_content = message.caption if is_photo else message.text] *)
Definition text_content (m : message) : option string :=
  if is_photo m then caption m else text m.

(** The payload sent to every recipient, decided once. *)
Definition payload_of (m : message) : payload :=
  match photo m with
  | Some photo_file_id => PhotoPayload photo_file_id (text_content m)
  | None => TextPayload (default "" (text_content m))
  end.

(** The recipients the transport was asked to deliver to, in order. *)
Definition attempted (acts : list action) : list Z :=
  flat_map (fun a => match a with
                     | SendMessage chat_id _ | SendPhoto chat_id _ _ => [chat_id]
                     | _ => []
                     end) acts.

(** How the deliveries to [users] end when the first is number [i]. *)
Fixpoint outcomes (deliver : nat -> Z -> delivery) (i : nat) (users : list Z)
  : list delivery :=
  match users with
  | [] => []
  | user :: users' => deliver i user :: outcomes deliver (S i) users'
  end.

Definition delivery_eqb (a b : delivery) : bool :=
  match a, b with
  | Delivered, Delivered | Forbidden, Forbidden | Failed, Failed => true
  | _, _ => false
  end.

(** How many of the outcomes in [l] are [o]. *)
Definition count (o : delivery) (l : list delivery) : nat :=
  length (List.filter (delivery_eqb o) l).

Section Handlers.

(** The configured administrator. *)
Variable ADMIN_ID : Z.

(** [cmd_admin] *)
Definition cmd_admin (w : world) (m : message) (clock : string)
  : list action * world :=
  if negb (Z.eqb (from_user m) ADMIN_ID)
  then ([MessageAnswer NotRecognized], w)
  else
    let w1 := set_state w (from_user m) admin_menu in
    let users_count := Repo.get_users_count (database w1) true in
    let available_cities := length (Repo.get_available_cities (database w1)) in
    ([MessageAnswer (AdminPanel users_count available_cities clock)], w1).

(** [cmd_stats] *)
Definition cmd_stats (w : world) (m : message) : list action * world :=
  if negb (Z.eqb (from_user m) ADMIN_ID)
  then ([MessageAnswer NotRecognized], w)
  else
    let users_count := Repo.get_users_count (database w) true in
    let available_cities := length (Repo.get_available_cities (database w)) in
    ([MessageAnswer
        (StatsText users_count available_cities
           (size (RateLimit.blocked_users (rate w)))
           (size (subscription_cache w)) (size (message_cache w)))], w).

(** [admin_stats_callback] *)
Definition admin_stats_callback (w : world) (edited : edit_result)
    (cb : callback_query) (now : Repo.timestamp) (clock : string)
  : list action * world :=
  if negb (Z.eqb (cb_from_user cb) ADMIN_ID)
  then ([CallbackAnswer (Some NoAccess) true], w)
  else
    let w1 := with_database w
                (log_admin_action (database w) (cb_from_user cb) "view_stats" now) in
    let stats := get_admin_stats (database w1) in
    let available_cities := length (Repo.get_available_cities (database w1)) in
    safe_edit_message w1 edited cb
      (ExtendedStats stats available_cities (size (subscription_cache w1)) clock).

(** [admin_broadcast_callback] *)
Definition admin_broadcast_callback (w : world) (edited : edit_result)
    (cb : callback_query) : list action * world :=
  if negb (Z.eqb (cb_from_user cb) ADMIN_ID)
  then ([CallbackAnswer (Some NoAccess) true], w)
  else
    let users_count := Repo.get_users_count (database w) true in
    let '(acts, w1) := safe_edit_message w edited cb (BroadcastPrompt users_count) in
    (acts ++ [CallbackAnswer None false],
     set_state w1 (cb_from_user cb) waiting_for_broadcast_message).

(** [admin_users_callback] *)
Definition admin_users_callback (w : world) (edited : edit_result)
    (cb : callback_query) : list action * world :=
  if negb (Z.eqb (cb_from_user cb) ADMIN_ID)
  then ([CallbackAnswer (Some NoAccess) true], w)
  else safe_edit_message w edited cb (UsersInfo (get_admin_stats (database w))).

(** [admin_clear_cache] *)
Definition admin_clear_cache (w : world) (cb : callback_query)
  : list action * world :=
  if negb (Z.eqb (cb_from_user cb) ADMIN_ID)
  then ([CallbackAnswer (Some NoAccess) true], w)
  else
    ([CallbackAnswer (Some CachesCleared) true],
     World (fsm w) (RateLimit.clear (rate w)) ∅ ∅ (database w)).

(** [process_broadcast]. The third component is the exception the
    coroutine ends with, if any. *)
Definition process_broadcast (w : world) (deliver : nat -> Z -> delivery)
    (utcnow : nat -> Repo.timestamp) (m : message)
  : list action * world * option exn :=
  if negb (Z.eqb (from_user m) ADMIN_ID) then ([], w, None)
  else
    let users := Repo.get_all_users (database w) in
    match users with
    | [] => ([MessageAnswer NoUsersForBroadcast], clear_state w (from_user m), None)
    | _ :: _ =>
        if negb (truthy (text_content m)) && negb (is_photo m)
        then ([MessageAnswer NoContent], w, None)
        else
          let '(acts, t, d) :=
            broadcast_loop deliver utcnow (payload_of m) (length users) users
                           (Tally 0 0 0) (database w) in
          let w1 := with_database w d in
          match success_percent_of t with
          | None =>
              (StatusAnswer (Starting (length users) (is_photo m)) :: acts, w1,
               Some ZeroDivisionError)
          | Some percent =>
              (StatusAnswer (Starting (length users) (is_photo m)) :: acts
                 ++ [StatusEdit (Finished (sent t) (failed t) (blocked t)
                                          (is_photo m) percent)],
               clear_state w1 (from_user m), None)
          end
    end.

(** The operations guarded by the comparison with [ADMIN_ID], each with
    the event and the readings of the outside world it is run on. *)
Inductive admin_operation :=
| OpAdmin (m : message) (clock : string)
| OpStats (m : message)
| OpStatsCallback (edited : edit_result) (cb : callback_query)
                  (now : Repo.timestamp) (clock : string)
| OpBroadcastCallback (edited : edit_result) (cb : callback_query)
| OpUsersCallback (edited : edit_result) (cb : callback_query)
| OpClearCache (cb : callback_query)
| OpBroadcast (deliver : nat -> Z -> delivery) (utcnow : nat -> Repo.timestamp)
              (m : message).

(** Who sent the event of an operation. *)
Definition sender (op : admin_operation) : Z :=
  match op with
  | OpAdmin m _ | OpStats m | OpBroadcast _ _ m => from_user m
  | OpStatsCallback _ cb _ _ | OpBroadcastCallback _ cb
  | OpUsersCallback _ cb | OpClearCache cb => cb_from_user cb
  end.

Definition run_operation (w : world) (op : admin_operation)
  : list action * world :=
  match op with
  | OpAdmin m clock => cmd_admin w m clock
  | OpStats m => cmd_stats w m
  | OpStatsCallback edited cb now clock => admin_stats_callback w edited cb now clock
  | OpBroadcastCallback edited cb => admin_broadcast_callback w edited cb
  | OpUsersCallback edited cb => admin_users_callback w edited cb
  | OpClearCache cb => admin_clear_cache w cb
  | OpBroadcast deliver utcnow m => fst (process_broadcast w deliver utcnow m)
  end.

(** What a sender other than the administrator gets back. *)
Definition rejection (op : admin_operation) : list action :=
  match op with
  | OpAdmin _ _ | OpStats _ => [MessageAnswer NotRecognized]
  | OpStatsCallback _ _ _ _ | OpBroadcastCallback _ _
  | OpUsersCallback _ _ | OpClearCache _ => [CallbackAnswer (Some NoAccess) true]
  | OpBroadcast _ _ _ => []
  end.

End Handlers.

(** A world with nothing stored, and one with three users that can be
    delivered to. *)
Definition empty_db : Repo.db := Repo.Db [] [] [] [] [].

Definition empty_world : world :=
  World ∅ RateLimit.empty_store ∅ ∅ empty_db.

Definition three_users : world :=
  World ∅ RateLimit.empty_store ∅ ∅
    (Repo.Db [Repo.UserRow 1 11 true false "t0"; Repo.UserRow 2 22 true false "t0";
              Repo.UserRow 3 33 true false "t0"] [] [] [] []).

End Bot.

(** ** Readings of a broadcast run *)

Module Broadcast.

Import Bot.

(** The recipients whose delivery raises the forbidden error, when the
    first delivery is number [i]. *)
Fixpoint forbidden_of (deliver : nat -> Z -> delivery) (i : nat) (users : list Z)
  : list Z :=
  match users with
  | [] => []
  | user :: users' =>
      match deliver i user with
      | Forbidden => user :: forbidden_of deliver (S i) users'
      | _ => forbidden_of deliver (S i) users'
      end
  end.

(** The progress updates among the calls of a run. *)
Definition progress_edits (acts : list action) : list status_text :=
  flat_map (fun a => match a with
                     | StatusEdit (Progress s f b n) => [Progress s f b n]
                     | _ => []
                     end) acts.

(** The pauses among the calls of a run. *)
Definition pauses (acts : list action) : nat :=
  length (List.filter (fun a => match a with Sleep => true | _ => false end) acts).

(** How many recipients a progress update reports as processed. *)
Definition reported (t : status_text) : nat :=
  match t with
  | Progress s f b _ => (s + f + b)%nat
  | _ => 0%nat
  end.

(** A world with [n] users that can be delivered to. *)
Definition crowd (n : nat) : world :=
  World ∅ RateLimit.empty_store ∅ ∅
    (Repo.Db (map (fun k => Repo.UserRow (Z.of_nat k) (100 + Z.of_nat k) true false "t0")
                  (seq 1 n)) [] [] [] []).

End Broadcast.
(** ** Readings of texts *)

Module TextMore.

(** All characters of [s] are among those [str.strip()] removes. *)
Fixpoint all_space (s : string) : bool :=
  match s with
  | EmptyString => true
  | String c s' => Text.is_space c && all_space s'
  end.

End TextMore.

(** ** The repository with every column of [users] *)

Module Full.

Import Repo.

(** A row of [users], all columns. *)
Record user := User {
  id : Z;
  tg_id : Z;
  username : option string;
  first_name : option string;
  lang : string;
  last_city : option string;
  is_active : bool;
  is_blocked : bool;
  created_at : timestamp;
  updated_at : timestamp;
  last_seen_at : option timestamp;
  utm_source : option string
}.

(** A row of [user_city_history] (the serial key left out). *)
Record history_row := HistoryRow {
  h_user_id : Z;
  h_city_code : string;
  h_city_name_uk : string;
  h_selected_at : timestamp
}.

(** The tables the user-facing handlers reach, each in storage order. *)
Record db := Db {
  users : list user;
  unsubscriptions : list unsubscription_row;
  cities : list city_row;
  city_aliases : list alias_row;
  admin_actions : list admin_action_row;
  user_city_history : list history_row
}.

(** The columns of a row that [Repo.user_row] keeps, and the database as
    the operations of [Repo] see it. *)
Definition core_row (u : user) : user_row :=
  UserRow (id u) (tg_id u) (is_active u) (is_blocked u) (updated_at u).

Definition core (d : db) : Repo.db :=
  Repo.Db (map core_row (users d)) (unsubscriptions d) (cities d)
          (city_aliases d) (admin_actions d).

(** The key the engine gives the next row of [users]: one more than the
    largest key in the table, rows never being deleted. *)
Definition next_id (us : list user) : Z :=
  1 + fold_right (fun u acc => Z.max (id u) acc) 0 us.

Definition has_tg (tg : Z) (u : user) : bool := Z.eqb (tg_id u) tg.

(** [save_user]: insert, or on a conflict on [tg_id] update [username],
    [first_name], [last_seen_at] and [updated_at]. [now] is the time the
    statement writes, [created] the engine's default for [created_at].
    The result is the [id] of the row of [tg]. *)
Definition save_user (d : db) (tg : Z) (uname fname utm : option string)
    (now created : timestamp) : option Z * db :=
  let users' :=
    if existsb (has_tg tg) (users d)
    then map (fun u => if has_tg tg u
                       then User (id u) (tg_id u) uname fname (lang u) (last_city u)
                                 (is_active u) (is_blocked u) (created_at u) now
                                 (Some now) (utm_source u)
                       else u) (users d)
    else users d ++ [User (next_id (users d)) tg uname fname "uk" None true false
                          created now (Some now) utm] in
  (option_map id (List.find (has_tg tg) users'),
   Db users' (unsubscriptions d) (cities d) (city_aliases d) (admin_actions d)
      (user_city_history d)).

(** [get_user_by_tg_id] *)
Definition get_user_by_tg_id (d : db) (tg : Z) : option user :=
  List.find (has_tg tg) (users d).

(** [set_user_blocked] on full rows. *)
Definition set_user_blocked (d : db) (tg : Z) (blocked : bool)
    (reason : string) (now : timestamp) : db :=
  let users' :=
    map (fun u => if has_tg tg u
                  then User (id u) (tg_id u) (username u) (first_name u) (lang u)
                            (last_city u) (negb blocked) blocked (created_at u) now
                            (last_seen_at u) (utm_source u)
                  else u) (users d) in
  let inserted :=
    map (fun u => UnsubRow (id u) reason now) (List.filter (has_tg tg) users') in
  Db users'
     (if blocked then unsubscriptions d ++ inserted else unsubscriptions d)
     (cities d) (city_aliases d) (admin_actions d) (user_city_history d).

(** [update_user_city]: both statements in one transaction. The history
    rows refer to [cities(code)]; when a row is to be inserted for a code
    that is no city, the statement raises and nothing is committed: the
    result is [None]. *)
Definition update_user_city (d : db) (tg : Z) (code' name : string)
    (now : timestamp) : option db :=
  let matched := List.filter (has_tg tg) (users d) in
  match matched with
  | [] => Some d
  | _ :: _ =>
      if existsb (fun c => String.eqb (code c) code') (cities d)
      then
        Some (Db (map (fun u => if has_tg tg u
                                then User (id u) (tg_id u) (username u) (first_name u)
                                          (lang u) (Some name) (is_active u)
                                          (is_blocked u) (created_at u) now
                                          (last_seen_at u) (utm_source u)
                                else u) (users d))
                 (unsubscriptions d) (cities d) (city_aliases d) (admin_actions d)
                 (user_city_history d
                    ++ map (fun u => HistoryRow (id u) code' name now) matched))
      else None
  end.

(** The constraints of [users] that the operations rely on: [tg_id] and
    [id] are unique. *)
Definition well_keyed (d : db) : Prop :=
  NoDup (map tg_id (users d)) /\ NoDup (map id (users d)).

(** An empty database and one with a user that blocked the bot. *)
Definition empty : db := Db [] [] [] [] [] [].

Definition one_blocked_user : db :=
  Db [User 1 11 (Some "olena") (Some "Olena") "uk" None false true "t0" "t1"
           (Some "t0") (Some "ad")]
     [UnsubRow 1 "blocked" "t1"]
     [CityRow "kyiv" "Kyiv" (Some "https://t.me/kyiv") true]
     [AliasRow "kyiv" "Kyiv"] [] [].

End Full.

(** ** Start-up check of the token ([validate_bot_token]) *)

Module Token.

Local Open Scope string_scope.




Section Validate.

(** Whether [int(s)] returns a number rather than raising [ValueError]. *)
Variable int_parses : string -> bool.


End Validate.

(** A reading of [int] that takes the texts made of the digits 0-9 only,
    one at least. *)
Fixpoint all_digits (s : string) : bool :=
  match s with
  | EmptyString => true
  | String c s' =>
      let n := nat_of_ascii c in
      ((48 <=? n) && (n <=? 57))%nat && all_digits s'
  end.

Definition plain_number (s : string) : bool :=
  negb (String.eqb s "") && all_digits s.

End Token.

(** ** The keyboard of cities and its callback data *)

Module Keyboard.

Local Open Scope string_scope.

(** The inline buttons the city keyboard is made of: a city, with its
    display name and, as callback data, ["city_"] followed by its code, and
    the way back to the menu. *)
Inductive button :=
| CityButton (name_uk code : string)
| BackToMenu.

Definition callback_data (b : button) : string :=
  match b with
  | CityButton _ code => "city_" ++ code
  | BackToMenu => "back_to_menu"
  end.

Definition city_button (c : Repo.city) : button :=
  CityButton (Repo.c_name_uk c) (Repo.c_code c).

(** The loop of [create_cities_keyboard]: two cities to a row. *)
Fixpoint city_rows (cities : list Repo.city) : list (list button) :=
  match cities with
  | [] => []
  | [c] => [[city_button c]]
  | c1 :: c2 :: cities' => [city_button c1; city_button c2] :: city_rows cities'
  end.

(** [create_cities_keyboard], on the cities [get_available_cities] gave. *)
Definition create_cities_keyboard (cities : list Repo.city) : list (list button) :=
  city_rows cities ++ [[BackToMenu]].

(** [s.replace(old, "")] for a non-empty [old]: the occurrences of [old]
    are cut out from left to right, the search going on behind each cut.
    [skip] counts the characters of an occurrence still to be cut. *)
Fixpoint cut_from (old : string) (skip : nat) (s : string) : string :=
  match s with
  | EmptyString => EmptyString
  | String c s' =>
      match skip with
      | S k => cut_from old k s'
      | O =>
          if Text.starts_with old s
          then cut_from old (String.length old - 1) s'
          else String c (cut_from old 0 s')
      end
  end.

(** [callback.data.replace("city_", "")] *)
Definition city_code_of (data : string) : string := cut_from "city_" 0 data.

(** [old] occurs in [s]. *)
Fixpoint occurs (old s : string) : bool :=
  Text.starts_with old s
  || match s with
     | EmptyString => false
     | String _ s' => occurs old s'
     end.

End Keyboard.

(** ** The handlers of the users ([maiin.py]) *)

Module Flow.

Import Bot Keyboard.

Local Open Scope string_scope.

(** The fields of [message.from_user] the handlers read. *)
Record user_info := UserInfo {
  user_id : Z;
  user_username : option string;
  user_first_name : option string
}.

(** An incoming message: who sent it and its text, if it has one. *)
Record message := Message {
  from_user : user_info;
  text : option string
}.

(** An incoming callback query. *)
Record callback_query := CallbackQuery {
  cb_from_user : Z;
  cb_chat_id : Z;
  cb_message_id : Z;
  cb_data : string
}.

(** The texts these handlers send, by template and interpolated data. *)
Inductive reply :=
| Welcome (user_name : string)
| ChooseCity
| RentInfo
| SubscribeInfo
| SubscriptionOk
| SubscriptionMissing
| Help
| FoundWithLink (name : string)
| FoundSubscribeFirst (name : string)
| CityChannelUnavailable (name : string)
| CityNotFound (city_input : string)
| ActionCancelled
| NothingToCancel
| NotRecognized
| Greeting (user_name : string)
| SelectionUnavailable
| ChosenSubscribeFirst (name : string)
| ThanksWithLink (name : string)
| MainMenu
| NoCityChosen
| SubscriptionConfirmed
| CityNotFoundAlert
| SubscriptionNotFoundAlert.

#[export] Instance reply_eq_dec : EqDecision reply.
Proof. solve_decision. Defined.

(** The keyboards sent along. Those with a button to a city channel carry
    its [channel_url]. *)
Inductive markup :=
| NoMarkup
| MainKeyboard
| CitiesKeyboard (rows : list (list button))
| SubscriptionKeyboard
| RentKeyboard
| SubscribeKeyboard
| FoundLinkKeyboard (url : option string)
| ChannelLinkKeyboard (url : option string).

(** The calls to the transport, in the order they are issued. *)
Inductive action :=
| MessageAnswer (t : reply) (k : markup)
| CallbackAnswer (t : option reply) (show_alert : bool)
| EditText (chat_id message_id : Z) (t : reply) (k : markup).

(** The exceptions a handler can end with. *)
Inductive error :=
| AttributeError
| IntegrityError
| TransportError.

(** The state the handlers share. [message_cache] is held as its two
    kinds of entries: the text last written into a message, under
    ["{chat}_{message}"], and the time of the last help, under
    ["help_{user}"]. *)
Record world := World {
  fsm : gmap Z session;
  rate : RateLimit.store;
  subscription_cache : gmap Z (bool * Q);
  edited_texts : gmap (Z * Z) reply;
  help_times : gmap Z Q;
  db : Full.db
}.

(** What a handler leaves: the calls made, the state, and the exception
    it ended with, if any. *)
Record result := Result {
  acts : list action;
  after : world;
  raised : option error
}.

(** What the handlers read from outside during one run: the clock as the
    rate limiter reads it and as the handler reads it later on (for the
    subscription cache or for the help), the membership request, how an
    edit at the transport ends, and the time stamps the repository writes. *)
Record outside := Outside {
  time_at_limiter : Q;
  time_after : Q;
  get_chat_member : Z -> Subscription.api_result;
  edited : edit_result;
  utcnow : Repo.timestamp;
  engine_now : Repo.timestamp
}.

Definition with_fsm (w : world) (f : gmap Z session) : world :=
  World f (rate w) (subscription_cache w) (edited_texts w) (help_times w) (db w).

Definition with_rate (w : world) (r : RateLimit.store) : world :=
  World (fsm w) r (subscription_cache w) (edited_texts w) (help_times w) (db w).

Definition with_subscription_cache (w : world) (c : gmap Z (bool * Q)) : world :=
  World (fsm w) (rate w) c (edited_texts w) (help_times w) (db w).

Definition with_db (w : world) (d : Full.db) : world :=
  World (fsm w) (rate w) (subscription_cache w) (edited_texts w) (help_times w) d.

Definition session_of (w : world) (user : Z) : session :=
  default (Session None ∅) (fsm w !! user).

(** [state.set_state], [state.update_data], [state.clear]. *)
Definition set_state (w : world) (user : Z) (st : BotStates) : world :=
  with_fsm w (<[user := Session (Some st) (data (session_of w user))]> (fsm w)).

Definition update_data (w : world) (user : Z) (selected_city city_name : string)
  : world :=
  with_fsm w
    (<[user := Session (state (session_of w user))
                 (<["selected_city" := selected_city]>
                    (<["city_name" := city_name]> (data (session_of w user))))]>
       (fsm w)).

Definition clear_state (w : world) (user : Z) : world :=
  with_fsm w (<[user := Session None ∅]> (fsm w)).

(** [check_rate_limit] on the shared state. *)
Definition check_rate_limit (w : world) (user : Z) (o : outside) : bool * world :=
  let r := RateLimit.check_rate_limit (rate w) user (time_at_limiter o) in
  (fst r, with_rate w (snd r)).

(** [check_subscription_cached] on the shared state. *)
Definition check_subscription_cached (w : world) (user : Z) (o : outside)
  : bool * world :=
  let r := Subscription.check_subscription_cached (subscription_cache w)
             (get_chat_member o) user (time_after o) in
  (Subscription.returned r, with_subscription_cache w (Subscription.cache_after r)).

(** [create_cities_keyboard] on the cities of the database. *)
Definition cities_keyboard (w : world) : markup :=
  CitiesKeyboard
    (create_cities_keyboard (Repo.get_available_cities (Full.core (db w)))).

(** The truth value of [city['channel_url']]. *)
Definition has_channel (c : Repo.city) : bool := truthy (Repo.c_channel_url c).

(** [first_name or "друже"] *)
Definition display_name (first_name : option string) : string :=
  if truthy first_name then default "" first_name else "друже".

(** [safe_edit_message] *)
Definition safe_edit_message (w : world) (o : outside) (cb : callback_query)
    (t : reply) (k : markup) : list action * world :=
  let message_key := (cb_chat_id cb, cb_message_id cb) in
  if decide (edited_texts w !! message_key = Some t)
  then ([CallbackAnswer None false], w)
  else
    let edit := EditText (cb_chat_id cb) (cb_message_id cb) t k in
    match edited o with
    | EditDone =>
        ([edit], World (fsm w) (rate w) (subscription_cache w)
                       (<[message_key := t]> (edited_texts w)) (help_times w) (db w))
    | EditBadRequest => ([edit; CallbackAnswer None false], w)
    | EditFailed => ([edit; MessageAnswer t k], w)
    end.

(** [cmd_start] *)
Definition cmd_start (w : world) (o : outside) (m : message) : result :=
  let user := from_user m in
  let '(allowed, w1) := check_rate_limit w (user_id user) o in
  if negb allowed then Result [] w1 None
  else
    let w2 := clear_state w1 (user_id user) in
    let saved := Full.save_user (db w2) (user_id user) (user_username user)
                   (user_first_name user) None (utcnow o) (engine_now o) in
    Result [MessageAnswer (Welcome (display_name (user_first_name user))) MainKeyboard]
           (with_db w2 (snd saved)) None.

(** [handle_select_city] *)
Definition handle_select_city (w : world) (o : outside) (m : message) : result :=
  let user := user_id (from_user m) in
  let '(allowed, w1) := check_rate_limit w user o in
  if negb allowed then Result [] w1 None
  else
    Result [MessageAnswer ChooseCity (cities_keyboard w1)]
           (set_state w1 user waiting_for_city) None.

(** [handle_rent_apartment] *)
Definition handle_rent_apartment (w : world) (o : outside) (m : message) : result :=
  let '(allowed, w1) := check_rate_limit w (user_id (from_user m)) o in
  if negb allowed then Result [] w1 None
  else Result [MessageAnswer RentInfo RentKeyboard] w1 None.

(** [handle_subscribe] *)
Definition handle_subscribe (w : world) (o : outside) (m : message) : result :=
  let '(allowed, w1) := check_rate_limit w (user_id (from_user m)) o in
  if negb allowed then Result [] w1 None
  else Result [MessageAnswer SubscribeInfo SubscribeKeyboard] w1 None.

(** [handle_check_subscription] *)
Definition handle_check_subscription (w : world) (o : outside) (m : message)
  : result :=
  let user := user_id (from_user m) in
  let '(allowed, w1) := check_rate_limit w user o in
  if negb allowed then Result [] w1 None
  else
    let '(is_subscribed, w2) := check_subscription_cached w1 user o in
    Result [MessageAnswer (if is_subscribed then SubscriptionOk else SubscriptionMissing)
                          MainKeyboard] w2 None.

(** [handle_help] *)
Definition handle_help (w : world) (o : outside) (m : message) : result :=
  let user := user_id (from_user m) in
  let '(allowed, w1) := check_rate_limit w user o in
  if negb allowed then Result [] w1 None
  else
    let recent :=
      match help_times w1 !! user with
      | Some last_help_time => Qltb (time_after o - last_help_time) 5
      | None => false
      end in
    if recent then Result [] w1 None
    else
      Result [MessageAnswer Help MainKeyboard]
             (World (fsm w1) (rate w1) (subscription_cache w1) (edited_texts w1)
                    (<[user := time_after o]> (help_times w1)) (db w1))
             None.

(** [handle_other_messages] *)
Definition handle_other_messages (w : world) (o : outside) (m : message) : result :=
  let '(allowed, w1) := check_rate_limit w (user_id (from_user m)) o in
  if negb allowed then Result [] w1 None
  else
    Result [MessageAnswer (Greeting (display_name (user_first_name (from_user m))))
                          MainKeyboard] w1 None.

(** [handle_unknown_commands] *)
Definition handle_unknown_commands (w : world) (m : message) : result :=
  Result [MessageAnswer NotRecognized NoMarkup] w None.

(** [cmd_cancel] *)
Definition cmd_cancel (w : world) (m : message) : result :=
  let user := user_id (from_user m) in
  let current_state := state (session_of w user) in
  let w1 := clear_state w user in
  match current_state with
  | Some _ => Result [MessageAnswer ActionCancelled MainKeyboard] w1 None
  | None => Result [MessageAnswer NothingToCancel NoMarkup] w1 None
  end.

(** [handle_city_text_input] *)
Definition handle_city_text_input (w : world) (o : outside) (m : message) : result :=
  let user := user_id (from_user m) in
  let '(allowed, w1) := check_rate_limit w user o in
  if negb allowed then Result [] w1 None
  else
    match text m with
    | None => Result [] w1 (Some AttributeError)
    | Some t =>
        let city_input := Text.strip t in
        match find_city (Full.core (db w1)) city_input with
        | Some city =>
            if has_channel city then
              let '(is_subscribed, w2) := check_subscription_cached w1 user o in
              if is_subscribed then
                match Full.update_user_city (db w2) user (Repo.c_code city)
                        (Repo.c_name_uk city) (utcnow o) with
                | None => Result [] w2 (Some IntegrityError)
                | Some d =>
                    Result [MessageAnswer (FoundWithLink (Repo.c_name_uk city))
                              (FoundLinkKeyboard (Repo.c_channel_url city))]
                           (clear_state (with_db w2 d) user) None
                end
              else
                Result [MessageAnswer (FoundSubscribeFirst (Repo.c_name_uk city))
                          SubscriptionKeyboard]
                       (update_data w2 user (Repo.c_code city) (Repo.c_name_uk city))
                       None
            else
              Result [MessageAnswer (CityChannelUnavailable (Repo.c_name_uk city))
                        (cities_keyboard w1)] w1 None
        | None =>
            Result [MessageAnswer (CityNotFound city_input) (cities_keyboard w1)]
                   w1 None
        end
    end.

(** [send_city_channel] *)
Definition send_city_channel (w : world) (o : outside) (cb : callback_query)
    (city : Repo.city) : result :=
  match Full.update_user_city (db w) (cb_from_user cb) (Repo.c_code city)
          (Repo.c_name_uk city) (utcnow o) with
  | None => Result [] w (Some IntegrityError)
  | Some d =>
      let '(edits, w1) :=
        safe_edit_message (with_db w d) o cb (ThanksWithLink (Repo.c_name_uk city))
          (ChannelLinkKeyboard (Repo.c_channel_url city)) in
      Result edits w1 None
  end.

(** [process_city_selection] *)
Definition process_city_selection (w : world) (o : outside) (cb : callback_query)
  : result :=
  let city_code := city_code_of (cb_data cb) in
  let user := cb_from_user cb in
  let found := Repo.find_city_by_alias (Full.core (db w)) city_code in
  match (if match found with Some city => has_channel city | None => false end
         then found else None) with
  | None =>
      let '(edits, w1) :=
        safe_edit_message w o cb SelectionUnavailable (cities_keyboard w) in
      Result edits w1 None
  | Some city =>
      let w1 := update_data w user city_code (Repo.c_name_uk city) in
      let '(is_subscribed, w2) := check_subscription_cached w1 user o in
      if is_subscribed then
        let sent := send_city_channel w2 o cb city in
        match raised sent with
        | Some e => sent
        | None =>
            Result (acts sent ++ [CallbackAnswer None false])
                   (clear_state (after sent) user) None
        end
      else
        let '(edits, w3) :=
          safe_edit_message w2 o cb (ChosenSubscribeFirst (Repo.c_name_uk city))
            SubscriptionKeyboard in
        Result (edits ++ [CallbackAnswer None false]) w3 None
  end.

(** [check_subscription_callback] *)
Definition check_subscription_callback (w : world) (o : outside)
    (cb : callback_query) : result :=
  let user := cb_from_user cb in
  let city_code := data (session_of w user) !! "selected_city" in
  if negb (truthy city_code)
  then Result [CallbackAnswer (Some NoCityChosen) true] w None
  else
    let '(is_subscribed, w1) := check_subscription_cached w user o in
    if is_subscribed then
      match Repo.find_city_by_alias (Full.core (db w1)) (default "" city_code) with
      | Some city =>
          let sent := send_city_channel w1 o cb city in
          match raised sent with
          | Some e => sent
          | None =>
              Result (acts sent ++ [CallbackAnswer (Some SubscriptionConfirmed) false])
                     (clear_state (after sent) user) None
          end
      | None => Result [CallbackAnswer (Some CityNotFoundAlert) true] w1 None
      end
    else Result [CallbackAnswer (Some SubscriptionNotFoundAlert) true] w1 None.

(** [back_to_menu] *)
Definition back_to_menu (w : world) (o : outside) (cb : callback_query) : result :=
  let w1 := clear_state w (cb_from_user cb) in
  let edit := EditText (cb_chat_id cb) (cb_message_id cb) MainMenu NoMarkup in
  match edited o with
  | EditDone => Result [edit; CallbackAnswer None false] w1 None
  | _ => Result [edit] w1 (Some TransportError)
  end.

(** The handlers that begin with the rate limiter, each with its event. *)
Inductive limited_handler :=
| Start | SelectCity | RentApartment | Subscribe | CheckSubscription
| HelpRequest | CityTextInput | OtherMessage.

Definition run_limited (h : limited_handler) (w : world) (o : outside) (m : message)
  : result :=
  match h with
  | Start => cmd_start w o m
  | SelectCity => handle_select_city w o m
  | RentApartment => handle_rent_apartment w o m
  | Subscribe => handle_subscribe w o m
  | CheckSubscription => handle_check_subscription w o m
  | HelpRequest => handle_help w o m
  | CityTextInput => handle_city_text_input w o m
  | OtherMessage => handle_other_messages w o m
  end.

(** The three handlers that can hand out the link to a city channel, each
    with its event. *)
Inductive city_event :=
| TypedCity (m : message)
| PressedCity (cb : callback_query)
| PressedCheck (cb : callback_query).

Definition run_city (w : world) (o : outside) (e : city_event) : result :=
  match e with
  | TypedCity m => handle_city_text_input w o m
  | PressedCity cb => process_city_selection w o cb
  | PressedCheck cb => check_subscription_callback w o cb
  end.

Definition city_event_user (e : city_event) : Z :=
  match e with
  | TypedCity m => user_id (from_user m)
  | PressedCity cb | PressedCheck cb => cb_from_user cb
  end.

(** The channel links among the calls of a run. *)
Definition links_of (k : markup) : list (option string) :=
  match k with
  | FoundLinkKeyboard url | ChannelLinkKeyboard url => [url]
  | _ => []
  end.

Definition links (l : list action) : list (option string) :=
  flat_map (fun a => match a with
                     | MessageAnswer _ k | EditText _ _ _ k => links_of k
                     | CallbackAnswer _ _ => []
                     end) l.

(** A world with nothing but the database. *)
Definition world_of (d : Full.db) : world :=
  World ∅ RateLimit.empty_store ∅ ∅ ∅ d.

(** Readings of the outside with both clock readings [now] and a given
    membership answer. *)
Definition outside_at (now : Q) (answer : Subscription.api_result) : outside :=
  Outside now now (fun _ => answer) EditDone "t2" "t2".

(** A message of user 11 with a text. *)
Definition says (t : string) : message :=
  Message (UserInfo 11 (Some "olena") (Some "Olena")) (Some t).

(** A database where the only alias of the city with the code "kyiv" is
    "Kiev". *)
Definition code_is_no_alias : Full.db :=
  Full.Db [] [] [Repo.CityRow "kyiv" "Kyiv" (Some "https://t.me/kyiv") true]
          [Repo.AliasRow "kyiv" "Kiev"] [] [].

End Flow.

(** ** The delivery queue ([database.py]) *)

Module Queue.

Import Repo.

Local Open Scope string_scope.

(** A row of [deliveries]. *)
Record delivery_row := DeliveryRow {
  d_id : Z;
  d_broadcast_id : Z;
  d_user_id : Z;
  d_status : string;
  d_attempts : Z;
  d_error_code : option string;
  d_sent_at : option timestamp
}.

(** The keys of [broadcasts] and the table [deliveries], in storage order. *)
Record tables := Tables {
  broadcasts : list Z;
  deliveries : list delivery_row
}.

(** The key the engine gives the next row of [deliveries]. *)
Definition next_delivery_id (dl : list delivery_row) : Z :=
  1 + fold_right (fun r acc => Z.max (d_id r) acc) 0 dl.

(** A row for the pair is there: [UNIQUE (broadcast_id, user_id)]. *)
Definition has_pair (bid uid : Z) (dl : list delivery_row) : bool :=
  existsb (fun r => Z.eqb (d_broadcast_id r) bid && Z.eqb (d_user_id r) uid) dl.

(** The rows of [INSERT ... SELECT ?, id FROM users WHERE ...] go in one by
    one; a row whose pair is there already is passed over. *)
Fixpoint insert_deliveries (us : list user_row) (dl : list delivery_row) (bid : Z)
  : list delivery_row :=
  match us with
  | [] => dl
  | u :: us' =>
      if has_pair bid (row_id u) dl
      then insert_deliveries us' dl bid
      else insert_deliveries us'
             (dl ++ [DeliveryRow (next_delivery_id dl) bid (row_id u) "queued" 0
                                 None None])
             bid
  end.

(** [create_deliveries_for_broadcast], with the row count of the SQLite
    branch as its result. A row that goes in must refer to a stored
    broadcast; otherwise the statement raises and nothing is committed:
    the result is [None]. *)
Definition create_deliveries_for_broadcast (d : db) (t : tables) (broadcast_id : Z)
  : option (nat * tables) :=
  let dl' := insert_deliveries (List.filter deliverable (users d)) (deliveries t)
               broadcast_id in
  let inserted := (length dl' - length (deliveries t))%nat in
  match inserted with
  | O => Some (O, t)
  | S _ =>
      if existsb (Z.eqb broadcast_id) (broadcasts t)
      then Some (inserted, Tables (broadcasts t) dl')
      else None
  end.

(** [ORDER BY d.id] *)
Fixpoint insert_by_id (x : delivery_row) (l : list delivery_row) : list delivery_row :=
  match l with
  | [] => [x]
  | y :: l' => if Z.leb (d_id x) (d_id y) then x :: l else y :: insert_by_id x l'
  end.

Definition order_by_id (l : list delivery_row) : list delivery_row :=
  fold_right insert_by_id [] l.

(** A dictionary of [get_queued_deliveries]: [id], [user_id], [tg_id]. *)
Record queued := Queued {
  q_id : Z;
  q_user_id : Z;
  q_tg_id : Z
}.

(** [get_queued_deliveries] *)
Definition get_queued_deliveries (d : db) (t : tables) (broadcast_id : Z) (limit : nat)
  : list queued :=
  firstn limit
    (flat_map
       (fun r => map (fun u => Queued (d_id r) (d_user_id r) (tg_id u))
                     (List.filter (fun u => Z.eqb (row_id u) (d_user_id r)) (users d)))
       (order_by_id
          (List.filter (fun r => Z.eqb (d_broadcast_id r) broadcast_id
                                 && String.eqb (d_status r) "queued")
                       (deliveries t)))).

(** [update_delivery_status] *)
Definition update_delivery_status (t : tables) (delivery_id : Z) (status : string)
    (error_code : option string) (now : timestamp) : tables :=
  Tables (broadcasts t)
    (map (fun r => if Z.eqb (d_id r) delivery_id
                   then DeliveryRow (d_id r) (d_broadcast_id r) (d_user_id r) status
                          (d_attempts r + 1) error_code
                          (if String.eqb status "sent" then Some now else d_sent_at r)
                   else r)
         (deliveries t)).


(** The tables with one broadcast, number 7, and no delivery yet. *)
Definition one_broadcast : tables := Tables [7] [].

End Queue.


(** * Properties *)

(** ** Time stamps *)

Lemma Qltb_lt (a b : Q) : Qltb a b = true <-> (a < b)%Q.
Proof.
  unfold Qltb. rewrite negb_true_iff.
  destruct (Qle_bool b a) eqn:E.
  - apply Qle_bool_iff in E. split; [discriminate | intros H; exfalso; lra].
  - split; [intros _ | reflexivity].
    destruct (Qlt_le_dec a b) as [H|H]; [exact H |].
    apply Qle_bool_iff in H. congruence.
Qed.

Lemma Qltb_ge (a b : Q) : Qltb a b = false <-> (b <= a)%Q.
Proof.
  unfold Qltb. rewrite negb_false_iff. apply Qle_bool_iff.
Qed.

(** ** The rate limiter *)

Section RateLimitFacts.

Import RateLimit.

Implicit Types (s : store) (u v : Z) (now t : Q) (evs : list (Z * Q)).

Lemma check_blocked s u now :
  u ∈ blocked_users s -> check_rate_limit s u now = (false, s).
Proof.
  intros H. unfold check_rate_limit. destruct (decide _); [reflexivity | contradiction].
Qed.

(** The block set only grows under [check_rate_limit]. *)
Lemma check_blocked_mono s u v now :
  u ∈ blocked_users s -> u ∈ blocked_users (snd (check_rate_limit s v now)).
Proof.
  intros H. unfold check_rate_limit.
  destruct (decide (v ∈ blocked_users s)); [exact H |].
  destruct (in_cooldown _ _ _); [exact H |].
  destruct (_ <=? _)%nat; simpl; [set_solver | exact H].
Qed.

Lemma run_blocked_mono s u evs :
  u ∈ blocked_users s -> u ∈ blocked_users (run s evs).
Proof.
  revert s. induction evs as [|[v t] evs IH]; intros s H; simpl; [assumption |].
  apply IH, check_blocked_mono, H.
Qed.

(** Once in the block set, a user is turned away by every later call. *)
Lemma blocked_is_sticky s u evs now :
  u ∈ blocked_users s -> fst (check_rate_limit (run s evs) u now) = false.
Proof.
  intros H. rewrite check_blocked; [reflexivity |]. apply run_blocked_mono, H.
Qed.

(** After the reset every store is empty and any user is admitted. *)
Lemma check_after_clear s u now :
  check_rate_limit (clear s) u now
  = (true, Store {[u := [now]]} {[u := now]} ∅).
Proof.
  unfold check_rate_limit, clear. simpl.
  destruct (decide _) as [H|_]; [set_solver |].
  unfold in_cooldown, counts_of. simpl. rewrite lookup_empty. simpl.
  rewrite insert_insert_eq. reflexivity.
Qed.

(** What a call does to a user that is not blocked, by the branch taken. *)
Lemma check_unblocked s u now :
  u ∉ blocked_users s ->
  let pruned := prune now (counts_of s u) in
  check_rate_limit s u now =
    if in_cooldown s u now then
      (false, Store (<[u := pruned]> (user_message_counts s))
                    (last_message_times s) (blocked_users s))
    else if (RATE_LIMIT_THRESHOLD <=? length pruned)%nat then
      (false, Store (<[u := pruned]> (user_message_counts s))
                    (last_message_times s) ({[u]} ∪ blocked_users s))
    else
      (true, Store (<[u := pruned ++ [now]]> (user_message_counts s))
                   (<[u := now]> (last_message_times s)) (blocked_users s)).
Proof.
  intros H pruned. unfold check_rate_limit.
  destruct (decide _); [contradiction |].
  fold pruned. unfold in_cooldown. simpl.
  repeat case_match; try reflexivity.
  all: rewrite insert_insert_eq; reflexivity.
Qed.

(** An admitted call, read backwards. *)
Lemma check_true_inv s u now s1 :
  check_rate_limit s u now = (true, s1) ->
  (u ∉ blocked_users s) /\ in_cooldown s u now = false /\
  (length (prune now (counts_of s u)) < RATE_LIMIT_THRESHOLD)%nat /\
  s1 = Store (<[u := prune now (counts_of s u) ++ [now]]> (user_message_counts s))
             (<[u := now]> (last_message_times s)) (blocked_users s).
Proof.
  intros H. destruct (decide (u ∈ blocked_users s)) as [Hb|Hb].
  - rewrite check_blocked in H by assumption. discriminate.
  - rewrite check_unblocked in H by assumption. cbv zeta in H.
    destruct (in_cooldown s u now); [discriminate |].
    destruct (_ <=? _)%nat eqn:E; [discriminate |].
    apply Nat.leb_gt in E. injection H as <-. auto.
Qed.

(** A call for [v] leaves what the stores hold for another user [u]. *)
Lemma check_frame s u v now :
  v <> u ->
  let s' := snd (check_rate_limit s v now) in
  counts_of s' u = counts_of s u /\
  last_message_times s' !! u = last_message_times s !! u /\
  (u ∈ blocked_users s' <-> u ∈ blocked_users s).
Proof.
  intros Hne. simpl.
  destruct (decide (v ∈ blocked_users s)) as [Hb|Hb].
  - rewrite check_blocked by assumption. simpl. tauto.
  - rewrite check_unblocked by assumption. cbv zeta.
    unfold counts_of.
    destruct (in_cooldown s v now); [|destruct (_ <=? _)%nat]; simpl;
      rewrite ?lookup_insert_ne by assumption;
      repeat split; auto.
    all: rewrite elem_of_union, elem_of_singleton; intuition congruence.
Qed.

Lemma run_frame s u evs :
  Forall (fun ev => fst ev <> u) evs ->
  counts_of (run s evs) u = counts_of s u /\
  last_message_times (run s evs) !! u = last_message_times s !! u /\
  (u ∈ blocked_users (run s evs) <-> u ∈ blocked_users s).
Proof.
  intros H. revert s. induction H as [|[v t] evs Hv _ IH]; intros s; simpl.
  - tauto.
  - destruct (check_frame s u v t Hv) as (E1 & E2 & E3).
    destruct (IH (snd (check_rate_limit s v t))) as (F1 & F2 & F3).
    rewrite F1, F2, F3, E1, E2, E3. tauto.
Qed.

(** *** The threshold and the cooldown together *)

Lemma spaced_prune now l : spaced l -> spaced (prune now l).
Proof.
  unfold spaced, prune. induction 1 as [|a l Hl IH Ha]; simpl.
  - constructor.
  - destruct (Qltb _ _); [|assumption].
    constructor; [assumption |].
    rewrite Forall_forall in *. intros x Hx.
    apply Ha. apply list_elem_of_In, filter_In in Hx. apply list_elem_of_In. tauto.
Qed.

Lemma Forall_prune (P : Q -> Prop) now l : Forall P l -> Forall P (prune now l).
Proof.
  unfold prune. rewrite !Forall_forall. intros H x Hx.
  apply H. apply list_elem_of_In, filter_In in Hx. apply list_elem_of_In. tauto.
Qed.

(** Five spaced stamps inside the window leave no room for the cooldown:
    when the pruned list has reached the threshold, the last admitted event
    is less than two seconds old. *)
Lemma spaced_window_full now tl l :
  spaced l ->
  Forall (fun x => x <= tl)%Q l ->
  Forall (fun x => now - x < RATE_LIMIT_WINDOW)%Q l ->
  (RATE_LIMIT_THRESHOLD <= length l)%nat ->
  (now - tl < MESSAGE_COOLDOWN)%Q.
Proof.
  unfold spaced, RATE_LIMIT_THRESHOLD, RATE_LIMIT_WINDOW, MESSAGE_COOLDOWN.
  intros Hs Hle Hw Hlen.
  destruct l as [|x1 [|x2 [|x3 [|x4 [|x5 l]]]]]; simpl in Hlen; try lia.
  apply Forall_cons_1 in Hw as [Hw1 _].
  repeat (apply StronglySorted_inv in Hs as [Hs ?]).
  repeat match goal with
         | H : Forall _ (_ :: _) |- _ => apply Forall_cons_1 in H as [? H]
         end.
  lra.
Qed.

Lemma prune_in_window now l :
  Forall (fun x => now - x < RATE_LIMIT_WINDOW)%Q (prune now l).
Proof.
  unfold prune. rewrite Forall_forall. intros x Hx.
  apply list_elem_of_In, filter_In in Hx as [_ Hx]. apply Qltb_lt in Hx. exact Hx.
Qed.

Lemma in_cooldown_false s u now t :
  in_cooldown s u now = false -> last_message_times s !! u = Some t ->
  (t + MESSAGE_COOLDOWN <= now)%Q.
Proof.
  unfold in_cooldown. intros H E. rewrite E in H. apply Qltb_ge in H. lra.
Qed.

Lemma check_preserves_shape s u now :
  reachable_shape s -> reachable_shape (snd (check_rate_limit s u now)).
Proof.
  intros [Hb Hu].
  assert (Hnb : u ∉ blocked_users s) by (rewrite Hb; set_solver).
  rewrite check_unblocked by assumption. cbv zeta.
  destruct (Hu u) as [Hsp Hle].
  pose proof (spaced_prune now _ Hsp) as Hsp'.
  pose proof (Forall_prune _ now _ Hle) as Hle'.
  destruct (in_cooldown s u now) eqn:Hcd.
  - (* dropped by the cooldown: the list of [u] is pruned, nothing else *)
    split; [exact Hb |]. intros v. unfold counts_of. simpl.
    destruct (decide (u = v)) as [<-|Hne].
    + rewrite lookup_insert_eq. simpl. auto.
    + rewrite lookup_insert_ne by assumption. apply Hu.
  - destruct (_ <=? _)%nat eqn:Hth.
    + (* the threshold branch cannot be entered *)
      exfalso. apply Nat.leb_le in Hth.
      destruct (prune now (counts_of s u)) as [|x l] eqn:El;
        [unfold RATE_LIMIT_THRESHOLD in Hth; simpl in Hth; lia |].
      pose proof Hle' as Hx. apply Forall_cons_1 in Hx as [(t & Et & _) _].
      assert (Hall : Forall (fun y => y <= t)%Q (x :: l)).
      { eapply Forall_impl; [exact Hle' |]. simpl.
        intros y (t' & Et' & Hy). congruence. }
      pose proof (prune_in_window now (counts_of s u)) as Hw. rewrite El in Hw.
      pose proof (spaced_window_full now t _ Hsp' Hall Hw Hth) as Hlt.
      pose proof (in_cooldown_false s u now t Hcd Et). lra.
    + (* admitted: [now] is appended and becomes the last event *)
      split; [exact Hb |]. intros v. unfold counts_of. simpl.
      destruct (decide (u = v)) as [<-|Hne].
      * rewrite !lookup_insert_eq. simpl. split.
        -- apply StronglySorted_app_2; [|exact Hsp'|repeat constructor].
           intros x1 x2 H1 H2. apply list_elem_of_singleton in H2 as ->.
           rewrite Forall_forall in Hle'. destruct (Hle' _ H1) as (t & Et & Hx).
           pose proof (in_cooldown_false s u now t Hcd Et).
           unfold MESSAGE_COOLDOWN in *. lra.
        -- apply Forall_app. split.
           ++ eapply Forall_impl; [exact Hle' |]. simpl.
              intros x (t & Et & Hx). exists now. split; [reflexivity |].
              pose proof (in_cooldown_false s u now t Hcd Et).
              unfold MESSAGE_COOLDOWN in *. lra.
           ++ constructor; [|constructor]. exists now. split; [reflexivity | lra].
      * rewrite !lookup_insert_ne by assumption. apply Hu.
Qed.

Lemma empty_shape : reachable_shape empty_store.
Proof.
  split; [reflexivity |]. intros u. unfold counts_of, empty_store. simpl.
  rewrite lookup_empty. simpl. split; constructor.
Qed.

Lemma run_preserves_shape s evs :
  reachable_shape s -> reachable_shape (run s evs).
Proof.
  revert s. induction evs as [|[u t] evs IH]; intros s H; simpl; [exact H |].
  apply IH, check_preserves_shape, H.
Qed.

(** Starting from the empty stores, no run of calls, at whatever clock
    readings, puts anyone into the block set: a call that finds five stamps
    in the window is always stopped by the cooldown first. *)
Lemma block_set_stays_empty evs :
  blocked_users (run empty_store evs) = ∅.
Proof. apply (run_preserves_shape empty_store evs empty_shape). Qed.

End RateLimitFacts.

(** *** Claims on the rate limiter *)

Section RateLimitClaims.

Import RateLimit.

(** Six events of one user, each as early as the cooldown allows: all
    are let in, and the first has left the window when the sixth comes. *)
Example six_events_two_seconds_apart :
  answers empty_store
    [(1, 0%Q); (1, 2%Q); (1, 4%Q); (1, 6%Q); (1, 8%Q); (1, 10%Q)]
    = [true; true; true; true; true; true] /\
  counts_of (run empty_store
               [(1, 0%Q); (1, 2%Q); (1, 4%Q); (1, 6%Q); (1, 8%Q); (1, 10%Q)]) 1
    = [2%Q; 4%Q; 6%Q; 8%Q; 10%Q].
Proof. split; vm_compute; reflexivity. Qed.

(** C1, as stated, fails: user 1 has four admitted events in the window
    when the fifth arrives at second 8, inside the window and past the
    cooldown; the fifth is admitted and recorded, and user 1 is not put
    into the block set. *)
Lemma C1_fifth_event_passes :
  answers empty_store [(1, 0%Q); (1, 2%Q); (1, 4%Q); (1, 6%Q)]
    = [true; true; true; true] /\
  prune 8 (counts_of four_events 1) = [0%Q; 2%Q; 4%Q; 6%Q] /\
  fst (check_rate_limit four_events 1 8) = true /\
  (1 ∉ blocked_users (snd (check_rate_limit four_events 1 8))).
Proof.
  split; [vm_compute; reflexivity |].
  split; [vm_compute; reflexivity |].
  split; [vm_compute; reflexivity |].
  apply (bool_decide_unpack _). vm_compute. exact I.
Qed.

(** C1 (amended): a call for a user that is not blocked and past the
    cooldown is decided by the number of stamps left in the window after
    pruning. With fewer than five — so also for the fifth event after four
    admitted ones — the call is admitted, its time is appended and the user
    stays out of the block set. With five or more the call is rejected and
    the user enters the block set; from then on every call for that user
    returns false, whatever calls come in between, and only the
    administrative reset, which empties the stores, lets the user in again. *)
Theorem C1_threshold_and_sticky_block (s : store) (u : Z) (now : Q) :
  u ∉ blocked_users s ->
  in_cooldown s u now = false ->
  let pruned := prune now (counts_of s u) in
  let r := check_rate_limit s u now in
  ((length pruned < RATE_LIMIT_THRESHOLD)%nat ->
     fst r = true /\ counts_of (snd r) u = pruned ++ [now] /\
     (u ∉ blocked_users (snd r))) /\
  ((RATE_LIMIT_THRESHOLD <= length pruned)%nat ->
     fst r = false /\ u ∈ blocked_users (snd r) /\
     (forall evs t, fst (check_rate_limit (run (snd r) evs) u t) = false) /\
     (forall evs t, fst (check_rate_limit (clear (run (snd r) evs)) u t) = true)).
Proof.
  intros Hnb Hcd pruned r. subst r.
  rewrite check_unblocked by assumption. cbv zeta. fold pruned. rewrite Hcd.
  split; intros Hlen.
  - apply Nat.leb_gt in Hlen. rewrite Hlen. simpl.
    unfold counts_of. simpl. rewrite lookup_insert_eq. auto.
  - apply Nat.leb_le in Hlen. rewrite Hlen. simpl.
    assert (Hin : u ∈ {[u]} ∪ blocked_users s) by set_solver.
    split; [reflexivity |]. split; [exact Hin |]. split.
    + intros evs t. apply blocked_is_sticky. exact Hin.
    + intros evs t. rewrite check_after_clear. reflexivity.
Qed.

Lemma C1_threshold_and_sticky_block_witness :
  fst (check_rate_limit four_events 1 8) = true /\
  counts_of (snd (check_rate_limit four_events 1 8)) 1
    = [0%Q; 2%Q; 4%Q; 6%Q; 8%Q].
Proof.
  assert (Hnb : 1 ∉ blocked_users four_events)
    by (apply (bool_decide_unpack _); vm_compute; exact I).
  assert (Hcd : in_cooldown four_events 1 8 = false) by (vm_compute; reflexivity).
  destruct (C1_threshold_and_sticky_block four_events 1 8 Hnb Hcd) as [Hlt _].
  assert (Hlen : (length (prune 8 (counts_of four_events 1)) < RATE_LIMIT_THRESHOLD)%nat)
    by (vm_compute; lia).
  destruct (Hlt Hlen) as (H1 & H2 & _).
  split; [exact H1 |]. rewrite H2. vm_compute. reflexivity.
Defined.

(** C6: when an event of a user has been admitted at [t1] and the next
    event of that user comes at [t2] with [t2 - t1 < 2], whatever other
    users did in between, the call returns false; the list of the user is
    the pruned old list, with no entry added for [t2], the last-event time
    is still [t1] and the block set is as before. *)
Theorem C6_cooldown_drops_second_event
    (s s1 : store) (u : Z) (t1 t2 : Q) (others : list (Z * Q)) :
  check_rate_limit s u t1 = (true, s1) ->
  (t2 - t1 < MESSAGE_COOLDOWN)%Q ->
  Forall (fun ev => fst ev <> u) others ->
  let before := run s1 others in
  let r := check_rate_limit before u t2 in
  fst r = false /\
  counts_of (snd r) u = prune t2 (counts_of s1 u) /\
  last_message_times (snd r) !! u = Some t1 /\
  blocked_users (snd r) = blocked_users before.
Proof.
  intros Hadm Hlt Hoth before r.
  destruct (run_frame s1 u others Hoth) as (Hc & Hl & Hb). fold before in Hc, Hl, Hb.
  apply check_true_inv in Hadm as (Hnb & _ & _ & Es1).
  rewrite Es1 in Hl, Hb. simpl in Hl, Hb. rewrite lookup_insert_eq in Hl.
  assert (Hnb' : u ∉ blocked_users before) by (rewrite Hb; exact Hnb).
  assert (Hcd : in_cooldown before u t2 = true).
  { unfold in_cooldown. rewrite Hl. apply Qltb_lt. exact Hlt. }
  subst r. rewrite check_unblocked by assumption. cbv zeta. rewrite Hcd. simpl.
  split; [reflexivity |]. split; [|split; [exact Hl | reflexivity]].
  unfold counts_of at 1. simpl. rewrite lookup_insert_eq. simpl.
  rewrite Hc. reflexivity.
Qed.

Lemma C6_cooldown_drops_second_event_witness :
  fst (check_rate_limit
         (run (snd (check_rate_limit empty_store 1 100)) [(2, 100.5%Q)])
         1 (1015 # 10)) = false /\
  counts_of
    (snd (check_rate_limit
            (run (snd (check_rate_limit empty_store 1 100)) [(2, 100.5%Q)])
            1 (1015 # 10))) 1 = [100%Q].
Proof.
  assert (Hadm : check_rate_limit empty_store 1 100
                 = (true, snd (check_rate_limit empty_store 1 100)))
    by (vm_compute; reflexivity).
  assert (Hlt : ((1015 # 10) - 100 < MESSAGE_COOLDOWN)%Q) by (vm_compute; reflexivity).
  assert (Hoth : Forall (fun ev : Z * Q => fst ev <> 1) [(2, 100.5%Q)])
    by (constructor; [simpl; lia | constructor]).
  destruct (C6_cooldown_drops_second_event _ _ 1 100 (1015 # 10) _ Hadm Hlt Hoth)
    as (H1 & H2 & _).
  split; [exact H1 |]. rewrite H2. vm_compute. reflexivity.
Defined.

End RateLimitClaims.

(** ** The subscription cache *)

Section SubscriptionClaims.

Import Subscription.

Implicit Types (cache : gmap Z (bool * Q)) (api : Z -> api_result) (u : Z).

(** A call that finds no entry, or a stale one, asks the transport. *)
Lemma check_subscription_miss cache api u now :
  (forall b T, cache !! u = Some (b, T) -> (T + SUBSCRIPTION_CACHE_TTL <= now)%Q) ->
  check_subscription_cached cache api u now =
    match api u with
    | Member status =>
        Outcome (is_member_status status)
                (<[u := (is_member_status status, now)]> cache) [u]
    | ApiError => Outcome false cache [u]
    end.
Proof.
  intros H. unfold check_subscription_cached.
  destruct (cache !! u) as [[b T]|] eqn:E; [|reflexivity].
  specialize (H b T eq_refl).
  assert (Hf : Qltb (now - T) SUBSCRIPTION_CACHE_TTL = false) by (apply Qltb_ge; lra).
  rewrite Hf. reflexivity.
Qed.

(** A call asks the transport only when it finds no entry or a stale one. *)
Lemma check_subscription_called cache api u now :
  api_calls (check_subscription_cached cache api u now) <> [] ->
  forall b T, cache !! u = Some (b, T) -> (T + SUBSCRIPTION_CACHE_TTL <= now)%Q.
Proof.
  unfold check_subscription_cached. intros H b T E. rewrite E in H.
  destruct (Qltb (now - T) SUBSCRIPTION_CACHE_TTL) eqn:Hf.
  - simpl in H. contradiction.
  - apply Qltb_ge in Hf. lra.
Qed.

(** C7: with an entry [(b, T)] in the cache for a user, a call at [now]
    with [now - T < 300] returns [b], makes no request to the transport and
    leaves the cache as it is; a call at [T + 300] or later makes one
    request, for that user. *)
Theorem C7_cache_served_within_ttl cache api u (b : bool) (T now : Q) :
  cache !! u = Some (b, T) ->
  let r := check_subscription_cached cache api u now in
  ((now - T < SUBSCRIPTION_CACHE_TTL)%Q ->
     returned r = b /\ api_calls r = [] /\ cache_after r = cache) /\
  ((T + SUBSCRIPTION_CACHE_TTL <= now)%Q -> api_calls r = [u]).
Proof.
  intros E r. subst r. split; intros H.
  - unfold check_subscription_cached. rewrite E.
    apply Qltb_lt in H. rewrite H. auto.
  - rewrite check_subscription_miss.
    + destruct (api u); reflexivity.
    + intros b' T' E'. rewrite E in E'. injection E' as <- <-. exact H.
Qed.

Lemma C7_cache_served_within_ttl_witness :
  returned (check_subscription_cached {[7 := (true, 1000%Q)]}
              (fun _ => ApiError) 7 1299.9%Q) = true /\
  api_calls (check_subscription_cached {[7 := (true, 1000%Q)]}
               (fun _ => ApiError) 7 1300.1%Q) = [7].
Proof.
  assert (E : ({[7 := (true, 1000%Q)]} : gmap Z (bool * Q)) !! 7 = Some (true, 1000%Q))
    by apply lookup_singleton_eq.
  split.
  - destruct (C7_cache_served_within_ttl _ (fun _ => ApiError) 7 true 1000 1299.9%Q E)
      as [H _].
    apply H. vm_compute. reflexivity.
  - destruct (C7_cache_served_within_ttl _ (fun _ => ApiError) 7 true 1000 1300.1%Q E)
      as [_ H].
    apply H. vm_compute. discriminate.
Defined.

(** C8: take a call that asks the transport. If the request raises, the
    call returns false and the cache is left as it was, so a next call for
    that user, at the same clock reading or later, asks the transport
    again. If the request returns a member, the call returns whether the
    status counts as subscribed and the cache holds that boolean with the
    time of the call. *)
Theorem C8_fail_closed_without_pinning cache api u (now : Q) :
  let r := check_subscription_cached cache api u now in
  api_calls r <> [] ->
  (api u = ApiError ->
     returned r = false /\ cache_after r = cache /\
     forall api' now', (now <= now')%Q ->
       api_calls (check_subscription_cached (cache_after r) api' u now') = [u]) /\
  (forall status, api u = Member status ->
     returned r = is_member_status status /\
     cache_after r = <[u := (is_member_status status, now)]> cache).
Proof.
  intros r Hcall. subst r.
  pose proof (check_subscription_called _ _ _ _ Hcall) as Hstale.
  rewrite check_subscription_miss by exact Hstale.
  split.
  - intros ->. simpl. split; [reflexivity |]. split; [reflexivity |].
    intros api' now' Hle. rewrite check_subscription_miss.
    + destruct (api' u); reflexivity.
    + intros b T E. specialize (Hstale b T E). lra.
  - intros status ->. simpl. auto.
Qed.

Lemma C8_fail_closed_without_pinning_witness :
  returned (check_subscription_cached ∅ (fun _ => ApiError) 7 1000) = false /\
  cache_after (check_subscription_cached ∅ (fun _ => ApiError) 7 1000) = ∅.
Proof.
  assert (Hcall : api_calls (check_subscription_cached ∅ (fun _ => ApiError) 7 1000) <> [])
    by (vm_compute; discriminate).
  destruct (C8_fail_closed_without_pinning ∅ (fun _ => ApiError) 7 1000 Hcall)
    as [H _].
  destruct (H eq_refl) as (H1 & H2 & _). split; assumption.
Defined.

End SubscriptionClaims.

(** ** The repository *)

Section RepoFacts.

Import Repo.

Implicit Types (d : db) (tg : Z) (r : user_row).

(** The row [set_user_blocked] leaves in the place of [r]. *)
Lemma In_users_set_user_blocked d tg (b : bool) reason now r' :
  In r' (users (set_user_blocked d tg b reason now)) <->
  exists r, In r (users d) /\
    r' = if Z.eqb (tg_id r) tg
         then UserRow (row_id r) (tg_id r) (negb b) b now else r.
Proof.
  unfold set_user_blocked. simpl. rewrite in_map_iff.
  split; intros (r & H1 & H2); exists r; auto.
Qed.

Lemma set_user_blocked_flags d tg (b : bool) reason now r :
  In r (users (set_user_blocked d tg b reason now)) -> tg_id r = tg ->
  is_blocked r = b /\ is_active r = negb b.
Proof.
  intros Hin Htg. apply In_users_set_user_blocked in Hin as (r0 & _ & ->).
  destruct (Z.eqb_spec (tg_id r0) tg) as [E|E]; simpl in *; [auto | contradiction].
Qed.

Lemma set_user_blocked_others d tg (b : bool) reason now r :
  tg_id r <> tg ->
  (In r (users (set_user_blocked d tg b reason now)) <-> In r (users d)).
Proof.
  intros Hne. rewrite In_users_set_user_blocked. split.
  - intros (r0 & Hin & ->).
    destruct (Z.eqb_spec (tg_id r0) tg) as [E|E]; simpl in *; [contradiction | exact Hin].
  - intros Hin. exists r. split; [exact Hin |].
    destruct (Z.eqb_spec (tg_id r) tg); [contradiction | reflexivity].
Qed.

(** Who is in the recipient snapshot. *)
Lemma In_get_all_users d tg :
  In tg (get_all_users d) <->
  exists r, In r (users d) /\ tg_id r = tg /\ is_active r = true /\ is_blocked r = false.
Proof.
  unfold get_all_users, deliverable. rewrite in_map_iff. split.
  - intros (r & E & Hin). apply filter_In in Hin as [Hin Hd].
    apply andb_true_iff in Hd as [Ha Hb]. apply negb_true_iff in Hb. eauto.
  - intros (r & Hin & E & Ha & Hb). exists r. split; [exact E |].
    apply filter_In. rewrite Ha, Hb. auto.
Qed.

Lemma all_blocked_not_recipient d tg :
  all_blocked d tg -> ~ In tg (get_all_users d).
Proof.
  intros H Hin. apply In_get_all_users in Hin as (r & Hr & E & _ & Hb).
  rewrite (H r Hr E) in Hb. discriminate.
Qed.

Lemma all_blocked_after_block d tg reason now :
  all_blocked (set_user_blocked d tg true reason now) tg.
Proof.
  intros r Hin E. apply (set_user_blocked_flags _ _ _ _ _ _ Hin E).
Qed.

Lemma all_blocked_preserved d tg c :
  (call_tg_id c = tg -> call_is_blocked c = true) ->
  all_blocked d tg -> all_blocked (apply_call d c) tg.
Proof.
  intros Hc H r Hin E. unfold apply_call in Hin.
  destruct (Z.eq_dec (call_tg_id c) tg) as [Ec|Ec].
  - rewrite <- Ec in E.
    destruct (set_user_blocked_flags _ _ _ _ _ _ Hin E) as [-> _]. auto.
  - rewrite <- E in Ec. apply set_user_blocked_others in Hin; [|congruence].
    apply (H r Hin E).
Qed.

Lemma all_blocked_apply_calls d tg calls :
  Forall (fun c => call_tg_id c = tg -> call_is_blocked c = true) calls ->
  all_blocked d tg -> all_blocked (apply_calls d calls) tg.
Proof.
  intros Hc. revert d. induction Hc as [|c calls Hc _ IH]; intros d H; simpl.
  - exact H.
  - apply IH, all_blocked_preserved; assumption.
Qed.

(** A block inserts an [unsubscriptions] row for every row of the user. *)
Lemma set_user_blocked_unsubscribes d tg reason now r :
  In r (users d) -> tg_id r = tg ->
  In (UnsubRow (row_id r) reason now)
     (unsubscriptions (set_user_blocked d tg true reason now)).
Proof.
  intros Hin E. unfold set_user_blocked. simpl.
  apply in_or_app. right. apply in_map_iff.
  exists (UserRow (row_id r) (tg_id r) false true now). split; [reflexivity |].
  apply filter_In. split.
  - apply in_map_iff. exists r. split; [|exact Hin].
    rewrite E, Z.eqb_refl. reflexivity.
  - simpl. rewrite E. apply Z.eqb_refl.
Qed.

(** C10: [set_user_blocked] writes both flags of the rows of the user:
    [is_blocked] as given and [is_active] as its negation; rows of other
    users are as before. After a block the user is in no recipient
    snapshot, also after further calls that do not unblock that user;
    after an unblock a known user is in the snapshot again. *)
Theorem C10_block_sets_active_to_negation d tg (b : bool) reason now :
  let d' := set_user_blocked d tg b reason now in
  (forall r, In r (users d') -> tg_id r = tg ->
     is_blocked r = b /\ is_active r = negb b) /\
  (forall r, tg_id r <> tg -> (In r (users d') <-> In r (users d))) /\
  (b = true -> forall calls,
     Forall (fun c => call_tg_id c = tg -> call_is_blocked c = true) calls ->
     ~ In tg (get_all_users (apply_calls d' calls))) /\
  (b = false -> In tg (map tg_id (users d)) -> In tg (get_all_users d')).
Proof.
  intros d'. subst d'. split; [|split; [|split]].
  - intros r. apply set_user_blocked_flags.
  - intros r. apply set_user_blocked_others.
  - intros -> calls Hc. apply all_blocked_not_recipient.
    apply all_blocked_apply_calls; [exact Hc | apply all_blocked_after_block].
  - intros -> Hin. apply in_map_iff in Hin as (r & E & Hin).
    apply In_get_all_users.
    exists (UserRow (row_id r) (tg_id r) true false now).
    split; [|simpl; auto].
    apply In_users_set_user_blocked. exists r. split; [exact Hin |].
    rewrite <- E, Z.eqb_refl. reflexivity.
Qed.

End RepoFacts.

(** ** The broadcast *)

Section BroadcastFacts.

Import Bot.

Variable ADMIN_ID : Z.

Implicit Types (w : world) (m : message) (t : tally) (d : Repo.db)
  (deliver : nat -> Z -> delivery) (utcnow : nat -> Repo.timestamp).

Lemma attempted_app acts1 acts2 :
  attempted (acts1 ++ acts2) = attempted acts1 ++ attempted acts2.
Proof. unfold attempted. apply flat_map_app. Qed.

Lemma attempted_send p user : attempted [send p user] = [user].
Proof. destruct p; reflexivity. Qed.

(** The loop asks the transport once for every recipient, in order, and
    each outcome adds one to the counter of its kind. *)
Lemma broadcast_loop_spec deliver utcnow p n users t d :
  let r := broadcast_loop deliver utcnow p n users t d in
  let os := outcomes deliver (processed t) users in
  attempted (fst (fst r)) = users /\
  sent (snd (fst r)) = (sent t + count Delivered os)%nat /\
  failed (snd (fst r)) = (failed t + count Failed os)%nat /\
  blocked (snd (fst r)) = (blocked t + count Forbidden os)%nat.
Proof.
  revert t d. induction users as [|user users IH]; intros t d; simpl.
  - unfold count. simpl. repeat split; lia.
  - set (step := match deliver (processed t) user with
                 | Delivered => _ | Forbidden => _ | Failed => _ end).
    destruct step as [t1 d1] eqn:Estep.
    assert (Ht1 : processed t1 = S (processed t) /\
                  sent t1 = (sent t + count Delivered [deliver (processed t) user])%nat /\
                  failed t1 = (failed t + count Failed [deliver (processed t) user])%nat /\
                  blocked t1 = (blocked t + count Forbidden [deliver (processed t) user])%nat).
    { subst step. unfold processed, count.
      destruct (deliver _ user); injection Estep as <- <-; simpl; repeat split; lia. }
    destruct Ht1 as (Hp & Hs & Hf & Hb).
    specialize (IH t1 d1). rewrite Hp in IH.
    destruct (broadcast_loop deliver utcnow p n users t1 d1) as [[acts t2] d2].
    cbn [fst snd] in *. destruct IH as (Ia & Is & If & Ib).
    assert (Hc : forall o x l, count o (x :: l) = (count o [x] + count o l)%nat).
    { intros o x l. unfold count. simpl. destruct (delivery_eqb o x); reflexivity. }
    rewrite (Hc Delivered), (Hc Failed), (Hc Forbidden).
    split; [|repeat split; lia].
    change (send p user :: Sleep :: ?l) with ([send p user] ++ [Sleep] ++ l).
    rewrite !attempted_app, attempted_send, Ia.
    destruct (_ =? _)%nat; reflexivity.
Qed.

Lemma count_total os :
  (count Delivered os + count Failed os + count Forbidden os)%nat = length os.
Proof.
  unfold count. induction os as [|o os IH]; simpl; [reflexivity |].
  destruct o; simpl; lia.
Qed.

Lemma outcomes_length deliver i users :
  length (outcomes deliver i users) = length users.
Proof. revert i. induction users; intros i; simpl; [|rewrite IHusers]; reflexivity. Qed.

(** The division of the final report never has divisor 0. *)
Lemma process_broadcast_no_exception w deliver utcnow m :
  snd (process_broadcast ADMIN_ID w deliver utcnow m) = None.
Proof.
  unfold process_broadcast.
  destruct (negb _); [reflexivity |].
  destruct (Repo.get_all_users (database w)) as [|u us] eqn:Eu; [reflexivity |].
  destruct (_ && _); [reflexivity |].
  pose proof (broadcast_loop_spec deliver utcnow (payload_of m)
                (length (u :: us)) (u :: us) (Tally 0 0 0) (database w)) as H.
  destruct (broadcast_loop _ _ _ _ _ _ _) as [[acts t] d].
  cbv zeta in H. destruct H as (_ & Hs & Hf & Hb).
  unfold success_percent_of.
  destruct (processed t) eqn:Ep; [|reflexivity].
  exfalso. unfold processed in Ep. cbn [fst snd sent failed blocked] in *.
  pose proof (count_total (outcomes deliver (processed (Tally 0 0 0)) (u :: us))) as Hc.
  rewrite outcomes_length in Hc. simpl length in Hc. lia.
Qed.

End BroadcastFacts.

(** *** Claims on the broadcast and on the administrator's operations *)

Section BroadcastClaims.

Import Bot.

Variable ADMIN_ID : Z.

Implicit Types (w : world) (m : message)
  (deliver : nat -> Z -> delivery) (utcnow : nat -> Repo.timestamp).

(** C2: the administrator broadcasts to the snapshot [a; b; c]; the
    deliveries to [a] and [c] return and the one to [b] raises the
    forbidden error. The three deliveries are attempted in order, the
    report counts 2 sent, 0 failed and 1 blocked, and the database is the
    old one after the single call [set_user_blocked b True 'blocked']: the
    rows of [b] have [is_blocked] set and an [unsubscriptions] row for [b]
    is there. *)
Theorem C2_forbidden_marks_recipient_blocked w deliver utcnow m (a b c : Z) :
  from_user m = ADMIN_ID ->
  truthy (text_content m) || is_photo m = true ->
  Repo.get_all_users (database w) = [a; b; c] ->
  deliver 0%nat a = Delivered ->
  deliver 1%nat b = Forbidden ->
  deliver 2%nat c = Delivered ->
  let r := process_broadcast ADMIN_ID w deliver utcnow m in
  let p := payload_of m in
  (exists percent,
     fst (fst r) =
       [StatusAnswer (Starting 3 (is_photo m));
        send p a; Sleep; send p b; Sleep; send p c; Sleep;
        StatusEdit (Finished 2 0 1 (is_photo m) percent)]
     /\ (percent == 200 # 3)%Q) /\
  snd r = None /\
  database (snd (fst r))
    = Repo.set_user_blocked (database w) b true "blocked" (utcnow 1%nat) /\
  (forall row, In row (Repo.users (database (snd (fst r)))) ->
     Repo.tg_id row = b ->
     Repo.is_blocked row = true /\ Repo.is_active row = false) /\
  (exists row, In row (Repo.users (database w)) /\ Repo.tg_id row = b /\
     In (Repo.UnsubRow (Repo.row_id row) "blocked" (utcnow 1%nat))
        (Repo.unsubscriptions (database (snd (fst r))))).
Proof.
  intros Hadm Hcontent Husers Ha Hb Hc r p.
  assert (Er : r = ([StatusAnswer (Starting 3 (is_photo m));
                     send p a; Sleep; send p b; Sleep; send p c; Sleep;
                     StatusEdit (Finished 2 0 1 (is_photo m)
                                   (inject_Z 2 / inject_Z 3 * 100)%Q)],
                    clear_state
                      (with_database w
                         (Repo.set_user_blocked (database w) b true "blocked"
                            (utcnow 1%nat)))
                      (from_user m),
                    None)).
  { subst r p. unfold process_broadcast.
    rewrite Hadm, Z.eqb_refl, Husers. cbn [negb].
    apply orb_true_iff in Hcontent.
    assert (Hv : negb (truthy (text_content m)) && negb (is_photo m) = false).
    { apply andb_false_iff. destruct Hcontent as [-> | ->]; auto. }
    rewrite Hv. cbn [broadcast_loop processed sent failed blocked Nat.add].
    rewrite Ha. cbn [processed sent failed blocked Nat.add].
    rewrite Hb. cbn [processed sent failed blocked Nat.add].
    rewrite Hc. reflexivity. }
  rewrite Er. cbn [fst snd]. split; [|split; [|split; [|split]]].
  - eexists. split; [reflexivity |]. vm_compute. reflexivity.
  - reflexivity.
  - reflexivity.
  - intros row Hin E.
    apply (set_user_blocked_flags (database w) b true "blocked" (utcnow 1%nat) row Hin E).
  - assert (Hin : In b (Repo.get_all_users (database w)))
      by (rewrite Husers; simpl; auto).
    apply In_get_all_users in Hin as (row & Hin & E & _).
    exists row. split; [exact Hin |]. split; [exact E |].
    apply (set_user_blocked_unsubscribes (database w) b "blocked" (utcnow 1%nat) row Hin E).
Qed.

(** C3 (amended): when the recipient snapshot is empty, the broadcast
    handler run by the administrator answers that there are no users,
    clears the FSM context of the administrator and returns: nothing is
    delivered and no report, so no success ratio, is produced. No run of
    the handler ends in a division by zero. *)
Theorem C3_empty_snapshot_returns_early w deliver utcnow m :
  from_user m = ADMIN_ID ->
  Repo.get_all_users (database w) = [] ->
  process_broadcast ADMIN_ID w deliver utcnow m
    = ([MessageAnswer NoUsersForBroadcast], clear_state w (from_user m), None)
  /\ forall w' deliver' utcnow' m',
       snd (process_broadcast ADMIN_ID w' deliver' utcnow' m') = None.
Proof.
  intros Hadm Husers. split.
  - unfold process_broadcast. rewrite Hadm, Z.eqb_refl, Husers. reflexivity.
  - intros. apply process_broadcast_no_exception.
Qed.

(** C4: the administrator broadcasts a message with content to a
    non-empty snapshot. Whatever the outcomes of the deliveries, the run
    ends without an exception, a delivery is attempted for every recipient
    in the order of the snapshot, and the report, the last call of the run,
    counts the deliveries that returned as sent, those that raised the
    forbidden error as blocked and those that raised another error as
    failed; the three counts add up to the number of recipients. *)
Theorem C4_every_recipient_is_attempted w deliver utcnow m :
  from_user m = ADMIN_ID ->
  truthy (text_content m) || is_photo m = true ->
  Repo.get_all_users (database w) <> [] ->
  let users := Repo.get_all_users (database w) in
  let os := outcomes deliver 0 users in
  let r := process_broadcast ADMIN_ID w deliver utcnow m in
  snd r = None /\
  attempted (fst (fst r)) = users /\
  (exists percent,
     last (fst (fst r)) =
       Some (StatusEdit (Finished (count Delivered os) (count Failed os)
                                  (count Forbidden os) (is_photo m) percent))) /\
  (count Delivered os + count Forbidden os + count Failed os)%nat = length users.
Proof.
  intros Hadm Hcontent Hne users os r.
  split; [apply process_broadcast_no_exception |].
  assert (Htot : (count Delivered os + count Forbidden os + count Failed os)%nat
                 = length users).
  { pose proof (count_total os) as H. subst os.
    rewrite outcomes_length in H. lia. }
  split; [|split; [|exact Htot]].
  all: subst r; unfold process_broadcast; rewrite Hadm, Z.eqb_refl; cbn [negb].
  all: fold users; destruct users as [|u us] eqn:Eu; [contradiction |].
  all: apply orb_true_iff in Hcontent.
  all: assert (Hv : negb (truthy (text_content m)) && negb (is_photo m) = false)
         by (apply andb_false_iff; destruct Hcontent as [-> | ->]; auto).
  all: rewrite Hv.
  all: pose proof (broadcast_loop_spec deliver utcnow (payload_of m)
                     (length (u :: us)) (u :: us) (Tally 0 0 0) (database w)) as H.
  all: destruct (broadcast_loop _ _ _ _ _ _ _) as [[acts t] d].
  all: cbv zeta in H; cbn [fst snd sent failed blocked processed Nat.add] in H.
  all: destruct H as (Hatt & Hs & Hf & Hb).
  all: fold os in Hs, Hf, Hb.
  all: destruct (success_percent_of t) as [percent|] eqn:Ep.
  - cbn [fst snd]. change (StatusAnswer ?x :: ?l ++ ?k) with ((StatusAnswer x :: l) ++ k).
    rewrite attempted_app. simpl. rewrite Hatt, app_nil_r. reflexivity.
  - exfalso. unfold success_percent_of, processed in Ep.
    rewrite Hs, Hf, Hb in Ep. simpl length in Htot.
    destruct (count Delivered os + count Failed os + count Forbidden os)%nat eqn:E;
      [lia | discriminate].
  - exists percent. cbn [fst snd].
    change (StatusAnswer ?x :: ?l ++ ?k) with ((StatusAnswer x :: l) ++ k).
    rewrite last_snoc, Hs, Hf, Hb. reflexivity.
  - exfalso. unfold success_percent_of, processed in Ep.
    rewrite Hs, Hf, Hb in Ep. simpl length in Htot.
    destruct (count Delivered os + count Failed os + count Forbidden os)%nat eqn:E;
      [lia | discriminate].
Qed.

(** C9: an operation of the administrator run for any other sender gives
    back the rejection of that operation (a reply that the command is not
    recognised, an alert that there is no access, or nothing at all for the
    broadcast handler) and leaves the FSM storage, the rate-limit stores,
    both caches and the database as they were. *)
Theorem C9_other_senders_change_nothing w (op : admin_operation) :
  sender op <> ADMIN_ID ->
  run_operation ADMIN_ID w op = (rejection op, w).
Proof.
  intros Hne. apply Z.eqb_neq in Hne.
  destruct op; simpl in Hne |- *;
    unfold cmd_admin, cmd_stats, admin_stats_callback, admin_broadcast_callback,
           admin_users_callback, admin_clear_cache, process_broadcast;
    rewrite Hne; reflexivity.
Qed.

End BroadcastClaims.

(** C3, as stated, fails: with no user in the database, the run of the
    administrator (id 1) with a text message issues one call, the answer
    that there are no users; no report with a success ratio is among the
    calls. *)
Lemma C3_no_report_for_empty_snapshot :
  Repo.get_all_users (Bot.database Bot.empty_world) = [] /\
  fst (fst (Bot.process_broadcast 1 Bot.empty_world (fun _ _ => Bot.Delivered)
              (fun _ => "t1"%string)
              (Bot.Message 1 (Some "hello"%string) None None)))
    = [Bot.MessageAnswer Bot.NoUsersForBroadcast] /\
  ~ (exists s f b ip percent,
       In (Bot.StatusEdit (Bot.Finished s f b ip percent))
          (fst (fst (Bot.process_broadcast 1 Bot.empty_world
                       (fun _ _ => Bot.Delivered) (fun _ => "t1"%string)
                       (Bot.Message 1 (Some "hello"%string) None None))))).
Proof.
  split; [reflexivity |]. split; [reflexivity |].
  intros (s & f & b & ip & percent & H). simpl in H.
  destruct H as [H | []]. discriminate.
Qed.

(** ** The city resolver *)

Section CityFacts.

Import Text Repo.

Local Open Scope string_scope.

Lemma like_percent s : like "%" s = true.
Proof.
  induction s as [|c s IH]; [reflexivity |].
  simpl in *. exact IH.
Qed.

(** A pattern free of wildcards, followed by [%], matches the strings it
    is an initial segment of. *)
Lemma like_wildcard_free p s :
  has_wildcard p = false -> like (p ++ "%") s = starts_with p s.
Proof.
  revert s. induction p as [|c p IH]; intros s H.
  - apply like_percent.
  - simpl in H. apply orb_false_iff in H as [Hc Hp].
    unfold is_wildcard in Hc. apply orb_false_iff in Hc as [H1 H2].
    simpl. rewrite H1, H2.
    destruct s as [|d s]; [reflexivity |].
    rewrite IH by exact Hp. reflexivity.
Qed.

Lemma is_wildcard_lower_char c : is_wildcard (lower_char c) = is_wildcard c.
Proof. destruct c as [[] [] [] [] [] [] [] []]; reflexivity. Qed.

Lemma has_wildcard_lower s : has_wildcard (lower s) = has_wildcard s.
Proof.
  induction s as [|c s IH]; [reflexivity |].
  simpl. rewrite is_wildcard_lower_char, IH. reflexivity.
Qed.

Example like_examples :
  like "a%b" "axxb" = true /\ like "a_c" "abc" = true /\
  like "abc" "abd" = false /\ like "_" "" = false /\ like "ky%" "kyiv" = true.
Proof. repeat split; reflexivity. Qed.

Example strip_example : strip "  Kyiv city  " = "Kyiv city".
Proof. reflexivity. Qed.

(** The exact alias is returned although a row that matches by prefix is
    stored in front of it; a shorter input falls back to the prefix query,
    which puts the shorter alias first. *)
Example exact_alias_before_prefix :
  find_city two_cities_db "kyiv" = Some (City "kyiv" "Kyiv" (Some "https://t.me/kyiv")) /\
  find_city two_cities_db "KY" = Some (City "kyiv" "Kyiv" (Some "https://t.me/kyiv")) /\
  find_city two_cities_db "kyivs" = Some (City "kyivska" "Kyivska oblast" None) /\
  find_city two_cities_db "lviv" = None.
Proof. repeat split; vm_compute; reflexivity. Qed.

(** The head of the ordered rows is the first of the shortest. *)
Lemma head_insert_by_length x l :
  head (insert_by_length x l) =
    match head l with
    | None => Some x
    | Some y =>
        if (String.length (alias (fst x)) <=? String.length (alias (fst y)))%nat
        then Some x else Some y
    end.
Proof. destruct l as [|y l]; simpl; [reflexivity |]. destruct (_ <=? _)%nat; reflexivity. Qed.

Lemma head_order_by_length l : head (order_by_length l) = first_shortest l.
Proof.
  induction l as [|x l IH]; [reflexivity |].
  simpl. rewrite head_insert_by_length, IH. reflexivity.
Qed.

(** The resolver returns the exact match when there is one, and otherwise
    the first row of the prefix query. *)
Lemma find_city_exact_first d input c :
  find_city_by_alias d input = Some c -> find_city d input = Some c.
Proof. unfold find_city. intros ->. reflexivity. Qed.

Lemma find_city_fallback d input :
  find_city_by_alias d input = None ->
  find_city d input = head (find_cities_by_prefix d input 1).
Proof. unfold find_city. intros ->. reflexivity. Qed.

(** For an input without [%] and [_] the prefix query keeps the rows of
    active cities whose lowered alias starts with the lowered input, and
    the resolver falls back to the first of the shortest among them. *)
Lemma find_city_prefix_wildcard_free d input :
  has_wildcard (strip input) = false ->
  find_city_by_alias d input = None ->
  find_city d input =
    option_map (fun ac => to_city (snd ac))
      (first_shortest
         (List.filter
            (fun ac => starts_with (lower (strip input)) (lower (alias (fst ac)))
                       && city_is_active (snd ac))
            (alias_join d))).
Proof.
  intros Hw Hnone. rewrite find_city_fallback by exact Hnone.
  unfold find_cities_by_prefix.
  rewrite <- head_order_by_length.
  rewrite (filter_ext
             (fun ac => like (lower (strip input) ++ "%") (lower (alias (fst ac)))
                        && city_is_active (snd ac))
             (fun ac => starts_with (lower (strip input)) (lower (alias (fst ac)))
                        && city_is_active (snd ac))).
  - destruct (order_by_length _) as [|x l]; reflexivity.
  - intros ac. rewrite like_wildcard_free; [reflexivity |].
    rewrite has_wildcard_lower. exact Hw.
Qed.

(** C5 (the code departs from the claim): the input "_yiv" is the alias of
    no city and the beginning of no alias, also with case set aside, so a
    resolution by exact match and then by prefix finds nothing; the
    resolver returns Kyiv, because the input goes into the [LIKE] pattern
    as it is and its [_] matches the "k" of the alias. *)
Theorem C5_underscore_input_matches_any_letter :
  find_city_by_alias kyiv_db "_yiv" = None /\
  Forall (fun a => starts_with (lower (strip "_yiv")) (lower (alias a)) = false)
         (city_aliases kyiv_db) /\
  find_city kyiv_db "_yiv"
    = Some (City "kyiv" "Kyiv" (Some "https://t.me/kyiv")).
Proof.
  split; [vm_compute; reflexivity |].
  split; [repeat constructor | vm_compute; reflexivity].
Qed.

End CityFacts.

(** *** The claims at concrete runs *)

Lemma C2_forbidden_marks_recipient_blocked_witness :
  Bot.database
    (snd (fst (Bot.process_broadcast 1 Bot.three_users
                 (fun _ user => if Z.eqb user 22 then Bot.Forbidden else Bot.Delivered)
                 (fun _ => "t1"%string)
                 (Bot.Message 1 (Some "hello"%string) None None))))
  = Repo.set_user_blocked (Bot.database Bot.three_users) 22 true "blocked" "t1".
Proof.
  destruct (C2_forbidden_marks_recipient_blocked 1 Bot.three_users
              (fun _ user => if Z.eqb user 22 then Bot.Forbidden else Bot.Delivered)
              (fun _ => "t1"%string)
              (Bot.Message 1 (Some "hello"%string) None None) 11 22 33
              eq_refl eq_refl eq_refl eq_refl eq_refl eq_refl)
    as (_ & _ & H & _).
  exact H.
Defined.

Lemma C3_empty_snapshot_returns_early_witness :
  Bot.process_broadcast 1 Bot.empty_world (fun _ _ => Bot.Delivered)
    (fun _ => "t1"%string) (Bot.Message 1 (Some "hello"%string) None None)
  = ([Bot.MessageAnswer Bot.NoUsersForBroadcast],
     Bot.clear_state Bot.empty_world 1, None).
Proof.
  destruct (C3_empty_snapshot_returns_early 1 Bot.empty_world
              (fun _ _ => Bot.Delivered) (fun _ => "t1"%string)
              (Bot.Message 1 (Some "hello"%string) None None) eq_refl eq_refl)
    as [H _].
  exact H.
Defined.

Lemma C4_every_recipient_is_attempted_witness :
  Bot.attempted
    (fst (fst (Bot.process_broadcast 1 Bot.three_users
                 (fun i _ => if Nat.eqb i 1 then Bot.Failed else Bot.Delivered)
                 (fun _ => "t1"%string)
                 (Bot.Message 1 None (Some "flat"%string) (Some "file-1"%string)))))
  = [11; 22; 33].
Proof.
  assert (Hne : Repo.get_all_users (Bot.database Bot.three_users) <> [])
    by (simpl; discriminate).
  destruct (C4_every_recipient_is_attempted 1 Bot.three_users
              (fun i _ => if Nat.eqb i 1 then Bot.Failed else Bot.Delivered)
              (fun _ => "t1"%string)
              (Bot.Message 1 None (Some "flat"%string) (Some "file-1"%string))
              eq_refl eq_refl Hne)
    as (_ & H & _).
  exact H.
Defined.

Lemma C9_other_senders_change_nothing_witness :
  Bot.run_operation 1 Bot.three_users (Bot.OpClearCache (Bot.CallbackQuery 2 2 5))
  = ([Bot.CallbackAnswer (Some Bot.NoAccess) true], Bot.three_users).
Proof.
  apply (C9_other_senders_change_nothing 1 Bot.three_users
           (Bot.OpClearCache (Bot.CallbackQuery 2 2 5))).
  simpl. discriminate.
Defined.

(** * Further properties of the code *)

(** ** The rate limiter, beyond the claims *)

Section RateLimitMore.

Import RateLimit.

Implicit Types (s : store) (u v : Z) (now t : Q) (evs : list (Z * Q)).

(** In a store built from the empty one, a call past the cooldown finds
    fewer stamps in the window than the threshold. *)
Lemma threshold_out_of_reach s u now :
  reachable_shape s -> in_cooldown s u now = false ->
  (length (prune now (counts_of s u)) < RATE_LIMIT_THRESHOLD)%nat.
Proof.
  intros [_ Hu] Hcd. destruct (Hu u) as [Hsp Hle].
  pose proof (spaced_prune now _ Hsp) as Hsp'.
  pose proof (Forall_prune _ now _ Hle) as Hle'.
  destruct (le_lt_dec RATE_LIMIT_THRESHOLD (length (prune now (counts_of s u))))
    as [Hth|Hth]; [exfalso | exact Hth].
  destruct (prune now (counts_of s u)) as [|x l] eqn:El;
    [unfold RATE_LIMIT_THRESHOLD in Hth; simpl in Hth; lia |].
  pose proof Hle' as Hx. apply Forall_cons_1 in Hx as [(t & Et & _) _].
  assert (Hall : Forall (fun y => y <= t)%Q (x :: l)).
  { eapply Forall_impl; [exact Hle' |]. simpl.
    intros y (t' & Et' & Hy). congruence. }
  pose proof (prune_in_window now (counts_of s u)) as Hw. rewrite El in Hw.
  pose proof (spaced_window_full now t _ Hsp' Hall Hw Hth) as Hlt.
  pose proof (in_cooldown_false s u now t Hcd Et). lra.
Qed.

(** X1: starting from the empty stores (the state at start-up and after
    the administrator's reset), whatever calls were made before and at
    whatever clock readings, a call is turned away exactly when the last
    event let in for that user is less than two seconds old; the threshold
    never decides a call and the block set is empty after every call. *)
Theorem X1_limiter_is_a_plain_cooldown evs u now :
  let s := run empty_store evs in
  fst (check_rate_limit s u now) = negb (in_cooldown s u now) /\
  blocked_users (snd (check_rate_limit s u now)) = ∅.
Proof.
  intros s.
  assert (Hshape : reachable_shape s) by apply run_preserves_shape, empty_shape.
  split.
  - assert (Hnb : u ∉ blocked_users s) by (destruct Hshape as [-> _]; set_solver).
    rewrite check_unblocked by assumption. cbv zeta.
    destruct (in_cooldown s u now) eqn:Hcd; [reflexivity |].
    pose proof (threshold_out_of_reach s u now Hshape Hcd) as Hlt.
    apply Nat.leb_gt in Hlt. rewrite Hlt. reflexivity.
  - apply (check_preserves_shape s u now Hshape).
Qed.

Lemma length_prune now l : (length (prune now l) <= length l)%nat.
Proof. unfold prune. apply List.filter_length_le. Qed.

Lemma check_keeps_bound s u now :
  (forall v, (length (counts_of s v) <= RATE_LIMIT_THRESHOLD)%nat) ->
  forall v, (length (counts_of (snd (check_rate_limit s u now)) v)
             <= RATE_LIMIT_THRESHOLD)%nat.
Proof.
  intros H v. destruct (decide (u ∈ blocked_users s)) as [Hb|Hb].
  - rewrite check_blocked by assumption. apply H.
  - rewrite check_unblocked by assumption. cbv zeta.
    pose proof (length_prune now (counts_of s u)) as Hp. specialize (H u) as Hu.
    destruct (in_cooldown s u now); [|destruct (_ <=? _)%nat eqn:Hth];
      unfold counts_of at 1; simpl;
      (destruct (decide (u = v)) as [<-|Hne];
       [rewrite lookup_insert_eq; simpl
       |rewrite lookup_insert_ne by assumption; apply H]).
    + lia.
    + lia.
    + apply Nat.leb_gt in Hth. rewrite length_app. simpl. lia.
Qed.

(** X2: the list of a user never holds more stamps than the threshold:
    when no list of a store is longer than five, the same holds after any
    run of calls. *)
Theorem X2_at_most_five_stamps_per_user s evs :
  (forall v, (length (counts_of s v) <= RATE_LIMIT_THRESHOLD)%nat) ->
  forall v, (length (counts_of (run s evs) v) <= RATE_LIMIT_THRESHOLD)%nat.
Proof.
  revert s. induction evs as [|[u t] evs IH]; intros s H; simpl; [exact H |].
  apply IH. apply check_keeps_bound. exact H.
Qed.

Lemma X2_at_most_five_stamps_per_user_witness :
  le (length (counts_of
                (run empty_store
                   [(1, 0%Q); (1, 2%Q); (1, 4%Q); (1, 6%Q); (1, 8%Q); (1, 10%Q);
                    (1, 12%Q)])
                1))
     RATE_LIMIT_THRESHOLD.
Proof.
  apply (X2_at_most_five_stamps_per_user empty_store).
  intros v. unfold counts_of, empty_store. simpl. rewrite lookup_empty.
  simpl. unfold RATE_LIMIT_THRESHOLD. lia.
Defined.

(** The answer to a call and what it stores for the caller depend on the
    store only through what the store holds for the caller. *)
Lemma check_depends_on_caller s s' u now :
  (u ∈ blocked_users s <-> u ∈ blocked_users s') ->
  counts_of s u = counts_of s' u ->
  last_message_times s !! u = last_message_times s' !! u ->
  fst (check_rate_limit s u now) = fst (check_rate_limit s' u now) /\
  counts_of (snd (check_rate_limit s u now)) u
    = counts_of (snd (check_rate_limit s' u now)) u /\
  last_message_times (snd (check_rate_limit s u now)) !! u
    = last_message_times (snd (check_rate_limit s' u now)) !! u.
Proof.
  intros Hb Hc Hl.
  destruct (decide (u ∈ blocked_users s)) as [H|H].
  - rewrite !check_blocked by tauto. simpl. auto.
  - rewrite !check_unblocked by tauto. cbv zeta.
    unfold in_cooldown. rewrite Hc, Hl.
    destruct (last_message_times s' !! u) as [t|] eqn:E;
      [destruct (Qltb _ _)|]; [|destruct (_ <=? _)%nat ..];
      unfold counts_of; simpl; rewrite ?lookup_insert_eq, ?Hl, ?E; auto.
Qed.

(** X3: users do not affect one another. Calls made for other users, at
    any clock readings, change neither the answer a user gets next nor what
    the stores hold for that user after it. *)
Theorem X3_users_are_limited_independently s u now (others : list (Z * Q)) :
  Forall (fun ev => fst ev <> u) others ->
  fst (check_rate_limit (run s others) u now) = fst (check_rate_limit s u now) /\
  counts_of (snd (check_rate_limit (run s others) u now)) u
    = counts_of (snd (check_rate_limit s u now)) u /\
  last_message_times (snd (check_rate_limit (run s others) u now)) !! u
    = last_message_times (snd (check_rate_limit s u now)) !! u.
Proof.
  intros Hoth. destruct (run_frame s u others Hoth) as (Hc & Hl & Hb).
  apply check_depends_on_caller; assumption.
Qed.

Lemma X3_users_are_limited_independently_witness :
  fst (check_rate_limit
         (run four_events [(2, 6.5%Q); (3, 7%Q); (2, 9%Q)]) 1 8)
  = fst (check_rate_limit four_events 1 8).
Proof.
  apply (X3_users_are_limited_independently four_events 1 8
           [(2, 6.5%Q); (3, 7%Q); (2, 9%Q)]).
  repeat constructor; simpl; lia.
Defined.

End RateLimitMore.

(** ** The subscription cache, beyond the claims *)

Section SubscriptionMore.

Import Subscription.

Implicit Types (cache : gmap Z (bool * Q)) (api : Z -> api_result) (u v : Z).

(** X4: an answer of the transport is kept for five minutes, also a
    negative one. When a call asks the transport at [T] and gets a member
    with some status, every call for that user at [now] with
    [now - T < 300] returns what that status meant, without asking again,
    whatever the transport would answer by then: a user who subscribes
    after being found not subscribed is still told so until the entry is
    stale. *)
Theorem X4_answer_is_pinned_for_the_ttl cache api api' u (T now : Q) status :
  api_calls (check_subscription_cached cache api u T) <> [] ->
  api u = Member status ->
  (now - T < SUBSCRIPTION_CACHE_TTL)%Q ->
  let cache1 := cache_after (check_subscription_cached cache api u T) in
  returned (check_subscription_cached cache1 api' u now) = is_member_status status /\
  api_calls (check_subscription_cached cache1 api' u now) = [] /\
  cache_after (check_subscription_cached cache1 api' u now) = cache1.
Proof.
  intros Hcall Hapi Hlt cache1.
  assert (E : cache1 !! u = Some (is_member_status status, T)).
  { subst cache1.
    rewrite check_subscription_miss by (apply (check_subscription_called _ _ _ _ Hcall)).
    rewrite Hapi. simpl. apply lookup_insert_eq. }
  clearbody cache1. unfold check_subscription_cached. rewrite E.
  apply Qltb_lt in Hlt. rewrite Hlt. auto.
Qed.

Lemma X4_answer_is_pinned_for_the_ttl_witness :
  returned
    (check_subscription_cached
       (cache_after (check_subscription_cached ∅ (fun _ => Member "left") 7 1000))
       (fun _ => Member "member") 7 1299) = false.
Proof.
  assert (Hcall : api_calls (check_subscription_cached ∅ (fun _ => Member "left") 7 1000)
                  <> []) by (vm_compute; discriminate).
  assert (Hlt : (1299 - 1000 < SUBSCRIPTION_CACHE_TTL)%Q) by (vm_compute; reflexivity).
  destruct (X4_answer_is_pinned_for_the_ttl ∅ (fun _ => Member "left")
              (fun _ => Member "member") 7 1000 1299 "left" Hcall eq_refl Hlt)
    as [H _].
  exact H.
Defined.

(** The three ways a call can end. *)
Lemma check_subscription_cases cache api u (now : Q) :
  let r := check_subscription_cached cache api u now in
  (api_calls r = [] /\ cache_after r = cache) \/
  (api u = ApiError /\ r = Outcome false cache [u]) \/
  (exists status, api u = Member status /\
     r = Outcome (is_member_status status)
                 (<[u := (is_member_status status, now)]> cache) [u]).
Proof.
  unfold check_subscription_cached.
  destruct (cache !! u) as [[b T]|]; [destruct (Qltb _ _)|];
    try (left; split; reflexivity);
    destruct (api u) as [|status]; eauto.
Qed.

(** X5: a call for one user reads and writes the entry of that user only:
    the entries of all other users are as before, no entry is ever removed,
    and the entry of the caller changes only when the transport was asked
    and answered. *)
Theorem X5_cache_entries_are_per_user cache api u (now : Q) :
  let r := check_subscription_cached cache api u now in
  (forall v, v <> u -> cache_after r !! v = cache !! v) /\
  (forall v, is_Some (cache !! v) -> is_Some (cache_after r !! v)) /\
  (cache_after r !! u <> cache !! u ->
     exists status, api u = Member status /\ api_calls r = [u] /\
       cache_after r !! u = Some (is_member_status status, now)).
Proof.
  intros r. subst r.
  destruct (check_subscription_cases cache api u now)
    as [[_ ->] | [[_ ->] | (status & Ea & ->)]]; simpl.
  - split; [auto |]. split; [auto |]. intros H. contradiction.
  - split; [auto |]. split; [auto |]. intros H. contradiction.
  - split; [intros v Hv; apply lookup_insert_ne; congruence |].
    split.
    + intros v Hv. destruct (decide (u = v)) as [<-|Hne].
      * rewrite lookup_insert_eq. eauto.
      * rewrite lookup_insert_ne by assumption. exact Hv.
    + intros _. exists status. rewrite lookup_insert_eq. auto.
Qed.

End SubscriptionMore.

(** ** The repository, beyond the claims *)

Section RepoMore.

Import Repo.

Implicit Types (d : db) (tg : Z) (r : user_row).

(** X6: [set_user_blocked] for an id no user has changes nothing: no row
    is updated and no [unsubscriptions] row is inserted. *)
Theorem X6_blocking_an_unknown_user_is_a_no_op d tg (b : bool) reason now :
  ~ In tg (map tg_id (users d)) ->
  set_user_blocked d tg b reason now = d.
Proof.
  intros Hnot.
  assert (Hne : forall r, In r (users d) -> Z.eqb (tg_id r) tg = false).
  { intros r Hin. apply Z.eqb_neq. intros E. apply Hnot.
    apply in_map_iff. exists r. auto. }
  destruct d as [us un ci al ad]. unfold set_user_blocked. simpl in *.
  assert (Hmap : map (fun r => if Z.eqb (tg_id r) tg
                               then UserRow (row_id r) (tg_id r) (negb b) b now
                               else r) us = us).
  { rewrite <- (map_id us) at 2. apply map_ext_in.
    intros r Hin. rewrite (Hne r Hin). reflexivity. }
  rewrite Hmap.
  assert (Hfil : forall l, (forall r, In r l -> Z.eqb (tg_id r) tg = false) ->
                             List.filter (fun r => Z.eqb (tg_id r) tg) l = []).
  { induction l as [|r l IH]; intros H; [reflexivity |]. simpl.
    rewrite (H r) by (left; reflexivity).
    apply IH. intros r0 Hr0. apply H. right. exact Hr0. }
  rewrite (Hfil us Hne). simpl. rewrite app_nil_r. destruct b; reflexivity.
Qed.

Lemma X6_blocking_an_unknown_user_is_a_no_op_witness :
  set_user_blocked kyiv_db 99 true "blocked" "t1" = kyiv_db.
Proof.
  apply (X6_blocking_an_unknown_user_is_a_no_op kyiv_db 99 true "blocked" "t1").
  simpl. tauto.
Defined.

Lemma filter_tg_after d tg (b : bool) now :
  List.filter (fun r => Z.eqb (tg_id r) tg)
    (map (fun r => if Z.eqb (tg_id r) tg
                   then UserRow (row_id r) (tg_id r) (negb b) b now else r)
         (users d))
  = map (fun r => UserRow (row_id r) (tg_id r) (negb b) b now)
        (List.filter (fun r => Z.eqb (tg_id r) tg) (users d)).
Proof.
  induction (users d) as [|r us IH]; [reflexivity |]. simpl.
  destruct (Z.eqb (tg_id r) tg) eqn:E; simpl; rewrite E, IH; reflexivity.
Qed.

(** X7: a block inserts one [unsubscriptions] row for every row of the
    user on every call: neither [ON CONFLICT DO NOTHING] nor
    [INSERT OR IGNORE] ever holds a row back, since the table has no
    uniqueness constraint, so blocking a user that is blocked already adds
    a further row. An unblock inserts and removes none. *)
Theorem X7_every_block_adds_an_unsubscription d tg (b : bool) reason now :
  let d' := set_user_blocked d tg b reason now in
  unsubscriptions d' =
    unsubscriptions d ++
    (if b then map (fun r => UnsubRow (row_id r) reason now)
                   (List.filter (fun r => Z.eqb (tg_id r) tg) (users d))
     else []) /\
  (b = true ->
   unsubscriptions (set_user_blocked d' tg true reason now) =
     unsubscriptions d' ++
     map (fun r => UnsubRow (row_id r) reason now)
         (List.filter (fun r => Z.eqb (tg_id r) tg) (users d))).
Proof.
  intros d'. subst d'. split.
  - unfold set_user_blocked. simpl. rewrite filter_tg_after, map_map. simpl.
    destruct b; [reflexivity | rewrite app_nil_r; reflexivity].
  - intros ->. unfold set_user_blocked at 1. cbn [unsubscriptions].
    rewrite filter_tg_after, map_map. cbn [row_id].
    f_equal. unfold set_user_blocked. cbn [users].
    rewrite filter_tg_after, map_map. cbn [row_id]. reflexivity.
Qed.

(** X8: [set_user_blocked] adds and removes no user and gives none a new
    key or id: the row ids and the user ids are as before, in the same
    order; the tables of cities, aliases and administrator actions are not
    touched. *)
Theorem X8_blocking_keeps_the_users_and_other_tables d tg (b : bool) reason now :
  let d' := set_user_blocked d tg b reason now in
  map row_id (users d') = map row_id (users d) /\
  map tg_id (users d') = map tg_id (users d) /\
  cities d' = cities d /\ city_aliases d' = city_aliases d /\
  admin_actions d' = admin_actions d.
Proof.
  intros d'. subst d'. unfold set_user_blocked. simpl.
  rewrite !map_map. repeat split; apply map_ext; intros r;
    destruct (Z.eqb (tg_id r) tg); reflexivity.
Qed.

(** The snapshot after a block is the old one without that user. *)
Lemma get_all_users_after_block d tg reason now :
  get_all_users (set_user_blocked d tg true reason now)
  = List.filter (fun x => negb (Z.eqb x tg)) (get_all_users d).
Proof.
  unfold get_all_users, set_user_blocked. simpl.
  induction (users d) as [|r us IH]; [reflexivity |]. simpl.
  destruct (Z.eqb (tg_id r) tg) eqn:E.
  - unfold deliverable at 1. simpl. rewrite IH.
    destruct (deliverable r); [simpl; rewrite E|]; reflexivity.
  - destruct (deliverable r); simpl; rewrite ?E, IH; reflexivity.
Qed.

End RepoMore.

(** ** The broadcast and the administrator's tools, beyond the claims *)

Section BroadcastMore.

Import Bot Broadcast.

Variable ADMIN_ID : Z.

Implicit Types (w : world) (m : message) (t : tally) (d : Repo.db)
  (deliver : nat -> Z -> delivery) (utcnow : nat -> Repo.timestamp).

(** A run by the administrator, with content, over a non-empty snapshot is
    the loop between the first status message and the report. *)
Lemma process_broadcast_run w deliver utcnow m :
  from_user m = ADMIN_ID ->
  truthy (text_content m) || is_photo m = true ->
  Repo.get_all_users (database w) <> [] ->
  let users := Repo.get_all_users (database w) in
  let l := broadcast_loop deliver utcnow (payload_of m) (length users) users
             (Tally 0 0 0) (database w) in
  exists percent,
    process_broadcast ADMIN_ID w deliver utcnow m =
      (StatusAnswer (Starting (length users) (is_photo m)) :: fst (fst l)
         ++ [StatusEdit (Finished (sent (snd (fst l))) (failed (snd (fst l)))
                                  (blocked (snd (fst l))) (is_photo m) percent)],
       clear_state (with_database w (snd l)) (from_user m), None).
Proof.
  intros Hadm Hcontent Hne users l.
  pose proof (process_broadcast_no_exception ADMIN_ID w deliver utcnow m) as Hex.
  unfold process_broadcast in *. rewrite Hadm, Z.eqb_refl in *. cbn [negb] in *.
  fold users in Hex |- *. subst l.
  destruct users as [|u us] eqn:Eu; [contradiction |].
  apply orb_true_iff in Hcontent.
  assert (Hv : negb (truthy (text_content m)) && negb (is_photo m) = false)
    by (apply andb_false_iff; destruct Hcontent as [-> | ->]; auto).
  rewrite Hv in *.
  destruct (broadcast_loop _ _ _ _ _ _ _) as [[acts t] d]. cbn [fst snd] in *.
  destruct (success_percent_of t) as [percent|]; [|discriminate].
  exists percent. reflexivity.
Qed.

Lemma filter_filter {A} (f g : A -> bool) (l : list A) :
  List.filter f (List.filter g l) = List.filter (fun x => g x && f x) l.
Proof.
  induction l as [|x l IH]; [reflexivity |]. simpl.
  destruct (g x); simpl; [destruct (f x)|]; rewrite IH; reflexivity.
Qed.

(** What the loop leaves in the database, read through the next snapshot. *)
Lemma broadcast_loop_snapshot deliver utcnow p n users t d :
  Repo.get_all_users (snd (broadcast_loop deliver utcnow p n users t d))
  = List.filter
      (fun x => negb (existsb (Z.eqb x) (forbidden_of deliver (processed t) users)))
      (Repo.get_all_users d).
Proof.
  revert t d. induction users as [|user users IH]; intros t d.
  - simpl. induction (Repo.get_all_users d) as [|x l IHl]; [reflexivity |].
    simpl. rewrite <- IHl. reflexivity.
  - simpl.
    assert (Hp : forall t1, processed t1 = S (processed t) ->
              forall d1,
              Repo.get_all_users
                (snd (let '(acts, t2, d2) :=
                        broadcast_loop deliver utcnow p n users t1 d1 in
                      (send p user :: Sleep ::
                         (if (processed t1 mod 10 =? 0)%nat
                          then [StatusEdit (Progress (sent t1) (failed t1) (blocked t1) n)]
                          else []) ++ acts, t2, d2)))
              = List.filter
                  (fun x => negb (existsb (Z.eqb x)
                                    (forbidden_of deliver (S (processed t)) users)))
                  (Repo.get_all_users d1)).
    { intros t1 Ht1 d1. specialize (IH t1 d1). rewrite Ht1 in IH.
      destruct (broadcast_loop deliver utcnow p n users t1 d1) as [[acts t2] d2].
      exact IH. }
    destruct (deliver (processed t) user).
    + apply Hp. reflexivity.
    + rewrite Hp by (unfold processed; simpl; lia).
      rewrite get_all_users_after_block, filter_filter.
      apply filter_ext. intros x. simpl.
      rewrite negb_orb. reflexivity.
    + apply Hp. unfold processed. simpl. lia.
Qed.

(** X9: after a broadcast, the next recipient snapshot is the one the run
    was made over without the recipients whose delivery raised the
    forbidden error; a recipient whose delivery returned or failed for
    another reason is still in it. *)
Theorem X9_forbidden_recipients_leave_the_snapshot w deliver utcnow m :
  from_user m = ADMIN_ID ->
  truthy (text_content m) || is_photo m = true ->
  Repo.get_all_users (database w) <> [] ->
  let users := Repo.get_all_users (database w) in
  let w' := snd (fst (process_broadcast ADMIN_ID w deliver utcnow m)) in
  Repo.get_all_users (database w')
  = List.filter (fun x => negb (existsb (Z.eqb x) (forbidden_of deliver 0 users)))
      users.
Proof.
  intros Hadm Hcontent Hne users w'. subst w'.
  destruct (process_broadcast_run w deliver utcnow m Hadm Hcontent Hne)
    as (percent & ->).
  cbn [fst snd clear_state with_database database].
  apply (broadcast_loop_snapshot deliver utcnow (payload_of m) (length users)
           users (Tally 0 0 0) (database w)).
Qed.

Lemma pauses_app acts1 acts2 : pauses (acts1 ++ acts2) = (pauses acts1 + pauses acts2)%nat.
Proof. unfold pauses. rewrite List.filter_app, length_app. reflexivity. Qed.

Lemma progress_edits_app acts1 acts2 :
  progress_edits (acts1 ++ acts2) = progress_edits acts1 ++ progress_edits acts2.
Proof. unfold progress_edits. apply flat_map_app. Qed.

Lemma send_is_no_pause p user :
  pauses [send p user] = 0%nat /\ progress_edits [send p user] = [].
Proof. destruct p; split; reflexivity. Qed.

(** When the loop pauses and when it reports progress. *)
Lemma broadcast_loop_schedule deliver utcnow p n users t d :
  let acts := fst (fst (broadcast_loop deliver utcnow p n users t d)) in
  pauses acts = length users /\
  map reported (progress_edits acts)
  = List.filter (fun k => (k mod 10 =? 0)%nat) (seq (S (processed t)) (length users)).
Proof.
  revert t d. induction users as [|user users IH]; intros t d; [split; reflexivity |].
  cbn [broadcast_loop].
  set (step := match deliver (processed t) user with
               | Delivered => _ | Forbidden => _ | Failed => _ end).
  destruct step as [t1 d1] eqn:Estep.
  assert (Ht1 : processed t1 = S (processed t)).
  { subst step. unfold processed.
    destruct (deliver _ user); injection Estep as <- <-; simpl; lia. }
  specialize (IH t1 d1). rewrite Ht1 in IH. rewrite Ht1.
  destruct (broadcast_loop deliver utcnow p n users t1 d1) as [[acts t2] d2].
  cbn [fst snd] in *. destruct IH as [IHp IHr].
  change (send p user :: Sleep :: ?l) with ([send p user] ++ [Sleep] ++ l).
  destruct (send_is_no_pause p user) as [Hs1 Hs2].
  rewrite !pauses_app, !progress_edits_app, Hs1, Hs2, IHp, !map_app, IHr.
  cbn [length seq List.filter].
  destruct (S (processed t) mod 10 =? 0)%nat eqn:E.
  - split; [reflexivity |]. cbn. unfold processed in Ht1. rewrite Ht1. reflexivity.
  - split; reflexivity.
Qed.

(** X10: a run pauses once after every attempt, and it reports progress
    exactly when the number of recipients processed so far is a multiple of
    ten, each report showing that number. *)
Theorem X10_progress_every_ten_recipients w deliver utcnow m :
  from_user m = ADMIN_ID ->
  truthy (text_content m) || is_photo m = true ->
  Repo.get_all_users (database w) <> [] ->
  let users := Repo.get_all_users (database w) in
  let acts := fst (fst (process_broadcast ADMIN_ID w deliver utcnow m)) in
  pauses acts = length users /\
  map reported (progress_edits acts)
  = List.filter (fun k => (k mod 10 =? 0)%nat) (seq 1 (length users)).
Proof.
  intros Hadm Hcontent Hne users acts. subst acts.
  destruct (process_broadcast_run w deliver utcnow m Hadm Hcontent Hne)
    as (percent & ->).
  cbn [fst snd].
  pose proof (broadcast_loop_schedule deliver utcnow (payload_of m) (length users)
                users (Tally 0 0 0) (database w)) as [Hp Hr].
  fold users in Hp, Hr |- *.
  set (l := fst (fst (broadcast_loop _ _ _ _ _ _ _))) in *.
  change (StatusAnswer ?x :: l ++ ?k) with ([StatusAnswer x] ++ l ++ k).
  rewrite !pauses_app, !progress_edits_app, !map_app, Hp, Hr.
  cbn. rewrite app_nil_r. split; [lia | reflexivity].
Qed.

(** X11: [safe_edit_message] does not repeat an edit. Once an edit with a
    text has gone through, the same edit of the same message issues no
    call to edit and only answers the callback; an edit that raised leaves
    the cache as it was, so the next attempt is made. *)
Theorem X11_an_edit_is_not_repeated w cb (t : reply_text) (again : edit_result) :
  let w1 := snd (safe_edit_message w EditDone cb t) in
  safe_edit_message w1 again cb t = ([CallbackAnswer None false], w1) /\
  snd (safe_edit_message w EditBadRequest cb t) = w /\
  snd (safe_edit_message w EditFailed cb t) = w.
Proof.
  intros w1.
  assert (H1 : message_cache w1 !! (inl (cb_chat_id cb, cb_message_id cb) : cache_key)
               = Some t).
  { subst w1. unfold safe_edit_message.
    destruct (decide _) as [E|E]; simpl; [exact E | apply lookup_insert_eq]. }
  clearbody w1. split.
  - unfold safe_edit_message. rewrite decide_True by exact H1. reflexivity.
  - unfold safe_edit_message. destruct (decide _); auto.
Qed.

(** X12: the reset by the administrator empties the rate-limit stores, the
    block set and both caches and touches neither the FSM storage nor the
    database; after it every user, blocked before or not, is let in by the
    next call, and the next subscription check asks the transport. *)
Theorem X12_reset_lets_everyone_in_again w cb :
  cb_from_user cb = ADMIN_ID ->
  let w' := snd (admin_clear_cache ADMIN_ID w cb) in
  rate w' = RateLimit.empty_store /\
  subscription_cache w' = ∅ /\ message_cache w' = ∅ /\
  fsm w' = fsm w /\ database w' = database w /\
  (forall u now, fst (RateLimit.check_rate_limit (rate w') u now) = true) /\
  (forall api u now,
     Subscription.api_calls
       (Subscription.check_subscription_cached (subscription_cache w') api u now)
     = [u]).
Proof.
  intros Hadm w'. subst w'. unfold admin_clear_cache.
  rewrite Hadm, Z.eqb_refl.
  cbn [negb snd rate subscription_cache message_cache fsm database].
  do 5 (split; [reflexivity |]). split.
  - intros u now. exact (f_equal fst (check_after_clear (rate w) u now)).
  - intros api u now. unfold Subscription.check_subscription_cached.
    rewrite lookup_empty. destruct (api u); reflexivity.
Qed.

End BroadcastMore.

(** ** The city resolver, beyond the claims *)

Section CityMore.

Import Text TextMore Repo.

Local Open Scope string_scope.

Lemma lstrip_all_space pad : all_space pad = true -> lstrip pad = "".
Proof.
  induction pad as [|c pad IH]; [reflexivity |]. simpl.
  intros H. apply andb_true_iff in H as [-> H]. auto.
Qed.

Lemma lstrip_app_space pad s : all_space pad = true -> lstrip (pad ++ s) = lstrip s.
Proof.
  induction pad as [|c pad IH]; [reflexivity |]. simpl.
  intros H. apply andb_true_iff in H as [-> H]. auto.
Qed.

Lemma rstrip_all_space pad : all_space pad = true -> rstrip pad = "".
Proof.
  induction pad as [|c pad IH]; [reflexivity |]. simpl.
  intros H. apply andb_true_iff in H as [Hc H]. rewrite (IH H), Hc. reflexivity.
Qed.

Lemma rstrip_app_space s pad : all_space pad = true -> rstrip (s ++ pad) = rstrip s.
Proof.
  intros H. induction s as [|c s IH]; simpl.
  - apply rstrip_all_space, H.
  - rewrite IH. reflexivity.
Qed.

Lemma strip_app_space s pad : all_space pad = true -> strip (s ++ pad) = strip s.
Proof.
  intros H. unfold strip. induction s as [|c s IH]; simpl.
  - rewrite lstrip_all_space by exact H. reflexivity.
  - destruct (is_space c); [exact IH |].
    change (String c (s ++ pad)) with (String c s ++ pad).
    apply rstrip_app_space, H.
Qed.

(** [str.strip()] removes any run of whitespace on both sides. *)
Lemma strip_padding pad1 s pad2 :
  all_space pad1 = true -> all_space pad2 = true ->
  strip (pad1 ++ s ++ pad2) = strip s.
Proof.
  intros H1 H2. unfold strip at 1. rewrite lstrip_app_space by exact H1.
  apply (strip_app_space s pad2 H2).
Qed.

Lemma is_space_lower_char c : is_space (lower_char c) = is_space c.
Proof. destruct c as [[] [] [] [] [] [] [] []]; reflexivity. Qed.

Lemma lower_lstrip s : lower (lstrip s) = lstrip (lower s).
Proof.
  induction s as [|c s IH]; [reflexivity |]. simpl.
  rewrite is_space_lower_char. destruct (is_space c); [exact IH | reflexivity].
Qed.

Lemma lower_rstrip s : lower (rstrip s) = rstrip (lower s).
Proof.
  induction s as [|c s IH]; [reflexivity |]. simpl.
  rewrite <- IH, is_space_lower_char.
  destruct (rstrip s); simpl; [destruct (is_space c)|]; reflexivity.
Qed.

Lemma lower_strip s : lower (strip s) = strip (lower s).
Proof. unfold strip. rewrite lower_rstrip, lower_lstrip. reflexivity. Qed.

(** The resolver reads its input through [lower(strip(input))] only. *)
Lemma find_city_key d s s' :
  lower (strip s) = lower (strip s') -> find_city d s = find_city d s'.
Proof.
  intros E. unfold find_city, find_city_by_alias, find_cities_by_prefix.
  rewrite E. reflexivity.
Qed.

(** X13: the resolver ignores whitespace around the input and the case of
    its letters A-Z: an input padded with whitespace on either side
    resolves as any input with the same letters in another case. *)
Theorem X13_resolution_ignores_padding_and_case d pad1 s pad2 s' :
  all_space pad1 = true -> all_space pad2 = true ->
  lower s = lower s' ->
  find_city d (pad1 ++ s ++ pad2) = find_city d s'.
Proof.
  intros H1 H2 E. apply find_city_key.
  rewrite strip_padding by assumption.
  rewrite !lower_strip, E. reflexivity.
Qed.

Lemma X13_resolution_ignores_padding_and_case_witness :
  find_city two_cities_db ("  " ++ "KYIV" ++ " ") = find_city two_cities_db "kyiv".
Proof.
  apply (X13_resolution_ignores_padding_and_case two_cities_db "  " "KYIV" " " "kyiv");
    reflexivity.
Defined.

Lemma In_insert_by_length x y l : In y (insert_by_length x l) -> y = x \/ In y l.
Proof.
  induction l as [|z l IH]; simpl.
  - intros [<- | []]. auto.
  - destruct (_ <=? _)%nat; simpl; intros [<- | H]; auto.
    destruct (IH H); auto.
Qed.

Lemma In_order_by_length y l : In y (order_by_length l) -> In y l.
Proof.
  induction l as [|x l IH]; simpl; [auto |].
  intros H. apply In_insert_by_length in H as [-> | H]; auto.
Qed.

Lemma In_firstn {A} (n : nat) (l : list A) x : In x (firstn n l) -> In x l.
Proof.
  revert l. induction n as [|n IH]; intros [|y l]; simpl; try tauto.
  intros [-> | H]; auto.
Qed.

Lemma head_In {A} (l : list A) x : head l = Some x -> In x l.
Proof. destruct l; simpl; [discriminate | intros [= ->]; auto]. Qed.

Lemma In_alias_join d a row :
  In (a, row) (alias_join d) ->
  In a (city_aliases d) /\ In row (cities d) /\ code row = city_code a.
Proof.
  unfold alias_join. rewrite in_flat_map. intros (a0 & Ha & H).
  apply in_map_iff in H as (row0 & [= <- <-] & H).
  apply filter_In in H as [Hrow E]. apply String.eqb_eq in E. auto.
Qed.



End CityMore.

(** ** The repository with every column of [users] *)

Section FullFacts.

Import Full.

Implicit Types (d : db) (tg : Z) (u v : user).

Lemma filter_map_same {A} (p : A -> bool) (f : A -> A) (l : list A) :
  (forall x, p (f x) = p x) ->
  List.filter p (map f l) = map f (List.filter p l).
Proof.
  intros H. induction l as [|x l IH]; [reflexivity |]. simpl.
  rewrite H. destruct (p x); simpl; rewrite IH; reflexivity.
Qed.

Lemma filter_core_row tg (us : list user) :
  List.filter (fun r => Z.eqb (Repo.tg_id r) tg) (map core_row us)
  = map core_row (List.filter (has_tg tg) us).
Proof.
  induction us as [|u us IH]; [reflexivity |]. simpl.
  unfold has_tg at 1. destruct (Z.eqb (tg_id u) tg); simpl; rewrite IH; reflexivity.
Qed.

Lemma unsubscribed_rows_core (us : list user) tg (b : bool) reason now :
  map (fun u => Repo.UnsubRow (id u) reason now)
    (List.filter (has_tg tg)
       (map (fun u => if has_tg tg u
                      then User (id u) (tg_id u) (username u) (first_name u) (lang u)
                                (last_city u) (negb b) b (created_at u) now
                                (last_seen_at u) (utm_source u)
                      else u) us))
  = map (fun r => Repo.UnsubRow (Repo.row_id r) reason now)
      (List.filter (fun r => Z.eqb (Repo.tg_id r) tg)
         (map (fun r => if Z.eqb (Repo.tg_id r) tg
                        then Repo.UserRow (Repo.row_id r) (Repo.tg_id r) (negb b) b now
                        else r)
              (map core_row us))).
Proof.
  rewrite filter_map_same
    by (intros u; unfold has_tg; destruct (Z.eqb (tg_id u) tg) eqn:E; cbn; rewrite ?E;
        reflexivity).
  rewrite (filter_map_same (fun r => Z.eqb (Repo.tg_id r) tg))
    by (intros r; destruct (Z.eqb (Repo.tg_id r) tg) eqn:E; cbn; rewrite ?E; reflexivity).
  rewrite filter_core_row, !map_map. apply map_ext. intros u.
  unfold has_tg, core_row. cbn. destruct (Z.eqb (tg_id u) tg); reflexivity.
Qed.

(** The full [set_user_blocked] is [Repo.set_user_blocked] on the columns
    that [Repo] keeps. *)
Lemma core_set_user_blocked d tg (b : bool) reason now :
  core (set_user_blocked d tg b reason now)
  = Repo.set_user_blocked (core d) tg b reason now.
Proof.
  unfold core, set_user_blocked, Repo.set_user_blocked.
  cbn [users unsubscriptions cities city_aliases admin_actions
       Repo.users Repo.unsubscriptions Repo.cities Repo.city_aliases Repo.admin_actions].
  rewrite <- unsubscribed_rows_core. f_equal.
  rewrite !map_map. apply map_ext. intros u. unfold has_tg, core_row. cbn.
  destruct (Z.eqb (tg_id u) tg); reflexivity.
Qed.

Lemma existsb_has_tg tg us :
  existsb (has_tg tg) us = true <-> In tg (map tg_id us).
Proof.
  rewrite existsb_exists, in_map_iff. unfold has_tg.
  split; intros (u & H1 & H2).
  - apply Z.eqb_eq in H2. eauto.
  - exists u. split; [exact H2 | apply Z.eqb_eq, H1].
Qed.

Lemma id_below_next us u : In u us -> id u < next_id us.
Proof.
  unfold next_id. induction us as [|v us IH]; simpl; [tauto |].
  intros [-> | H]; [lia |]. specialize (IH H). lia.
Qed.

Lemma find_has_tg_app us u tg :
  existsb (has_tg tg) us = false -> has_tg tg u = true ->
  List.find (has_tg tg) (us ++ [u]) = Some u.
Proof.
  induction us as [|v us IH]; simpl; intros H Hu.
  - rewrite Hu. reflexivity.
  - apply orb_false_iff in H as [-> H]. auto.
Qed.

(** The row found for [tg] after the update branch of [save_user]. *)
Lemma find_has_tg_map tg (f : user -> user) us :
  (forall u, tg_id (f u) = tg_id u) ->
  List.find (has_tg tg) (map (fun u => if has_tg tg u then f u else u) us)
  = option_map f (List.find (has_tg tg) us).
Proof.
  intros Hf. induction us as [|u us IH]; [reflexivity |]. simpl.
  destruct (has_tg tg u) eqn:E.
  - unfold has_tg at 1. rewrite Hf. fold (has_tg tg u). rewrite E. reflexivity.
  - rewrite E. exact IH.
Qed.

(** What [save_user] does to the table and what it returns. *)
Lemma save_user_upsert d tg uname fname utm now created :
  well_keyed d ->
  let r := save_user d tg uname fname utm now created in
  well_keyed (snd r) /\
  exists u, get_user_by_tg_id (snd r) tg = Some u /\ fst r = Some (id u) /\
    tg_id u = tg /\ username u = uname /\ first_name u = fname /\
    last_seen_at u = Some now /\ updated_at u = now /\
    match get_user_by_tg_id d tg with
    | Some old =>
        id u = id old /\ is_active u = is_active old /\
        is_blocked u = is_blocked old /\ last_city u = last_city old /\
        created_at u = created_at old /\ utm_source u = utm_source old
    | None =>
        ~ In (id u) (map id (users d)) /\ is_active u = true /\
        is_blocked u = false /\ last_city u = None /\
        created_at u = created /\ utm_source u = utm
    end.
Proof.
  intros [Htg Hid] r. subst r. unfold save_user, get_user_by_tg_id. cbn [fst snd users].
  destruct (existsb (has_tg tg) (users d)) eqn:Ex.
  - (* a row of [tg] is there: it is updated in place *)
    split.
    + unfold well_keyed. cbn [users]. rewrite !map_map.
      split.
      * erewrite map_ext; [exact Htg |].
        intros u. cbv beta. destruct (has_tg tg u); reflexivity.
      * erewrite map_ext; [exact Hid |].
        intros u. cbv beta. destruct (has_tg tg u); reflexivity.
    + rewrite find_has_tg_map by reflexivity.
      destruct (List.find (has_tg tg) (users d)) as [old|] eqn:Ef.
      * apply find_some in Ef as [_ Eo]. apply Z.eqb_eq in Eo.
        eexists. split; [reflexivity |]. cbn. auto 15.
      * exfalso. apply existsb_exists in Ex as (u & Hin & Hu).
        pose proof (find_none _ _ Ef u Hin). congruence.
  - (* no row of [tg]: one is appended *)
    assert (Hnone : List.find (has_tg tg) (users d) = None).
    { destruct (List.find (has_tg tg) (users d)) as [old|] eqn:Ef; [|reflexivity].
      apply find_some in Ef as [Hin Eo].
      assert (existsb (has_tg tg) (users d) = true)
        by (apply existsb_exists; eauto).
      congruence. }
    assert (Hself : has_tg tg (User (next_id (users d)) tg uname fname "uk" None
                                    true false created now (Some now) utm) = true)
      by (unfold has_tg; cbn; apply Z.eqb_refl).
    split.
    + unfold well_keyed. cbn [users]. rewrite !map_app. cbn.
      split; apply NoDup_app.
      * split; [exact Htg |]. split; [|apply NoDup_singleton].
        intros x Hx Hx'. apply list_elem_of_In in Hx, Hx'. destruct Hx' as [<- | []].
        apply existsb_has_tg in Hx. congruence.
      * split; [exact Hid |]. split; [|apply NoDup_singleton].
        intros x Hx Hx'. apply list_elem_of_In in Hx, Hx'. destruct Hx' as [<- | []].
        apply in_map_iff in Hx as (u & E & Hin).
        pose proof (id_below_next _ _ Hin). lia.
    + rewrite (find_has_tg_app _ _ _ Ex Hself), Hnone.
      eexists. split; [reflexivity |]. cbn.
      repeat (split; [reflexivity |]). split; [|auto 10].
      intros Hx. apply in_map_iff in Hx as (u & E & Hin).
      pose proof (id_below_next _ _ Hin). lia.
Qed.

(** Rewriting columns other than the flags and the user id leaves the
    recipient snapshot as it is. *)
Lemma get_all_users_map_same (f : user -> user) (us : list user) un ci al ad :
  (forall u, tg_id (f u) = tg_id u /\ is_active (f u) = is_active u /\
             is_blocked (f u) = is_blocked u) ->
  Repo.get_all_users (Repo.Db (map core_row (map f us)) un ci al ad)
  = Repo.get_all_users (Repo.Db (map core_row us) un ci al ad).
Proof.
  intros Hf. unfold Repo.get_all_users. cbn [Repo.users].
  induction us as [|u us IH]; [reflexivity |]. cbn [map List.filter].
  destruct (Hf u) as (H1 & H2 & H3).
  assert (Hd : Repo.deliverable (core_row (f u)) = Repo.deliverable (core_row u))
    by (unfold Repo.deliverable, core_row; cbn; rewrite H2, H3; reflexivity).
  assert (Ht : Repo.tg_id (core_row (f u)) = Repo.tg_id (core_row u)) by exact H1.
  rewrite Hd. destruct (Repo.deliverable (core_row u)); cbn [map];
    rewrite ?Ht, IH; reflexivity.
Qed.

(** The recipient snapshot after [save_user]. *)
Lemma save_user_snapshot d tg uname fname utm now created :
  Repo.get_all_users (core (snd (save_user d tg uname fname utm now created)))
  = if existsb (has_tg tg) (users d)
    then Repo.get_all_users (core d)
    else Repo.get_all_users (core d) ++ [tg].
Proof.
  unfold save_user, core. cbn [snd users unsubscriptions cities city_aliases admin_actions].
  destruct (existsb (has_tg tg) (users d)).
  - apply get_all_users_map_same. intros u. destruct (has_tg tg u); auto.
  - unfold Repo.get_all_users. cbn [Repo.users].
    rewrite map_app, List.filter_app, map_app. reflexivity.
Qed.

Lemma filter_has_tg_nil tg us :
  ~ In tg (map tg_id us) -> List.filter (has_tg tg) us = [].
Proof.
  induction us as [|u us IH]; [reflexivity |]. simpl. intros H.
  unfold has_tg at 1. destruct (Z.eqb_spec (tg_id u) tg) as [E|E]; [tauto |].
  apply IH. tauto.
Qed.

Lemma filter_has_tg_cons tg us :
  In tg (map tg_id us) -> exists u l, List.filter (has_tg tg) us = u :: l.
Proof.
  intros H. apply in_map_iff in H as (u & E & Hin).
  assert (Hf : In u (List.filter (has_tg tg) us))
    by (apply filter_In; split; [exact Hin | apply Z.eqb_eq, E]).
  destruct (List.filter (has_tg tg) us) as [|v l]; [destruct Hf | eauto].
Qed.

(** The three ways [update_user_city] can go. *)
Lemma update_user_city_cases d tg city_code name now :
  (~ In tg (map tg_id (users d)) ->
     update_user_city d tg city_code name now = Some d) /\
  (In tg (map tg_id (users d)) -> ~ In city_code (map Repo.code (cities d)) ->
     update_user_city d tg city_code name now = None) /\
  (In tg (map tg_id (users d)) -> In city_code (map Repo.code (cities d)) ->
     exists d', update_user_city d tg city_code name now = Some d' /\
       user_city_history d' =
         user_city_history d
         ++ map (fun u => HistoryRow (id u) city_code name now)
                (List.filter (has_tg tg) (users d)) /\
       (forall u, In u (users d') -> tg_id u = tg ->
          last_city u = Some name /\ updated_at u = now) /\
       (forall u, tg_id u <> tg -> (In u (users d') <-> In u (users d))) /\
       Repo.get_all_users (core d') = Repo.get_all_users (core d)).
Proof.
  unfold update_user_city.
  assert (Hcode : existsb (fun c => String.eqb (Repo.code c) city_code) (cities d) = true
                  <-> In city_code (map Repo.code (cities d))).
  { rewrite existsb_exists, in_map_iff. split; intros (c & H1 & H2).
    - apply String.eqb_eq in H2. eauto.
    - exists c. split; [exact H2 | apply String.eqb_eq, H1]. }
  split; [|split].
  - intros H. rewrite filter_has_tg_nil by exact H. reflexivity.
  - intros H Hc. destruct (filter_has_tg_cons _ _ H) as (u & l & ->).
    destruct (existsb _ (cities d)) eqn:E; [|reflexivity].
    exfalso. apply Hc, Hcode. reflexivity.
  - intros H Hc. destruct (filter_has_tg_cons _ _ H) as (u0 & l & E0).
    rewrite E0. apply Hcode in Hc. rewrite Hc, <- E0.
    eexists. split; [reflexivity |]. cbn [users user_city_history].
    split; [reflexivity |]. split; [|split].
    + intros u Hin E. apply in_map_iff in Hin as (v & <- & _).
      unfold has_tg in *. destruct (Z.eqb_spec (tg_id v) tg) as [Ev|Ev]; cbn; [auto |].
      contradiction.
    + intros u Hne. rewrite in_map_iff. unfold has_tg. split.
      * intros (v & <- & Hin).
        destruct (Z.eqb_spec (tg_id v) tg) as [Ev|Ev]; cbn in *; [contradiction | exact Hin].
      * intros Hin. exists u. split; [|exact Hin].
        destruct (Z.eqb_spec (tg_id u) tg); [contradiction | reflexivity].
    + unfold core. cbn [users unsubscriptions cities city_aliases admin_actions].
      apply get_all_users_map_same. intros u. destruct (has_tg tg u); auto.
Qed.

(** X15: [save_user] is an upsert keyed by the user id. On a table with
    unique keys it keeps the keys unique; afterwards the user is found by
    [get_user_by_tg_id], with the id that [save_user] returned and the
    names, [last_seen_at] and [updated_at] of this call. A user seen before
    keeps id, flags, city, creation time and acquisition tag; a new user
    gets a fresh id, is active and not blocked and carries the tag given. *)
Theorem X15_save_user_is_an_upsert d tg uname fname utm now created :
  well_keyed d ->
  let r := save_user d tg uname fname utm now created in
  well_keyed (snd r) /\
  exists u, get_user_by_tg_id (snd r) tg = Some u /\ fst r = Some (id u) /\
    tg_id u = tg /\ username u = uname /\ first_name u = fname /\
    last_seen_at u = Some now /\ updated_at u = now /\
    match get_user_by_tg_id d tg with
    | Some old =>
        id u = id old /\ is_active u = is_active old /\
        is_blocked u = is_blocked old /\ last_city u = last_city old /\
        created_at u = created_at old /\ utm_source u = utm_source old
    | None =>
        ~ In (id u) (map id (users d)) /\ is_active u = true /\
        is_blocked u = false /\ last_city u = None /\
        created_at u = created /\ utm_source u = utm
    end.
Proof. apply save_user_upsert. Qed.

(** X16: [save_user] does not touch the flags. For a user seen before the
    recipient snapshot is as it was, so a user that blocked the bot is not
    put back by a later contact; a new user joins the snapshot at its end. *)
Theorem X16_a_returning_user_keeps_the_flags d tg uname fname utm now created :
  Repo.get_all_users (core (snd (save_user d tg uname fname utm now created)))
  = if existsb (has_tg tg) (users d)
    then Repo.get_all_users (core d)
    else Repo.get_all_users (core d) ++ [tg].
Proof. apply save_user_snapshot. Qed.

(** X17: [update_user_city] is all or nothing. For an id no user has it
    changes nothing. For a known user and a code that is no city it raises
    and nothing is written. Otherwise it writes the display name, not the
    code, into [last_city] of the rows of the user, appends one history
    row for each of them, leaves all other users as they were and touches
    no flag: the recipient snapshot is as before. *)
Theorem X17_update_user_city_is_all_or_nothing d tg city_code name now :
  (~ In tg (map tg_id (users d)) ->
     update_user_city d tg city_code name now = Some d) /\
  (In tg (map tg_id (users d)) -> ~ In city_code (map Repo.code (cities d)) ->
     update_user_city d tg city_code name now = None) /\
  (In tg (map tg_id (users d)) -> In city_code (map Repo.code (cities d)) ->
     exists d', update_user_city d tg city_code name now = Some d' /\
       user_city_history d' =
         user_city_history d
         ++ map (fun u => HistoryRow (id u) city_code name now)
                (List.filter (has_tg tg) (users d)) /\
       (forall u, In u (users d') -> tg_id u = tg ->
          last_city u = Some name /\ updated_at u = now) /\
       (forall u, tg_id u <> tg -> (In u (users d') <-> In u (users d))) /\
       Repo.get_all_users (core d') = Repo.get_all_users (core d)).
Proof. apply update_user_city_cases. Qed.

End FullFacts.

(** ** The token check and the city keyboard *)

Section TokenFacts.

Import Token.

Local Open Scope string_scope.





Variable int_parses : string -> bool.


End TokenFacts.

Section KeyboardFacts.

Import Keyboard.

Local Open Scope string_scope.

(** What holds of the rows for a list also holds with one more city in
    front; both are shown together, two cities at a time. *)
Lemma city_rows_shape cities :
  (concat (city_rows cities) = map city_button cities /\
   length (city_rows cities) = Nat.div2 (S (length cities)) /\
   Forall (fun row => length row = 2%nat) (removelast (city_rows cities)) /\
   (forall row, last (city_rows cities) = Some row ->
      length row = if Nat.even (length cities) then 2%nat else 1%nat)) /\
  forall c,
   (concat (city_rows (c :: cities)) = map city_button (c :: cities) /\
    length (city_rows (c :: cities)) = Nat.div2 (S (length (c :: cities))) /\
    Forall (fun row => length row = 2%nat) (removelast (city_rows (c :: cities))) /\
    (forall row, last (city_rows (c :: cities)) = Some row ->
       length row = if Nat.even (length (c :: cities)) then 2%nat else 1%nat)).
Proof.
  induction cities as [|c1 cities [IH0 IH1]].
  - split; [|intros c]; (split; [reflexivity |]; split; [reflexivity |];
      split; [constructor |]); simpl; [discriminate | intros row [= <-]; reflexivity].
  - split; [apply IH1 |]. intros c.
    destruct IH0 as (Hc & Hl & Hf & Hlast).
    change (city_rows (c :: c1 :: cities))
      with ([city_button c; city_button c1] :: city_rows cities).
    split; [simpl; rewrite Hc; reflexivity |].
    split; [simpl; rewrite Hl; reflexivity |].
    destruct (city_rows cities) as [|row rows] eqn:Er.
    + split; [constructor |]. intros row [= <-].
      destruct cities as [|c2 [|c3 cities]]; simpl in Er; try discriminate.
      reflexivity.
    + split.
      * change (removelast (?x :: row :: rows)) with (x :: removelast (row :: rows)).
        constructor; [reflexivity | exact Hf].
      * intros row' H. change (last (?x :: row :: rows)) with (last (row :: rows)) in H.
        rewrite (Hlast row' H). simpl. reflexivity.
Qed.

(** X19: the keyboard shows every city once, in the order given, two to
    a row; all rows of cities are full but the last one, which holds one
    city when the number of cities is odd; the way back is a row of its own
    at the end, also when there is no city at all. *)
Theorem X19_keyboard_pairs_the_cities (cities : list Repo.city) :
  let rows := city_rows cities in
  create_cities_keyboard cities = (rows ++ [[BackToMenu]])%list /\
  concat rows = map city_button cities /\
  length rows = Nat.div2 (S (length cities)) /\
  Forall (fun row => length row = 2%nat) (removelast rows) /\
  (forall row, last rows = Some row ->
     length row = if Nat.even (length cities) then 2%nat else 1%nat).
Proof.
  intros rows. split; [reflexivity |]. apply (city_rows_shape cities).
Qed.

Lemma cut_no_occurrence old s :
  occurs old s = false -> cut_from old 0 s = s.
Proof.
  induction s as [|c s IH]; [reflexivity |].
  cbn [occurs cut_from]. intros H. apply orb_false_iff in H as [-> H].
  rewrite (IH H). reflexivity.
Qed.

Lemma length_cut_le old k s :
  (String.length (cut_from old k s) <= String.length s)%nat.
Proof.
  revert k. induction s as [|c s IH]; intros k; [simpl; lia |].
  cbn [cut_from]. destruct k as [|k].
  - destruct (Text.starts_with old (String c s)).
    + specialize (IH (String.length old - 1)%nat). simpl. lia.
    + specialize (IH 0%nat). simpl. lia.
  - specialize (IH k). simpl. lia.
Qed.

Lemma length_cut_lt old s :
  old <> "" -> occurs old s = true ->
  (String.length (cut_from old 0 s) < String.length s)%nat.
Proof.
  intros Hold. induction s as [|c s IH].
  - destruct old; [contradiction | discriminate].
  - cbn [occurs cut_from]. destruct (Text.starts_with old (String c s)).
    + intros _. pose proof (length_cut_le old (String.length old - 1) s). simpl. lia.
    + simpl. intros H. specialize (IH H). lia.
Qed.

(** X20: the code a city button carries comes back from its callback data
    exactly when the text "city_" does not occur in the code; a code in
    which it occurs comes back shorter, all occurrences cut out. *)
Theorem X20_code_survives_the_callback_data name code :
  city_code_of (callback_data (CityButton name code)) = code
  <-> occurs "city_" code = false.
Proof.
  assert (E : city_code_of (callback_data (CityButton name code))
              = cut_from "city_" 0 code) by reflexivity.
  rewrite E. split.
  - intros H. destruct (occurs "city_" code) eqn:Eo; [|reflexivity].
    pose proof (length_cut_lt "city_" code ltac:(discriminate) Eo) as Hlt.
    rewrite H in Hlt. lia.
  - apply cut_no_occurrence.
Qed.

End KeyboardFacts.

(** ** The handlers of the users *)

Section FlowFacts.

Import Bot Keyboard Flow.

Local Open Scope string_scope.

Implicit Types (w : world) (o : outside) (m : message) (cb : callback_query).

(** X21: a handler that begins with the rate limiter does nothing when the
    limiter turns the event away: it makes no call to the transport, ends
    without an exception and leaves everything but the limiter's own
    stores as it was. *)
Theorem X21_a_limited_event_is_dropped_in_silence (h : limited_handler) w o m :
  fst (RateLimit.check_rate_limit (rate w) (user_id (from_user m)) (time_at_limiter o))
    = false ->
  run_limited h w o m =
    Result []
      (with_rate w
         (snd (RateLimit.check_rate_limit (rate w) (user_id (from_user m))
                 (time_at_limiter o))))
      None.
Proof.
  intros H.
  destruct h; cbn [run_limited];
    unfold cmd_start, handle_select_city, handle_rent_apartment, handle_subscribe,
           handle_check_subscription, handle_help, handle_city_text_input,
           handle_other_messages, check_rate_limit;
    rewrite H; reflexivity.
Qed.

(** The city a lookup returns has its code in the table of cities. *)
Lemma find_city_by_alias_code d input c :
  Repo.find_city_by_alias d input = Some c ->
  In (Repo.c_code c) (map Repo.code (Repo.cities d)).
Proof.
  unfold Repo.find_city_by_alias. intros E.
  apply head_In, in_map_iff in E as ([a row] & <- & Hin).
  apply filter_In in Hin as [Hj _]. apply In_alias_join in Hj as (_ & H2 & _).
  apply in_map_iff. exists row. auto.
Qed.

Lemma find_city_code d input c :
  find_city d input = Some c -> In (Repo.c_code c) (map Repo.code (Repo.cities d)).
Proof.
  unfold find_city. destruct (Repo.find_city_by_alias d input) as [c0|] eqn:E.
  - intros [= <-]. apply (find_city_by_alias_code d input c0 E).
  - unfold Repo.find_cities_by_prefix. intros H.
    apply head_In, in_map_iff in H as ([a row] & <- & Hin).
    apply In_firstn, In_order_by_length, filter_In in Hin as [Hj _].
    apply In_alias_join in Hj as (_ & H2 & _).
    apply in_map_iff. exists row. auto.
Qed.

(** For the code of a stored city [update_user_city] does not raise. *)
Lemma update_user_city_some d tg code name now :
  In code (map Repo.code (Full.cities d)) ->
  exists d', Full.update_user_city d tg code name now = Some d'.
Proof.
  intros H. unfold Full.update_user_city.
  destruct (List.filter (Full.has_tg tg) (Full.users d)); [eauto |].
  assert (E : existsb (fun c => String.eqb (Repo.code c) code) (Full.cities d) = true).
  { apply in_map_iff in H as (c & E & Hin). apply existsb_exists.
    exists c. split; [exact Hin | apply String.eqb_eq, E]. }
  rewrite E. eauto.
Qed.

(** [update_user_city] keeps the tables of cities and aliases. *)
Lemma update_user_city_keeps_cities d tg code name now d' :
  Full.update_user_city d tg code name now = Some d' ->
  Full.cities d' = Full.cities d /\ Full.city_aliases d' = Full.city_aliases d.
Proof.
  unfold Full.update_user_city.
  destruct (List.filter (Full.has_tg tg) (Full.users d)); [intros [= <-]; auto |].
  destruct (existsb _ _); [intros [= <-]; auto | discriminate].
Qed.

Lemma send_city_channel_raises w o cb city :
  In (Repo.c_code city) (map Repo.code (Full.cities (db w))) ->
  raised (send_city_channel w o cb city) = None.
Proof.
  intros Hin. unfold send_city_channel.
  destruct (update_user_city_some (db w) (cb_from_user cb) _ (Repo.c_name_uk city)
              (utcnow o) Hin) as (d' & ->).
  destruct (safe_edit_message _ _ _ _ _). reflexivity.
Qed.

(** The links a [safe_edit_message] shows are those of its keyboard, and
    it leaves the database alone. *)
Lemma safe_edit_message_keeps w o cb t k :
  let r := safe_edit_message w o cb t k in
  db (snd r) = db w /\ fsm (snd r) = fsm w /\
  subscription_cache (snd r) = subscription_cache w /\ rate (snd r) = rate w /\
  (links_of k = [] -> links (fst r) = []).
Proof.
  unfold safe_edit_message. destruct (decide _); [cbn; auto |].
  destruct (edited o); cbn; repeat split; auto; intros ->; reflexivity.
Qed.

(** X22: the link to a city channel is handed out to subscribers only.
    When the subscription check of a run gives false (the user is not a
    member, or the request fails and no fresh positive entry is cached),
    none of the three handlers that can show a link (typing a city,
    pressing a city button, pressing the check button) shows one, and none
    writes to the database. *)
Theorem X22_no_link_without_subscription w o (e : city_event) :
  Subscription.returned
    (Subscription.check_subscription_cached (subscription_cache w)
       (get_chat_member o) (city_event_user e) (time_after o)) = false ->
  links (acts (run_city w o e)) = [] /\ db (after (run_city w o e)) = db w.
Proof.
  intros H. destruct e as [m | cb | cb]; cbn [run_city city_event_user] in *.
  - unfold handle_city_text_input, check_rate_limit, check_subscription_cached.
    destruct (fst (RateLimit.check_rate_limit _ _ _)); cbn [negb]; [|split; reflexivity].
    destruct (text m) as [t|]; [|split; reflexivity].
    destruct (find_city _ _) as [city|]; [|split; reflexivity].
    destruct (has_channel city); [|split; reflexivity].
    cbn [subscription_cache with_rate]. rewrite H. split; reflexivity.
  - unfold process_city_selection.
    destruct (Repo.find_city_by_alias _ _) as [city|];
      [destruct (has_channel city)|].
    + unfold check_subscription_cached.
      cbn [subscription_cache update_data with_fsm]. rewrite H.
      pose proof (safe_edit_message_keeps
                    (with_subscription_cache
                       (update_data w (cb_from_user cb) (city_code_of (cb_data cb))
                          (Repo.c_name_uk city))
                       (Subscription.cache_after
                          (Subscription.check_subscription_cached
                             (subscription_cache w) (get_chat_member o)
                             (cb_from_user cb) (time_after o))))
                    o cb (ChosenSubscribeFirst (Repo.c_name_uk city))
                    SubscriptionKeyboard) as Hk.
      cbv zeta in Hk. destruct (safe_edit_message _ _ _ _ _) as [edits w3].
      cbn [fst snd acts after] in *. destruct Hk as (Hd & _ & _ & _ & Hl).
      unfold links in *. rewrite flat_map_app, Hl by reflexivity.
      split; [reflexivity | exact Hd].
    + pose proof (safe_edit_message_keeps w o cb SelectionUnavailable
                    (cities_keyboard w)) as Hk.
      cbv zeta in Hk. destruct (safe_edit_message _ _ _ _ _) as [edits w1].
      cbn [fst snd acts after] in *. destruct Hk as (Hd & _ & _ & _ & Hl).
      split; [apply Hl; reflexivity | exact Hd].
    + pose proof (safe_edit_message_keeps w o cb SelectionUnavailable
                    (cities_keyboard w)) as Hk.
      cbv zeta in Hk. destruct (safe_edit_message _ _ _ _ _) as [edits w1].
      cbn [fst snd acts after] in *. destruct Hk as (Hd & _ & _ & _ & Hl).
      split; [apply Hl; reflexivity | exact Hd].
  - unfold check_subscription_callback, check_subscription_cached.
    destruct (negb _); [split; reflexivity |].
    rewrite H. split; reflexivity.
Qed.

(** X23: the three handlers never end with the integrity error of
    [update_user_city]: the city whose choice they record was found in the
    table of cities, so the history row refers to a stored code. *)
Theorem X23_a_recorded_choice_is_a_stored_city w o (e : city_event) :
  raised (run_city w o e) <> Some IntegrityError.
Proof.
  destruct e as [m | cb | cb]; cbn [run_city].
  - unfold handle_city_text_input, check_rate_limit, check_subscription_cached.
    destruct (fst (RateLimit.check_rate_limit _ _ _)); cbn [negb]; [|discriminate].
    destruct (text m) as [t|]; [|discriminate].
    destruct (find_city _ _) as [city|] eqn:Ef; [|discriminate].
    destruct (has_channel city); [|discriminate].
    destruct (Subscription.returned _); [|discriminate].
    apply find_city_code in Ef.
    destruct (update_user_city_some
                (db (with_subscription_cache
                       (with_rate w
                          (snd (RateLimit.check_rate_limit (rate w)
                                  (user_id (from_user m)) (time_at_limiter o))))
                       (Subscription.cache_after
                          (Subscription.check_subscription_cached
                             (subscription_cache
                                (with_rate w
                                   (snd (RateLimit.check_rate_limit (rate w)
                                           (user_id (from_user m))
                                           (time_at_limiter o)))))
                             (get_chat_member o) (user_id (from_user m))
                             (time_after o)))))
                (user_id (from_user m)) (Repo.c_code city) (Repo.c_name_uk city)
                (utcnow o) Ef) as (d' & ->).
    discriminate.
  - unfold process_city_selection.
    destruct (Repo.find_city_by_alias _ _) as [city|] eqn:Ef;
      [destruct (has_channel city)|];
      try (destruct (safe_edit_message _ _ _ _ _); discriminate).
    unfold check_subscription_cached.
    destruct (Subscription.returned _);
      [|destruct (safe_edit_message _ _ _ _ _); discriminate].
    apply find_city_by_alias_code in Ef.
    rewrite send_city_channel_raises; [discriminate | exact Ef].
  - unfold check_subscription_callback, check_subscription_cached.
    destruct (negb _); [discriminate |].
    destruct (Subscription.returned _); [|discriminate].
    cbn [db with_subscription_cache].
    destruct (Repo.find_city_by_alias _ _) as [city|] eqn:Ef; [|discriminate].
    apply find_city_by_alias_code in Ef.
    rewrite send_city_channel_raises; [discriminate | exact Ef].
Qed.


(** X25: [/start], when the limiter lets it through, makes the sender
    known: on a table with unique keys the user is found afterwards under
    the names of the message, the keys stay unique, and the FSM context of
    the user is cleared. It changes no flag: the recipient snapshot gains
    the sender when the sender is new and is as before otherwise, so a user
    that blocked the bot stays out of the broadcasts after coming back. *)
Theorem X25_start_registers_the_sender w o m :
  fst (RateLimit.check_rate_limit (rate w) (user_id (from_user m)) (time_at_limiter o))
    = true ->
  Full.well_keyed (db w) ->
  let r := cmd_start w o m in
  let tg := user_id (from_user m) in
  raised r = None /\
  session_of (after r) tg = Session None ∅ /\
  Full.well_keyed (db (after r)) /\
  (exists u, Full.get_user_by_tg_id (db (after r)) tg = Some u /\
     Full.username u = user_username (from_user m) /\
     Full.first_name u = user_first_name (from_user m)) /\
  Repo.get_all_users (Full.core (db (after r)))
  = if existsb (Full.has_tg tg) (Full.users (db w))
    then Repo.get_all_users (Full.core (db w))
    else (Repo.get_all_users (Full.core (db w)) ++ [tg])%list.
Proof.
  intros Hadm Hkeys r tg. subst r tg.
  unfold cmd_start, check_rate_limit. rewrite Hadm.
  cbn [negb raised after db with_db clear_state with_fsm with_rate].
  split; [reflexivity |]. split.
  { unfold session_of, with_db, clear_state, with_fsm. cbn [fsm].
      rewrite lookup_insert_eq. reflexivity. }
  pose proof (save_user_upsert (db w) (user_id (from_user m))
                (user_username (from_user m)) (user_first_name (from_user m)) None
                (utcnow o) (engine_now o) Hkeys) as [Hk (u & Hu & _ & _ & Hn & Hf & _)].
  split; [exact Hk |]. split; [exists u; auto |].
  apply save_user_snapshot.
Qed.

Lemma find_city_by_alias_none d input :
  Forall (fun a => Text.lower (Repo.alias a) <> Text.lower (Text.strip input))
         (Repo.city_aliases d) ->
  Repo.find_city_by_alias d input = None.
Proof.
  intros H. unfold Repo.find_city_by_alias.
  assert (E : List.filter
                (fun ac => String.eqb (Text.lower (Repo.alias (fst ac)))
                             (Text.lower (Text.strip input))
                           && Repo.city_is_active (snd ac))
                (Repo.alias_join d) = []).
  { assert (Hall : forall ac, In ac (Repo.alias_join d) ->
                String.eqb (Text.lower (Repo.alias (fst ac)))
                  (Text.lower (Text.strip input)) = false).
    { intros [a row] Hin. apply In_alias_join in Hin as (Ha & _ & _).
      rewrite Forall_forall in H. apply String.eqb_neq, H, list_elem_of_In, Ha. }
    induction (Repo.alias_join d) as [|ac l IH]; [reflexivity |]. simpl.
    rewrite (Hall ac) by (left; reflexivity). simpl.
    apply IH. intros ac' Hin. apply Hall. right. exact Hin. }
  rewrite E. reflexivity.
Qed.

(** X26: a city button is looked up by alias, with the code it carries.
    When no alias of any city equals the code of the button, case set
    aside, pressing the button of a city, also of one that is active and
    has a channel, only writes that the city is not found or has no
    channel: no link is shown, no subscription check is made, and the FSM
    context and the database are as before. *)
Theorem X26_a_button_needs_the_code_among_the_aliases w o cb name code :
  cb_data cb = callback_data (CityButton name code) ->
  occurs "city_" code = false ->
  Forall (fun a => Text.lower (Repo.alias a) <> Text.lower (Text.strip code))
         (Full.city_aliases (db w)) ->
  let r := process_city_selection w o cb in
  acts r = fst (safe_edit_message w o cb SelectionUnavailable (cities_keyboard w)) /\
  links (acts r) = [] /\ raised r = None /\
  fsm (after r) = fsm w /\ db (after r) = db w /\
  subscription_cache (after r) = subscription_cache w.
Proof.
  intros Hdata Hocc Hal r. subst r. unfold process_city_selection.
  rewrite Hdata.
  assert (Ec : city_code_of (callback_data (CityButton name code)) = code)
    by (transitivity (cut_from "city_" 0 code);
        [reflexivity | apply cut_no_occurrence; exact Hocc]).
  rewrite Ec.
  rewrite (find_city_by_alias_none (Full.core (db w)) code Hal).
  pose proof (safe_edit_message_keeps w o cb SelectionUnavailable (cities_keyboard w))
    as Hk.
  cbv zeta in Hk. destruct (safe_edit_message _ _ _ _ _) as [edits w1].
  cbn [fst snd acts after raised] in *. destruct Hk as (Hd & Hf & Hs & _ & Hl).
  split; [reflexivity |]. split; [apply Hl; reflexivity |]. auto.
Qed.

(** X27: a subscriber who types a city that resolves to a city with a
    channel gets one answer, with the link to the channel of that city;
    the display name of the city is written into [last_city] of the user,
    and the FSM context of the user is cleared. *)
Theorem X27_a_subscriber_gets_the_link_of_the_resolved_city w o m t city :
  fst (RateLimit.check_rate_limit (rate w) (user_id (from_user m)) (time_at_limiter o))
    = true ->
  text m = Some t ->
  find_city (Full.core (db w)) (Text.strip t) = Some city ->
  has_channel city = true ->
  Subscription.returned
    (Subscription.check_subscription_cached (subscription_cache w)
       (get_chat_member o) (user_id (from_user m)) (time_after o)) = true ->
  let r := handle_city_text_input w o m in
  let tg := user_id (from_user m) in
  acts r = [MessageAnswer (FoundWithLink (Repo.c_name_uk city))
              (FoundLinkKeyboard (Repo.c_channel_url city))] /\
  raised r = None /\
  session_of (after r) tg = Session None ∅ /\
  (forall u, In u (Full.users (db (after r))) -> Full.tg_id u = tg ->
     Full.last_city u = Some (Repo.c_name_uk city)) /\
  Repo.get_all_users (Full.core (db (after r))) = Repo.get_all_users (Full.core (db w)).
Proof.
  intros Hadm Ht Hf Hch Hsub r tg. subst r tg.
  unfold handle_city_text_input, check_rate_limit, check_subscription_cached.
  rewrite Hadm, Ht. cbn [negb db with_rate]. rewrite Hf, Hch.
  cbn [subscription_cache with_rate]. rewrite Hsub.
  cbn [db with_subscription_cache with_rate].
  pose proof (find_city_code _ _ _ Hf) as Hcode.
  destruct (update_user_city_cases (db w) (user_id (from_user m)) (Repo.c_code city)
              (Repo.c_name_uk city) (utcnow o)) as (Hunknown & _ & Hknown).
  destruct (in_dec Z.eq_dec (user_id (from_user m)) (map Full.tg_id (Full.users (db w))))
    as [Hin|Hnot].
  - destruct (Hknown Hin Hcode) as (d' & -> & _ & Hlast & _ & Hsnap).
    cbn [acts raised after db with_db clear_state with_fsm].
    split; [reflexivity |]. split; [reflexivity |]. split.
    { unfold session_of, with_db, clear_state, with_fsm. cbn [fsm].
      rewrite lookup_insert_eq. reflexivity. }
    split; [|exact Hsnap].
    intros u Hu E. apply (Hlast u Hu E).
  - rewrite (Hunknown Hnot).
    cbn [acts raised after db with_db clear_state with_fsm].
    split; [reflexivity |]. split; [reflexivity |]. split.
    { unfold session_of, with_db, clear_state, with_fsm. cbn [fsm].
      rewrite lookup_insert_eq. reflexivity. }
    split; [|reflexivity].
    intros u Hu E. exfalso. apply Hnot. apply in_map_iff. eauto.
Qed.

End FlowFacts.

(** ** The delivery queue *)

Section QueueFacts.

Import Repo Queue.

Implicit Types (d : db) (t : tables) (dl : list delivery_row) (us : list user_row).

Lemma has_pair_app bid uid dl dl' :
  has_pair bid uid (dl ++ dl') = has_pair bid uid dl || has_pair bid uid dl'.
Proof. unfold has_pair. apply existsb_app. Qed.

(** The insert only appends, and afterwards every user has a row. *)
Lemma insert_deliveries_covers us dl bid :
  (exists extra, insert_deliveries us dl bid = dl ++ extra /\
     Forall (fun r => d_broadcast_id r = bid /\ d_status r = "queued"%string /\
                      d_attempts r = 0 /\ d_sent_at r = None) extra) /\
  forall u, In u us -> has_pair bid (row_id u) (insert_deliveries us dl bid) = true.
Proof.
  revert dl. induction us as [|u us IH]; intros dl; simpl.
  - split; [|tauto]. exists []. rewrite app_nil_r. split; [reflexivity | constructor].
  - destruct (has_pair bid (row_id u) dl) eqn:E.
    + destruct (IH dl) as [Hext Hcov]. split; [exact Hext |].
      intros v [<- | Hv]; [|apply Hcov, Hv].
      destruct Hext as (extra & -> & _). rewrite has_pair_app, E. reflexivity.
    + destruct (IH (dl ++ [DeliveryRow (next_delivery_id dl) bid (row_id u) "queued"%string
                                       0 None None])) as [(extra & Hext & Hf) Hcov].
      split.
      * eexists. rewrite Hext, <- app_assoc. split; [reflexivity |].
        constructor; [simpl; auto | exact Hf].
      * intros v [<- | Hv]; [|apply Hcov, Hv].
        rewrite Hext, !has_pair_app. unfold has_pair at 2. simpl.
        rewrite !Z.eqb_refl. simpl. rewrite orb_true_r. reflexivity.
Qed.

Lemma insert_deliveries_fixed us dl bid :
  (forall u, In u us -> has_pair bid (row_id u) dl = true) ->
  insert_deliveries us dl bid = dl.
Proof.
  induction us as [|u us IH]; intros H; simpl; [reflexivity |].
  rewrite (H u) by (left; reflexivity). apply IH. intros v Hv. apply H. right. exact Hv.
Qed.

(** X28: [create_deliveries_for_broadcast] only appends rows, each queued,
    without attempts and for the broadcast given, as many as it reports;
    run again on its own result it inserts nothing and reports 0. *)
Theorem X28_creating_deliveries_twice_adds_nothing d t bid n t1 :
  create_deliveries_for_broadcast d t bid = Some (n, t1) ->
  (exists extra, deliveries t1 = deliveries t ++ extra /\ length extra = n /\
     Forall (fun r => d_broadcast_id r = bid /\ d_status r = "queued"%string /\
                      d_attempts r = 0 /\ d_sent_at r = None) extra) /\
  broadcasts t1 = broadcasts t /\
  create_deliveries_for_broadcast d t1 bid = Some (0%nat, t1).
Proof.
  unfold create_deliveries_for_broadcast.
  destruct (insert_deliveries_covers (List.filter deliverable (users d))
              (deliveries t) bid) as [(extra & Hext & Hf) Hcov].
  rewrite Hext in *. rewrite length_app.
  replace (length (deliveries t) + length extra - length (deliveries t))%nat
    with (length extra) by lia.
  intros H.
  assert (Hd1 : deliveries t1 = deliveries t ++ extra /\ length extra = n /\
                broadcasts t1 = broadcasts t).
  { destruct (length extra) eqn:El.
    - injection H as <- <-. destruct extra; [|discriminate].
      rewrite app_nil_r. auto.
    - destruct (existsb _ _); [|discriminate]. injection H as <- <-. auto. }
  destruct Hd1 as (Hd1 & Hn & Hb).
  split; [exists extra; auto |]. split; [exact Hb |].
  rewrite Hd1, insert_deliveries_fixed by exact Hcov.
  rewrite Nat.sub_diag. reflexivity.
Qed.

Lemma In_insert_by_id x y l : In y (insert_by_id x l) -> y = x \/ In y l.
Proof.
  induction l as [|z l IH]; simpl.
  - intros [<- | []]. auto.
  - destruct (Z.leb _ _); simpl; intros [<- | H]; auto.
    destruct (IH H); auto.
Qed.

Lemma In_order_by_id y l : In y (order_by_id l) -> In y l.
Proof.
  induction l as [|x l IH]; simpl; [auto |].
  intros H. apply In_insert_by_id in H as [-> | H]; auto.
Qed.

(** X29: a delivery whose status was set to something other than "queued"
    is not handed out again by [get_queued_deliveries], for any broadcast
    and limit. The update counts one more attempt on the rows with the id
    given, writes the status and the error code, stamps [sent_at] only for
    the status "sent", and leaves all other rows as they were. *)
Theorem X29_a_settled_delivery_leaves_the_queue d t delivery_id status error_code now :
  status <> "queued"%string ->
  let t' := update_delivery_status t delivery_id status error_code now in
  (forall bid limit,
     Forall (fun q => q_id q <> delivery_id) (get_queued_deliveries d t' bid limit)) /\
  (forall r, In r (deliveries t') -> d_id r = delivery_id ->
     d_status r = status /\ d_error_code r = error_code /\
     exists r0, In r0 (deliveries t) /\ d_id r0 = delivery_id /\
       d_attempts r = d_attempts r0 + 1 /\
       d_sent_at r = if String.eqb status "sent"%string then Some now else d_sent_at r0) /\
  (forall r, d_id r <> delivery_id -> (In r (deliveries t') <-> In r (deliveries t))).
Proof.
  intros Hst t'. subst t'. unfold update_delivery_status. cbn [deliveries].
  assert (Hupd : forall r, In r (map (fun r => if Z.eqb (d_id r) delivery_id
                   then DeliveryRow (d_id r) (d_broadcast_id r) (d_user_id r) status
                          (d_attempts r + 1) error_code
                          (if String.eqb status "sent"%string then Some now else d_sent_at r)
                   else r) (deliveries t)) -> d_id r = delivery_id ->
            d_status r = status /\ d_error_code r = error_code /\
            exists r0, In r0 (deliveries t) /\ d_id r0 = delivery_id /\
              d_attempts r = d_attempts r0 + 1 /\
              d_sent_at r = if String.eqb status "sent"%string then Some now else d_sent_at r0).
  { intros r Hin E. apply in_map_iff in Hin as (r0 & <- & Hin).
    destruct (Z.eqb_spec (d_id r0) delivery_id) as [E0|E0]; cbn in *.
    - split; [reflexivity |]. split; [reflexivity |]. exists r0. auto.
    - contradiction. }
  split; [|split; [exact Hupd |]].
  - intros bid limit. apply Forall_forall. intros q Hq E.
    apply list_elem_of_In in Hq. unfold get_queued_deliveries in Hq.
    apply In_firstn, in_flat_map in Hq as (r & Hr & Hq).
    apply in_map_iff in Hq as (u & <- & _). cbn in E.
    apply In_order_by_id, filter_In in Hr as [Hr Hs].
    apply andb_true_iff in Hs as [_ Hs]. apply String.eqb_eq in Hs.
    cbn [deliveries] in Hr. destruct (Hupd r Hr E) as [Hs' _]. congruence.
  - intros r Hne. rewrite in_map_iff. split.
    + intros (r0 & <- & Hin).
      destruct (Z.eqb_spec (d_id r0) delivery_id) as [E0|E0]; cbn in *;
        [contradiction | exact Hin].
    + intros Hin. exists r. split; [|exact Hin].
      destruct (Z.eqb_spec (d_id r) delivery_id); [contradiction | reflexivity].
Qed.









End QueueFacts.

(** ** The further properties at concrete runs *)

Lemma X9_forbidden_recipients_leave_the_snapshot_witness :
  Repo.get_all_users
    (Bot.database
       (snd (fst (Bot.process_broadcast 1 Bot.three_users
                    (fun _ user => if Z.eqb user 22 then Bot.Forbidden else Bot.Failed)
                    (fun _ => "t1"%string)
                    (Bot.Message 1 (Some "hello"%string) None None)))))
  = [11; 33].
Proof.
  assert (Hne : Repo.get_all_users (Bot.database Bot.three_users) <> [])
    by (simpl; discriminate).
  rewrite (X9_forbidden_recipients_leave_the_snapshot 1 Bot.three_users
             (fun _ user => if Z.eqb user 22 then Bot.Forbidden else Bot.Failed)
             (fun _ => "t1"%string)
             (Bot.Message 1 (Some "hello"%string) None None) eq_refl eq_refl Hne).
  reflexivity.
Defined.

Lemma X10_progress_every_ten_recipients_witness :
  map Broadcast.reported
    (Broadcast.progress_edits
       (fst (fst (Bot.process_broadcast 1 (Broadcast.crowd 25)
                    (fun _ _ => Bot.Delivered) (fun _ => "t1"%string)
                    (Bot.Message 1 (Some "hello"%string) None None)))))
  = [10; 20]%nat.
Proof.
  assert (Hne : Repo.get_all_users (Bot.database (Broadcast.crowd 25)) <> [])
    by (vm_compute; discriminate).
  destruct (X10_progress_every_ten_recipients 1 (Broadcast.crowd 25)
              (fun _ _ => Bot.Delivered) (fun _ => "t1"%string)
              (Bot.Message 1 (Some "hello"%string) None None) eq_refl eq_refl Hne)
    as [_ H].
  rewrite H. vm_compute. reflexivity.
Defined.

Lemma X12_reset_lets_everyone_in_again_witness :
  Bot.rate (snd (Bot.admin_clear_cache 1 Bot.three_users (Bot.CallbackQuery 1 1 5)))
  = RateLimit.empty_store.
Proof.
  destruct (X12_reset_lets_everyone_in_again 1 Bot.three_users
              (Bot.CallbackQuery 1 1 5) eq_refl) as [H _].
  exact H.
Defined.

Lemma one_blocked_user_well_keyed : Full.well_keyed Full.one_blocked_user.
Proof. split; apply NoDup_singleton. Qed.

Lemma X15_save_user_is_an_upsert_witness :
  Full.well_keyed
    (snd (Full.save_user Full.one_blocked_user 11 (Some "olena2"%string)
            (Some "Olena"%string) None "t2" "t2")).
Proof.
  destruct (X15_save_user_is_an_upsert Full.one_blocked_user 11
              (Some "olena2"%string) (Some "Olena"%string) None "t2" "t2"
              one_blocked_user_well_keyed) as [H _].
  exact H.
Defined.

Lemma X21_a_limited_event_is_dropped_in_silence_witness :
  Flow.acts
    (Flow.run_limited Flow.HelpRequest
       (Flow.after (Flow.cmd_start (Flow.world_of Full.empty)
                      (Flow.outside_at 100 Subscription.ApiError) (Flow.says "/start")))
       (Flow.outside_at 101 Subscription.ApiError) (Flow.says "help"))
  = [].
Proof.
  rewrite (X21_a_limited_event_is_dropped_in_silence Flow.HelpRequest
             (Flow.after (Flow.cmd_start (Flow.world_of Full.empty)
                            (Flow.outside_at 100 Subscription.ApiError)
                            (Flow.says "/start")))
             (Flow.outside_at 101 Subscription.ApiError) (Flow.says "help")).
  - reflexivity.
  - vm_compute. reflexivity.
Defined.

Lemma X22_no_link_without_subscription_witness :
  Flow.links
    (Flow.acts (Flow.run_city (Flow.world_of Full.one_blocked_user)
                  (Flow.outside_at 100 (Subscription.Member "left"))
                  (Flow.TypedCity (Flow.says "kyiv"))))
  = [].
Proof.
  apply (X22_no_link_without_subscription (Flow.world_of Full.one_blocked_user)
           (Flow.outside_at 100 (Subscription.Member "left"))
           (Flow.TypedCity (Flow.says "kyiv"))).
  vm_compute. reflexivity.
Defined.


Lemma X25_start_registers_the_sender_witness :
  Repo.get_all_users
    (Full.core
       (Flow.db (Flow.after (Flow.cmd_start (Flow.world_of Full.one_blocked_user)
                               (Flow.outside_at 100 Subscription.ApiError)
                               (Flow.says "/start")))))
  = [].
Proof.
  destruct (X25_start_registers_the_sender (Flow.world_of Full.one_blocked_user)
              (Flow.outside_at 100 Subscription.ApiError) (Flow.says "/start"))
    as (_ & _ & _ & _ & H).
  - vm_compute. reflexivity.
  - exact one_blocked_user_well_keyed.
  - rewrite H. reflexivity.
Defined.

Lemma X26_a_button_needs_the_code_among_the_aliases_witness :
  Flow.acts
    (Flow.process_city_selection (Flow.world_of Flow.code_is_no_alias)
       (Flow.outside_at 100 (Subscription.Member "member"))
       (Flow.CallbackQuery 11 11 5 "city_kyiv"))
  = [Flow.EditText 11 5 Flow.SelectionUnavailable
       (Flow.cities_keyboard (Flow.world_of Flow.code_is_no_alias))].
Proof.
  destruct (X26_a_button_needs_the_code_among_the_aliases
              (Flow.world_of Flow.code_is_no_alias)
              (Flow.outside_at 100 (Subscription.Member "member"))
              (Flow.CallbackQuery 11 11 5 "city_kyiv") "Kyiv" "kyiv")
    as [H _].
  - reflexivity.
  - reflexivity.
  - repeat constructor. simpl. discriminate.
  - rewrite H. reflexivity.
Defined.

Lemma X27_a_subscriber_gets_the_link_of_the_resolved_city_witness :
  Flow.acts
    (Flow.handle_city_text_input (Flow.world_of Full.one_blocked_user)
       (Flow.outside_at 100 (Subscription.Member "member")) (Flow.says " kyiv "))
  = [Flow.MessageAnswer (Flow.FoundWithLink "Kyiv")
       (Flow.FoundLinkKeyboard (Some "https://t.me/kyiv"%string))].
Proof.
  destruct (X27_a_subscriber_gets_the_link_of_the_resolved_city
              (Flow.world_of Full.one_blocked_user)
              (Flow.outside_at 100 (Subscription.Member "member"))
              (Flow.says " kyiv ") " kyiv "
              (Repo.City "kyiv" "Kyiv" (Some "https://t.me/kyiv"%string)))
    as [H _]; [vm_compute; reflexivity .. | exact H].
Defined.

Lemma X28_creating_deliveries_twice_adds_nothing_witness :
  Queue.create_deliveries_for_broadcast (Bot.database Bot.three_users)
    (Queue.Tables [7]
       [Queue.DeliveryRow 1 7 1 "queued" 0 None None;
        Queue.DeliveryRow 2 7 2 "queued" 0 None None;
        Queue.DeliveryRow 3 7 3 "queued" 0 None None]) 7
  = Some (0%nat,
          Queue.Tables [7]
            [Queue.DeliveryRow 1 7 1 "queued" 0 None None;
             Queue.DeliveryRow 2 7 2 "queued" 0 None None;
             Queue.DeliveryRow 3 7 3 "queued" 0 None None]).
Proof.
  destruct (X28_creating_deliveries_twice_adds_nothing
              (Bot.database Bot.three_users) Queue.one_broadcast 7 3%nat
              (Queue.Tables [7]
                 [Queue.DeliveryRow 1 7 1 "queued" 0 None None;
                  Queue.DeliveryRow 2 7 2 "queued" 0 None None;
                  Queue.DeliveryRow 3 7 3 "queued" 0 None None]))
    as (_ & _ & H); [vm_compute; reflexivity | exact H].
Defined.

Lemma X29_a_settled_delivery_leaves_the_queue_witness :
  Forall (fun q => Queue.q_id q <> 2)
    (Queue.get_queued_deliveries (Bot.database Bot.three_users)
       (Queue.update_delivery_status
          (Queue.Tables [7]
             [Queue.DeliveryRow 1 7 1 "queued" 0 None None;
              Queue.DeliveryRow 2 7 2 "queued" 0 None None])
          2 "blocked" (Some "403"%string) "t3")
       7 100).
Proof.
  destruct (X29_a_settled_delivery_leaves_the_queue (Bot.database Bot.three_users)
              (Queue.Tables [7]
                 [Queue.DeliveryRow 1 7 1 "queued" 0 None None;
                  Queue.DeliveryRow 2 7 2 "queued" 0 None None])
              2 "blocked" (Some "403"%string) "t3")
    as [H _]; [discriminate | apply H].
Defined.

